(** * CORVUS_py: per-pixel model of the phenology fitter and of the
      neighbour-based cloud filter

    The two algorithms of [corvus_py.phenology_extraction] are written
    against Google Earth Engine.  Every Earth Engine image operation they
    use acts pixel by pixel, so the development fixes one pixel and follows
    the value and the mask of every band at that pixel.

    Numbers are exact rationals: Earth Engine computes in floating point,
    and the casts [toFloat], [float] and [int] of the source are the
    identity here.  Where rounding decides a statement, the rejection stage
    of [get_window_fit] is written out a second time over binary64
    numbers ([Binary64]).

    The image preparation of [corvus_py.landsat] (cloud masks, scale
    factors, vegetation indices, common band names and the collection
    builders) is modelled in the same way, an image being the list of its
    named bands at the pixel. *)

From Stdlib Require Import QArith Qround ZArith List Bool Lia Lqa Permutation Sorted.
From Stdlib Require String.
From Stdlib Require Floats.
Import ListNotations.

Local Open Scope Z_scope.

(** ** Earth Engine pixel arithmetic *)

Module EE.

(** One pixel of one band: the stored number and whether the pixel is
    unmasked. *)
Record pixel : Type := Pixel { val : Q; valid : bool }.

(** [ee.Image(c)]: a constant, unmasked everywhere. *)
Definition constant (c : Q) : pixel := Pixel c true.

Definition indicator (b : bool) : Q := if b then 1%Q else 0%Q.

Definition Qlt_bool (x y : Q) : bool := negb (Qle_bool y x).

(** A binary image operation: the output is masked where either input is. *)
Definition binop (f : Q -> Q -> Q) (a b : pixel) : pixel :=
  Pixel (f (val a) (val b)) (valid a && valid b).

Definition add : pixel -> pixel -> pixel := binop Qplus.
Definition subtract : pixel -> pixel -> pixel := binop Qminus.
Definition multiply : pixel -> pixel -> pixel := binop Qmult.

(** [divide] returns 0 for a division by 0. *)
Definition Qdivide (x y : Q) : Q := if Qeq_bool y 0 then 0%Q else (x / y)%Q.
Definition divide : pixel -> pixel -> pixel := binop Qdivide.

Definition gt : pixel -> pixel -> pixel :=
  binop (fun x y => indicator (Qlt_bool y x)).
Definition lt : pixel -> pixel -> pixel :=
  binop (fun x y => indicator (Qlt_bool x y)).
Definition eq : pixel -> pixel -> pixel :=
  binop (fun x y => indicator (Qeq_bool x y)).

(** [Not]: 1 where the input is zero, 0 elsewhere. *)
Definition Not (a : pixel) : pixel :=
  Pixel (indicator (Qeq_bool (val a) 0)) (valid a).

(** [unmask()]: masked pixels become 0 and valid. *)
Definition unmask (a : pixel) : pixel :=
  Pixel (if valid a then val a else 0%Q) true.

(** [img.mask()] read as an image: 1 where valid, 0 where masked. *)
Definition mask_of (a : pixel) : pixel := Pixel (indicator (valid a)) true.

Definition nonzero (m : pixel) : bool := valid m && negb (Qeq_bool (val m) 0).

(** [img.mask(m)] replaces the mask; [img.updateMask(m)] can only clear it. *)
Definition set_mask (a m : pixel) : pixel := Pixel (val a) (nonzero m).
Definition updateMask (a m : pixel) : pixel :=
  Pixel (val a) (valid a && nonzero m).

(** Number of unmasked inputs. *)
Definition count_valid (l : list pixel) : nat := length (filter valid l).

(** The [count] reducer over a collection: like every collection reducer it
    leaves the output masked where no input is valid, which is why the
    source unmasks the comparisons it makes on it. *)
Definition count (l : list pixel) : pixel :=
  Pixel (inject_Z (Z.of_nat (count_valid l))) (negb (Nat.eqb (count_valid l) 0)).

(** [ee.List.sequence(a, b)]: both ends included. *)
Definition sequence (a b : Z) : list Z :=
  map (fun i => a + Z.of_nat i) (seq 0 (Z.to_nat (b - a + 1))).

(** [ee.Number.divide]: 0 for a division by 0. *)
Definition number_divide : Q -> Q -> Q := Qdivide.

(** Dates are milliseconds since 1970-01-01T00:00. *)
Definition ms_per_day : Z := 86400000.

(** [a.difference(b, 'day')] and [a.difference(b, 'second')]. *)
Definition difference_day (a b : Z) : Q := (inject_Z (a - b) / inject_Z ms_per_day)%Q.
Definition difference_second (a b : Z) : Q := (inject_Z (a - b) / 1000)%Q.

(** [d.advance(n, 'day')] for a whole number of days. *)
Definition advance_day (d n : Z) : Z := d + n * ms_per_day.

(** Two pixels carry the same data: both masked, or both valid with equal
    numbers. *)
Definition same (a b : pixel) : Prop :=
  valid a = valid b /\ (valid a = true -> (val a == val b)%Q).

(** The operations of the Earth Engine library that the source calls and
    that are not written out here: the order-statistics and dispersion
    reducers, the robust regression reducer and the calendar. *)
Class Library : Type := {
  (** [.median()], [.min()], [.max()], [ee.Reducer.stdDev()] over the
      values of one band across a collection *)
  median : list pixel -> pixel;
  minimum : list pixel -> pixel;
  maximum : list pixel -> pixel;
  stdDev : list pixel -> pixel;
  (** [ee.Reducer.robustLinearRegression(numX, 1)] over rows of [numX]
      predictors followed by the response, flattened to [numX] coefficient
      bands *)
  robustLinearRegression : nat -> list (list pixel) -> list pixel;
  (** [d.get('year')], [ee.Date.fromYMD(y, m, d)], [d.advance(n, 'year')] *)
  get_year : Z -> Z;
  fromYMD : Z -> Z -> Z -> Z;
  advance_year : Z -> Z -> Z
}.

End EE.

Import EE.

(** ** phenology_extraction.py *)

Module Phenology.

(** An image of the input collection after [select(['time', band_name])]:
    the acquisition time property and the two bands at the pixel.  The
    property is absent on images built by arithmetic. *)
Record image : Type := Image {
  system_time_start : option Z;
  time : pixel;
  band : pixel
}.

(** [collection.filterDate(start, end)]: start included, end excluded. *)
Definition in_date_range (start stop : Z) (img : image) : bool :=
  match system_time_start img with
  | Some t => (start <=? t) && (t <? stop)
  | None => false
  end.

Definition filterDate (start stop : Z) (c : list image) : list image :=
  filter (in_date_range start stop) c.

(** [a.merge(b)] *)
Definition merge (a b : list image) : list image := a ++ b.

(** The bands of one output image of [get_window_fit], in the order of the
    final [rename]. *)
Record prediction_record : Type := PredictionRecord {
  out_median : pixel;
  out_time : pixel;
  out_prediction_filtered : pixel;
  out_clear_images : pixel;
  out_window_size : pixel;
  out_min : pixel;
  out_max : pixel;
  out_stdev : pixel;
  out_linear_coef : pixel;
  out_quadratic_coef : pixel
}.

(** Images of [regression_data]: the window image with the bands added by
    [addTimeSquared] and [addConstant]. *)
Record regression_image : Type := RegressionImage {
  source_image : image;
  time_sq : pixel;
  constant_band : option pixel
}.

Section GetWindowFit.

Context {L : Library}.

(** [input_collection.median()], for a collection that is not empty (see
    [median_image] below for the empty one) *)
Definition collection_median_of (c : list image) : image :=
  Image None (median (map time c)) (median (map band c)).

Variable input_collection : list image.
Variables advance_window_width following_window_width : Z.
Variable target_date : Z.
Variables min_value max_value : Q.
Variable collection_median_arg : option image.
Variable wrap_data : bool.

Definition collection_median : image :=
  match collection_median_arg with
  | Some m => m
  | None => collection_median_of input_collection
  end.

Definition target_time : Q :=
  (difference_second target_date 0 / (36525 / 100 * 24 * 3600) + 1970)%Q.

(** *** Temporal window of reference scenes *)

Definition window_start_date : Z := advance_day target_date (- advance_window_width).
Definition window_end_date : Z := advance_day target_date following_window_width.

Definition advance_window : list image :=
  filterDate window_start_date target_date input_collection.
Definition following_window : list image :=
  filterDate target_date window_end_date input_collection.

Definition target_year : Z := get_year target_date.
Definition target_year_start : Z := fromYMD target_year 1 1.
Definition target_year_end : Z := fromYMD target_year 12 31.

Definition addYear (img : image) : image :=
  Image (system_time_start img) (add (time img) (constant 1)) (band img).
Definition subtractYear (img : image) : image :=
  Image (system_time_start img) (subtract (time img) (constant 1)) (band img).

Definition following_window_wrapped : list image :=
  map addYear
    (filterDate target_year_start
       (advance_day (advance_year target_date (-1)) following_window_width)
       input_collection).
Definition advance_window_wrapped : list image :=
  map subtractYear
    (filterDate
       (advance_day (advance_year target_date 1) (- advance_window_width))
       target_year_end
       input_collection).

(** The window before the guard image is merged in. *)
Definition selected_window : list image :=
  if wrap_data
  then merge (merge (merge advance_window following_window)
                advance_window_wrapped) following_window_wrapped
  else merge advance_window following_window.

(** [collection_median.multiply(ee.Image(0.0)).mask(ee.Image(0))], cast to
    the band types of the collection. *)
Definition zero_masked (b : pixel) : pixel :=
  set_mask (multiply b (constant 0)) (constant 0).
Definition guard_image : image :=
  Image None (zero_masked (time collection_median))
             (zero_masked (band collection_median)).

Definition window : list image := merge selected_window [guard_image].

(** *** Regression fitting and prediction *)

Definition addTimeSquared (img : image) : regression_image :=
  RegressionImage img (multiply (time img) (time img)) None.
Definition addConstant (r : regression_image) : regression_image :=
  RegressionImage (source_image r) (time_sq r) (Some (constant 1)).

Definition regression_data : list regression_image :=
  map addConstant (map addTimeSquared window).

Definition masked : pixel := Pixel 0 false.
Definition constant_of (r : regression_image) : pixel :=
  match constant_band r with Some c => c | None => masked end.

(** [select(['constant','time','time_sq',band_name])] and
    [select(['constant','time',band_name])], one row per image. *)
Definition quadratic_row (r : regression_image) : list pixel :=
  [constant_of r; time (source_image r); time_sq r; band (source_image r)].
Definition linear_row (r : regression_image) : list pixel :=
  [constant_of r; time (source_image r); band (source_image r)].

Definition quadratic_coeffs : list pixel :=
  robustLinearRegression 3 (map quadratic_row regression_data).
Definition linear_coeffs : list pixel :=
  robustLinearRegression 2 (map linear_row regression_data).

(** [coeffs.select(name)] by position in the flattened band list. *)
Definition coeff (cs : list pixel) (i : nat) : pixel := nth i cs masked.

Definition quadratic_prediction : pixel :=
  add (add (coeff quadratic_coeffs 0)
           (multiply (coeff quadratic_coeffs 1) (constant target_time)))
      (multiply (multiply (coeff quadratic_coeffs 2) (constant target_time))
                (constant target_time)).
Definition linear_prediction : pixel :=
  add (coeff linear_coeffs 0)
      (multiply (coeff linear_coeffs 1) (constant target_time)).

(** *** Choose fit by number of scenes *)

Definition regression_count : pixel :=
  count (map (fun r => band (source_image r)) regression_data).
Definition too_little_data_for_linear_mask : pixel :=
  unmask (lt regression_count (constant 3)).
Definition too_little_data_for_quadratic_mask : pixel :=
  unmask (lt regression_count (constant 6)).

Definition window_band_median : pixel := median (map band window).

Definition quadratic_or_linear : pixel :=
  add (unmask (multiply quadratic_prediction
                        (eq too_little_data_for_quadratic_mask (constant 0))))
      (multiply too_little_data_for_quadratic_mask linear_prediction).
(** The prediction that enters the rejection stage. *)
Definition model_prediction : pixel :=
  add (unmask (multiply quadratic_or_linear
                        (eq too_little_data_for_linear_mask (constant 0))))
      (multiply too_little_data_for_linear_mask window_band_median).

(** *** Reject implausible and statistically unlikely values *)

Definition too_high_mask : pixel := unmask (gt model_prediction (constant max_value)).
Definition too_low_mask : pixel := unmask (lt model_prediction (constant min_value)).

Definition neighborhood_median : pixel := median (map band window).
Definition neighborhood_min : pixel := minimum (map band window).
Definition neighborhood_max : pixel := maximum (map band window).
Definition neighborhood_stdev : pixel := stdDev (map band window).

Definition statistical_outlier_high : pixel :=
  unmask (gt model_prediction
             (add neighborhood_median
                  (multiply neighborhood_stdev (constant (3 # 2))))).
Definition statistical_outlier_low : pixel :=
  unmask (lt model_prediction
             (subtract neighborhood_median
                       (multiply neighborhood_stdev (constant (3 # 2))))).

Definition bad_data_high : pixel :=
  gt (add too_high_mask statistical_outlier_high) (constant 0).
Definition bad_data_low : pixel :=
  gt (add too_low_mask statistical_outlier_low) (constant 0).

(** The two replacement statements, in the order of the source.  In each,
    the standard deviation is an operand of the outer sum: it is added,
    then subtracted, whatever the flags are. *)
Definition after_high_replacement : pixel :=
  add (unmask (multiply model_prediction (eq bad_data_high (constant 0))))
      (add (multiply bad_data_high neighborhood_median) neighborhood_stdev).
Definition model_prediction_filtered : pixel :=
  add (unmask (multiply after_high_replacement (eq bad_data_low (constant 0))))
      (subtract (multiply bad_data_low neighborhood_median) neighborhood_stdev).

(** *** Result *)

Definition get_window_fit : prediction_record :=
  PredictionRecord
    neighborhood_median
    (constant target_time)
    model_prediction_filtered
    (count (map band window))
    (count (map (fun img => unmask (band img)) window))
    neighborhood_min
    neighborhood_max
    neighborhood_stdev
    (coeff linear_coeffs 0)
    (coeff quadratic_coeffs 0).

(** *** The call on an empty collection *)

(** [input_collection.median()] as an image with its bands: the images of
    the collection lend it theirs, and the median of an empty collection
    has no band at all. *)
Definition median_image (c : list image) : option image :=
  match c with
  | [] => None
  | _ :: _ => Some (collection_median_of c)
  end.

(** The collection median that the guard image is made of: the argument
    when one is passed, an image with the two bands, and the median of the
    collection otherwise. *)
Definition collection_median_image : option image :=
  match collection_median_arg with
  | Some m => Some m
  | None => median_image input_collection
  end.

(** The guard image after [.cast(collection_median.bandTypes(), ['time',
    band_name])]: the cast names the two bands and is an error on an image
    that lacks them. *)
Definition cast_guard_image : option image :=
  match collection_median_image with
  | Some m => Some (Image None (zero_masked (time m)) (zero_masked (band m)))
  | None => None
  end.

(** The window as the program builds it and the record it returns: an
    error of the guard image is an error of both. *)
Definition window_or_error : option (list image) :=
  match cast_guard_image with
  | Some guard => Some (merge selected_window [guard])
  | None => None
  end.
Definition run_get_window_fit : option prediction_record :=
  match window_or_error with
  | Some _ => Some get_window_fit
  | None => None
  end.

End GetWindowFit.

Section FitPhenology.

Context {L : Library}.

Variable input_collection : list image.
Variables advance_window_width following_window_width : Z.
Variable num_time_steps : Z.
Variables min_date max_date : Z.
Variables min_value max_value : Q.
Variable wrap_data : bool.

Definition timing_interval : Z :=
  Qfloor (number_divide (difference_day max_date min_date) (inject_Z num_time_steps)).

Definition sampleDate (index : Z) : Z :=
  advance_day min_date (index * timing_interval).

Definition target_dates : list Z := map sampleDate (sequence 0 num_time_steps).

Definition fitAllDays (target_date : Z) : prediction_record :=
  get_window_fit input_collection advance_window_width following_window_width
    target_date min_value max_value
    (Some (collection_median_of input_collection)) wrap_data.

Definition fit_phenology : list prediction_record := map fitAllDays target_dates.

End FitPhenology.

(** What a caller of a function observes: the value returned, or an error
    raised before anything is returned. *)
Inductive outcome (A : Type) : Type :=
| Returned (a : A)
| ConfigurationError.
Arguments Returned {A} a.
Arguments ConfigurationError {A}.

(** A call of [fit_phenology].  The body has no [raise] and no test on its
    parameters, and every Earth Engine call in it only builds a deferred
    expression, so the call always returns the collection. *)
Definition call_fit_phenology {L : Library}
    (input_collection : list image)
    (advance_window_width following_window_width num_time_steps : Z)
    (min_date max_date : Z) (min_value max_value : Q) (wrap_data : bool)
    : outcome (list prediction_record) :=
  Returned (fit_phenology input_collection advance_window_width
              following_window_width num_time_steps min_date max_date
              min_value max_value wrap_data).

End Phenology.

(** ** The rejection stage in binary64 *)

(** Lines 142 to 162 of [get_window_fit] once more, at one pixel and in the
    arithmetic of the program: IEEE-754 binary64, rounding to nearest.  The
    prediction, the window median and the window standard deviation are
    the inputs; the definitions are those of [Phenology], operation for
    operation. *)
Module Binary64.

Import PrimFloat.
Local Set Warnings "-inexact-float".

Record pixel : Type := Pixel { val : float; valid : bool }.

Definition constant (c : float) : pixel := Pixel c true.

Definition indicator (b : bool) : float := if b then 1%float else 0%float.

Definition binop (f : float -> float -> float) (a b : pixel) : pixel :=
  Pixel (f (val a) (val b)) (valid a && valid b).

Definition add : pixel -> pixel -> pixel := binop PrimFloat.add.
Definition subtract : pixel -> pixel -> pixel := binop PrimFloat.sub.
Definition multiply : pixel -> pixel -> pixel := binop PrimFloat.mul.

Definition gt : pixel -> pixel -> pixel :=
  binop (fun x y => indicator (PrimFloat.ltb y x)).
Definition lt : pixel -> pixel -> pixel :=
  binop (fun x y => indicator (PrimFloat.ltb x y)).
Definition eq : pixel -> pixel -> pixel :=
  binop (fun x y => indicator (PrimFloat.eqb x y)).

Definition unmask (a : pixel) : pixel :=
  Pixel (if valid a then val a else 0%float) true.

Section RejectionStage.

Variables model_prediction neighborhood_median neighborhood_stdev : pixel.
Variables min_value max_value : float.

Definition too_high_mask : pixel := unmask (gt model_prediction (constant max_value)).
Definition too_low_mask : pixel := unmask (lt model_prediction (constant min_value)).

Definition statistical_outlier_high : pixel :=
  unmask (gt model_prediction
             (add neighborhood_median
                  (multiply neighborhood_stdev (constant 1.5%float)))).
Definition statistical_outlier_low : pixel :=
  unmask (lt model_prediction
             (subtract neighborhood_median
                       (multiply neighborhood_stdev (constant 1.5%float)))).

Definition bad_data_high : pixel :=
  gt (add too_high_mask statistical_outlier_high) (constant 0%float).
Definition bad_data_low : pixel :=
  gt (add too_low_mask statistical_outlier_low) (constant 0%float).

Definition after_high_replacement : pixel :=
  add (unmask (multiply model_prediction (eq bad_data_high (constant 0%float))))
      (add (multiply bad_data_high neighborhood_median) neighborhood_stdev).
Definition model_prediction_filtered : pixel :=
  add (unmask (multiply after_high_replacement (eq bad_data_low (constant 0%float))))
      (subtract (multiply bad_data_low neighborhood_median) neighborhood_stdev).

End RejectionStage.

End Binary64.

(** ** cloud_temporal_filter.py *)

Module CloudFilter.

(** A scene of [pheno_in] at the pixel: the acquisition time property, the
    target band and the day-of-year band.  The other bands of a scene are
    never read; they share the mask that the filter gives the target band. *)
Record scene : Type := Scene {
  system_time_start : Z;
  value : pixel;
  DOY : pixel
}.

(** A two-band image [band_name, 'DOY'] built by arithmetic, as held in the
    running lists of the neighbour scans. *)
Record bands : Type := Bands { b_value : pixel; b_DOY : pixel }.

(** One image of the output collection: the scene with its new mask and
    the diagnostic bands. *)
Record filtered_scene : Type := FilteredScene {
  f_time_start : Z;
  f_value : pixel;
  f_DOY : pixel;
  reg_diff : pixel;
  reg_expected : pixel;
  previous : pixel;
  previous_DOY : pixel;
  next : pixel;
  next_DOY : pixel
}.

(** Errors of list indexing are threaded through [option]. *)
Definition bind {A B : Type} (m : option A) (f : A -> option B) : option B :=
  match m with Some a => f a | None => None end.

Notation "x <- m ;; k" := (bind m (fun x => k))
  (at level 61, m at next level, right associativity).

Fixpoint map_opt {A B : Type} (f : A -> option B) (l : list A) : option (list B) :=
  match l with
  | [] => Some []
  | a :: l' => b <- f a ;; bs <- map_opt f l' ;; Some (b :: bs)
  end.

(** [ee.List.get(i)]: a negative index counts from the end; an index out
    of range is an error. *)
Definition list_get {A : Type} (l : list A) (i : Z) : option A :=
  if i <? 0
  then (if Z.of_nat (length l) + i <? 0 then None
        else nth_error l (Z.to_nat (Z.of_nat (length l) + i)))
  else nth_error l (Z.to_nat i).

(** [collection.sort('system:time_start', ascending)] *)
Fixpoint insert_by (le : Z -> Z -> bool) (x : scene) (l : list scene) : list scene :=
  match l with
  | [] => [x]
  | y :: l' =>
      if le (system_time_start x) (system_time_start y)
      then x :: l
      else y :: insert_by le x l'
  end.

Definition sort_by (le : Z -> Z -> bool) (l : list scene) : list scene :=
  fold_right (insert_by le) [] l.

Definition sort (ascending : bool) (l : list scene) : list scene :=
  sort_by (if ascending then Z.leb else Z.geb) l.

(** [collection.limit(n, 'system:time_start', ascending)] *)
Definition limit (n : nat) (ascending : bool) (l : list scene) : list scene :=
  firstn n (sort ascending l).

(** [collection.iterate(f, first)] *)
Definition iterate {A S : Type} (f : A -> S -> S) (first : S) (c : list A) : S :=
  fold_left (fun acc img => f img acc) c first.

Definition year_ms : Z := 31536000000.

Section CloudTemporalFilter.

Variable pheno_in : list scene.
Variables threshold_low threshold_high : Q.
Variable num_padding_scenes : nat.

(** *** Buffer time series *)

Definition buffer_start (img : scene) : scene :=
  Scene (system_time_start img + year_ms) (value img)
        (add (DOY img) (constant 365)).
Definition first_few_scenes : list scene :=
  map buffer_start (limit num_padding_scenes true pheno_in).

Definition buffer_end (img : scene) : scene :=
  Scene (system_time_start img - year_ms) (value img)
        (subtract (DOY img) (constant 365)).
Definition last_few_scenes : list scene :=
  map buffer_end (limit num_padding_scenes false pheno_in).

Definition subset_bands_and_update_mask (img : scene) : scene :=
  Scene (system_time_start img)
        (updateMask (value img) (mask_of (value img)))
        (updateMask (DOY img) (mask_of (value img))).

Definition pheno_buffered : list scene :=
  map subset_bands_and_update_mask
      (sort true (last_few_scenes ++ (pheno_in ++ first_few_scenes))).

(** *** Find preceding and following images for each image *)

Definition first : list bands := [Bands (constant 0) (constant 0)].

Definition carry (current_unmasked image_band previous_band : pixel) : pixel :=
  add (multiply (unmask image_band) current_unmasked)
      (multiply (unmask previous_band) (Not current_unmasked)).

Definition get_previous_unmasked_scene (image : scene) (running_list : list bands)
    : list bands :=
  let previous := last running_list (Bands (constant 0) (constant 0)) in
  let current_unmasked := mask_of (value image) in
  running_list ++
    [Bands (carry current_unmasked (value image) (b_value previous))
           (carry current_unmasked (DOY image) (b_DOY previous))].

Definition previous_unmasked_scene_all : list bands :=
  iterate get_previous_unmasked_scene first pheno_buffered.

Definition indices_to_retain : list Z :=
  sequence (Z.of_nat num_padding_scenes + 1)
           (Z.of_nat (length previous_unmasked_scene_all)
            - Z.of_nat num_padding_scenes - 1).

Definition get_retained_previous_image (ind : Z) : option bands :=
  list_get previous_unmasked_scene_all (ind - 1).

Definition previous_unmasked_scene : option (list bands) :=
  map_opt get_retained_previous_image indices_to_retain.

Definition last_ : list bands := [Bands (constant 0) (constant 365)].

Definition next_unmasked_scene_all : list bands :=
  iterate get_previous_unmasked_scene last_ (sort false pheno_buffered).

Definition get_retained_next_image (ind : Z) : option bands :=
  list_get next_unmasked_scene_all (ind * (-1) - 1).

Definition next_unmasked_scene : option (list bands) :=
  map_opt get_retained_next_image indices_to_retain.

(** *** List of the target images *)

Definition get_list_iterator (image : scene) (image_list : list scene) : list scene :=
  image_list ++ [image].

(** [pheno_in.first().mask(1).multiply(0)]; there is no first image in an
    empty collection. *)
Definition first_input : option (list scene) :=
  match pheno_in with
  | [] => None
  | img :: _ =>
      Some [Scene (system_time_start img)
              (multiply (set_mask (value img) (constant 1)) (constant 0))
              (multiply (set_mask (DOY img) (constant 1)) (constant 0))]
  end.

Definition pheno_in_list : option (list scene) :=
  filler <- first_input ;;
  Some (iterate get_list_iterator filler (sort true pheno_in)).

(** The computation of [check_value] once the three images are at hand. *)
Definition neighbor_change (previous_scene next_scene : bands) : bands :=
  Bands (subtract (b_value next_scene) (b_value previous_scene))
        (subtract (b_DOY next_scene) (b_DOY previous_scene)).

Definition slope (previous_scene next_scene : bands) : pixel :=
  divide (b_value (neighbor_change previous_scene next_scene))
         (b_DOY (neighbor_change previous_scene next_scene)).

Definition expected_value (previous_scene next_scene : bands)
    (current_scene : scene) : pixel :=
  add (multiply (subtract (DOY current_scene) (b_DOY previous_scene))
                (slope previous_scene next_scene))
      (b_value previous_scene).

Definition difference (previous_scene next_scene : bands)
    (current_scene : scene) : pixel :=
  subtract (value current_scene)
           (expected_value previous_scene next_scene current_scene).

Definition allowed (previous_scene next_scene : bands)
    (current_scene : scene) : pixel :=
  let within_low_threshold :=
    lt (constant threshold_low)
       (difference previous_scene next_scene current_scene) in
  let within_high_threshold :=
    gt (constant threshold_high)
       (difference previous_scene next_scene current_scene) in
  multiply within_low_threshold within_high_threshold.

Definition check (previous_scene next_scene : bands) (current_scene : scene)
    : filtered_scene :=
  FilteredScene (system_time_start current_scene)
    (updateMask (value current_scene)
       (allowed previous_scene next_scene current_scene))
    (updateMask (DOY current_scene)
       (allowed previous_scene next_scene current_scene))
    (difference previous_scene next_scene current_scene)
    (expected_value previous_scene next_scene current_scene)
    (b_value previous_scene)
    (b_DOY previous_scene)
    (b_value next_scene)
    (b_DOY next_scene).

Definition check_value (ind : Z) : option filtered_scene :=
  previous_list <- previous_unmasked_scene ;;
  next_list <- next_unmasked_scene ;;
  targets <- pheno_in_list ;;
  previous_scene <- list_get previous_list ind ;;
  next_scene <- list_get next_list ind ;;
  current_scene <- list_get targets (ind + 1) ;;
  Some (check previous_scene next_scene current_scene).

Definition target_sequence : list Z :=
  sequence 0 (Z.of_nat (length pheno_in) - 1).

Definition cloud_temporal_filter : option (list filtered_scene) :=
  map_opt check_value target_sequence.

End CloudTemporalFilter.

End CloudFilter.

(** ** landsat/basic_processing.py and landsat/collection_building.py *)

Module Landsat.

Import String.
Local Open Scope string_scope.
Local Open Scope list_scope.

Local Notation "x <- m ;; k" := (CloudFilter.bind m (fun x => k))
  (at level 61, m at next level, right associativity).

(** A Landsat image at the pixel: the acquisition time property and the
    bands in their order, each under its name. *)
Record image : Type := Image {
  system_time_start : Z;
  bands : list (string * pixel)
}.

(** *** Image operations of Earth Engine used by the two files *)

Fixpoint lookup (name : string) (bs : list (string * pixel)) : option pixel :=
  match bs with
  | [] => None
  | (n, p) :: rest => if String.eqb n name then Some p else lookup name rest
  end.

Definition bandNames (img : image) : list string := map fst (bands img).

(** [image.select(name)] for one band: an error when no band has the
    name. *)
Definition band (name : string) (img : image) : option pixel :=
  lookup name (bands img).

(** [image.select([names])] *)
Definition select (names : list string) (img : image) : option image :=
  bs <- CloudFilter.map_opt (fun n => p <- band n img ;; Some (n, p)) names ;;
  Some (Image (system_time_start img) bs).

(** [image.select('SR_B.*')]: the bands whose name starts with the text
    before the wildcard; an error when the pattern matches no band. *)
Definition select_starting (start : string) (img : image) : option image :=
  match filter (fun b => prefix start (fst b)) (bands img) with
  | [] => None
  | bs => Some (Image (system_time_start img) bs)
  end.

(** [image.rename([names])]: as many names as bands. *)
Definition rename (names : list string) (img : image) : option image :=
  if Nat.eqb (List.length names) (List.length (bands img))
  then Some (Image (system_time_start img) (combine names (map snd (bands img))))
  else None.

(** [image.addBands(other)], for bands under names the image does not
    have yet. *)
Definition addBands (img : image) (other : list (string * pixel)) : image :=
  Image (system_time_start img) (bands img ++ other).

(** An operation applied to every band. *)
Definition on_bands (f : pixel -> pixel) (img : image) : image :=
  Image (system_time_start img) (map (fun b => (fst b, f (snd b))) (bands img)).

(** [a.bitwiseAnd(k)] on an integer band and [a.Or(b)]. *)
Definition bitwiseAnd (a : pixel) (k : Z) : pixel :=
  Pixel (inject_Z (Z.land (Qfloor (val a)) k)) (valid a).
Definition Or : pixel -> pixel -> pixel :=
  binop (fun x y => indicator (negb (Qeq_bool x 0) || negb (Qeq_bool y 0))).

(** [image.normalizedDifference([first, second])]: (first - second) /
    (first + second), masked where either input is negative; a zero
    denominator gives 0, as in [divide]. *)
Definition normalized_difference (x y : pixel) : pixel :=
  Pixel (Qdivide (val x - val y) (val x + val y))
        (valid x && valid y && Qle_bool 0 (val x) && Qle_bool 0 (val y)).
Definition normalizedDifference (first second : string) (img : image)
    : option pixel :=
  x <- band first img ;;
  y <- band second img ;;
  Some (normalized_difference x y).

(** [ee.Filter.stringEndsWith('item', ending)] on a band name. *)
Definition stringEndsWith (ending s : string) : bool :=
  String.eqb
    (substring (String.length s - String.length ending) (String.length ending) s)
    ending
  && Nat.leb (String.length ending) (String.length s).

(** *** Cloud masking *)

Definition landsat_cloud_mask_457 (image : image) (mask_mask : pixel)
    : option Landsat.image :=
  let dilated_cloud := Z.shiftl 1 1 in
  let cloud := Z.shiftl 1 3 in
  let cloud_shadow := Z.shiftl 1 4 in
  qa <- band "QA_PIXEL" image ;;
  let mask :=
    multiply (Or (Or (bitwiseAnd qa dilated_cloud)
                     (bitwiseAnd qa cloud_shadow))
                 (bitwiseAnd qa cloud))
             mask_mask in
  Some (on_bands (fun b => updateMask b (Not mask)) image).

Definition landsat_cloud_mask_89 (image : image) (mask_mask : pixel)
    : option Landsat.image :=
  let dilated_cloud := Z.shiftl 1 1 in
  let cirrus := Z.shiftl 1 2 in
  let cloud := Z.shiftl 1 3 in
  let cloud_shadow := Z.shiftl 1 4 in
  qa <- band "QA_PIXEL" image ;;
  let mask :=
    multiply (Or (Or (Or (bitwiseAnd qa dilated_cloud)
                         (bitwiseAnd qa cirrus))
                     (bitwiseAnd qa cloud_shadow))
                 (bitwiseAnd qa cloud))
             mask_mask in
  Some (on_bands (fun b => updateMask b (Not mask)) image).

(** *** Surface reflectance scale factors *)

Definition landsat_rescale (image : image) : option Landsat.image :=
  sr <- select_starting "SR_B" image ;;
  st <- select_starting "ST_B" image ;;
  qa <- select ["QA_PIXEL"] image ;;
  let image_sr_offset :=
    on_bands (fun b => add (multiply b (constant (275 # 10000000)))
                           (constant (- (2 # 10)))) sr in
  let image_st_offset :=
    on_bands (fun b => add (multiply b (constant (341802 # 100000000)))
                           (constant 149)) st in
  let image_sr_qa :=
    addBands (addBands image_sr_offset (bands image_st_offset)) (bands qa) in
  Some (Image (system_time_start image) (bands image_sr_qa)).

(** *** Vegetation indices *)

Definition get_ndvi_457 (image : image) : option Landsat.image :=
  nd <- normalizedDifference "SR_B4" "SR_B3" image ;;
  Some (addBands image [("NDVI", nd)]).

Definition get_ndvi_89 (image : image) : option Landsat.image :=
  nd <- normalizedDifference "SR_B5" "SR_B4" image ;;
  Some (addBands image [("NDVI", nd)]).

Definition evi (nir red blue : pixel) : pixel :=
  multiply (constant (25 # 10))
    (divide (subtract nir red)
       (add (subtract (add nir (multiply (constant 6) red))
                      (multiply (constant (75 # 10)) blue))
            (constant 1))).

Definition get_evi_457 (image : image) : option Landsat.image :=
  b4 <- band "SR_B4" image ;;
  b3 <- band "SR_B3" image ;;
  b1 <- band "SR_B1" image ;;
  Some (addBands image [("EVI", evi b4 b3 b1)]).

Definition get_evi_89 (image : image) : option Landsat.image :=
  b5 <- band "SR_B5" image ;;
  b4 <- band "SR_B4" image ;;
  b2 <- band "SR_B2" image ;;
  Some (addBands image [("EVI", evi b5 b4 b2)]).

Definition get_nirv_457 (image : image) : option Landsat.image :=
  nd <- normalizedDifference "SR_B4" "SR_B3" image ;;
  b4 <- band "SR_B4" image ;;
  Some (addBands image [("NIRv", multiply nd b4)]).

Definition get_nirv_89 (image : image) : option Landsat.image :=
  nd <- normalizedDifference "SR_B5" "SR_B4" image ;;
  b5 <- band "SR_B5" image ;;
  Some (addBands image [("NIRv", multiply nd b5)]).

Definition savi (nir red : pixel) : pixel :=
  divide (multiply (constant (15 # 10)) (subtract nir red))
         (add (add (constant (5 # 10)) nir) red).

Definition get_savi_457 (image : image) : option Landsat.image :=
  b4 <- band "SR_B4" image ;;
  b3 <- band "SR_B3" image ;;
  Some (addBands image [("SAVI", savi b4 b3)]).

Definition get_savi_89 (image : image) : option Landsat.image :=
  b5 <- band "SR_B5" image ;;
  b4 <- band "SR_B4" image ;;
  Some (addBands image [("SAVI", savi b5 b4)]).

Definition ndsvi (swir2 swir1 red nir : pixel) : pixel :=
  divide (multiply (subtract (constant 1) (divide swir2 swir1)) red) nir.

(** The module defines [get_ndsvi_457] twice; the first definition, with
    the band numbers of Landsat 4, 5 and 7, is replaced by the second. *)
Definition get_ndsvi_457_replaced (image : image) : option Landsat.image :=
  b7 <- band "SR_B7" image ;;
  b5 <- band "SR_B5" image ;;
  b3 <- band "SR_B3" image ;;
  b4 <- band "SR_B4" image ;;
  Some (addBands image [("NDSVI", ndsvi b7 b5 b3 b4)]).

(** [get_ndsvi_457] as the module exports it: the second definition, with
    the band numbers of Landsat 8 and 9. *)
Definition get_ndsvi_457 (image : image) : option Landsat.image :=
  b7 <- band "SR_B7" image ;;
  b6 <- band "SR_B6" image ;;
  b4 <- band "SR_B4" image ;;
  b5 <- band "SR_B5" image ;;
  Some (addBands image [("NDSVI", ndsvi b7 b6 b4 b5)]).

(** *** Common band extraction *)

Definition get_common_band_names_89 (image : image) : option Landsat.image :=
  selected <- select ["SR_B2"; "SR_B3"; "SR_B4"; "SR_B5"; "SR_B6"; "SR_B7";
                      "ST_B10"; "SR_B1"] image ;;
  rename ["SR_B1"; "SR_B2"; "SR_B3"; "SR_B4"; "SR_B5"; "SR_B7"; "ST";
          "SR_coastal"] selected.

Definition get_common_band_names_457 (image : image) : option Landsat.image :=
  selected <- select ["SR_B1"; "SR_B2"; "SR_B3"; "SR_B4"; "SR_B5"; "SR_B7";
                      "ST_B6"] image ;;
  rename ["SR_B1"; "SR_B2"; "SR_B3"; "SR_B4"; "SR_B5"; "SR_B7"; "ST"] selected.

Definition remove_coastal_band (image : image) : option Landsat.image :=
  select (filter (fun item => negb (stringEndsWith "SR_coastal" item))
                 (bandNames image))
         image.

(** *** collection_building.py *)

(** [collection.filterDate(start, stop)] and [collection.map(f)]; an error
    on one image fails the collection. *)
Definition filterDate (start stop : Z) (c : list image) : list image :=
  filter (fun img => ((start <=? system_time_start img)%Z
                      && (system_time_start img <? stop)%Z)%bool) c.
Definition collection_map (f : image -> option image) (c : list image)
    : option (list image) :=
  CloudFilter.map_opt f c.

Section GetCollection.

(** The catalogue collections of Landsat 4, 5, 7, 8 and 9. *)
Variables landsat_lt04 landsat_lt05 landsat_le07 landsat_lc08 landsat_lc09
  : list image.
Variables date_start date_stop : Z.
Variable mask_clouds : pixel.

Definition collection_457 (catalogue : list image) : option (list image) :=
  rescaled <- collection_map landsat_rescale
                (filterDate date_start date_stop catalogue) ;;
  masked <- collection_map (fun image => landsat_cloud_mask_457 image mask_clouds)
              rescaled ;;
  collection_map get_common_band_names_457 masked.

Definition collection_89 (catalogue : list image) : option (list image) :=
  rescaled <- collection_map landsat_rescale
                (filterDate date_start date_stop catalogue) ;;
  masked <- collection_map (fun image => landsat_cloud_mask_89 image mask_clouds)
              rescaled ;;
  collection_map get_common_band_names_89 masked.

Definition get_collection : option (list image) :=
  collection_l4 <- collection_457 landsat_lt04 ;;
  collection_l5 <- collection_457 landsat_lt05 ;;
  collection_l7 <- collection_457 landsat_le07 ;;
  collection_l8 <- collection_89 landsat_lc08 ;;
  collection_l9 <- collection_89 landsat_lc09 ;;
  Some (collection_l9
        ++ (collection_l8 ++ (collection_l7 ++ (collection_l5 ++ collection_l4)))).

Definition get_collection_89 : option (list image) :=
  collection_l8 <- collection_89 landsat_lc08 ;;
  collection_l9 <- collection_89 landsat_lc09 ;;
  Some (collection_l9 ++ collection_l8).

Definition get_collection_457 : option (list image) :=
  collection_l4 <- collection_457 landsat_lt04 ;;
  collection_l5 <- collection_457 landsat_lt05 ;;
  collection_l7 <- collection_457 landsat_le07 ;;
  Some (collection_l7 ++ (collection_l5 ++ collection_l4)).

End GetCollection.

End Landsat.

(** ** A reference instance of the library

    Executable stand-ins for the Earth Engine operations, used to run the
    model on concrete series.  The regression is ordinary least squares,
    which the robust reducer reproduces on points that lie on the fitted
    curve; the standard deviation is the population one, with the square
    root taken to six decimal places. *)

Module Reference.

Definition values (l : list pixel) : list Q := map val (filter valid l).

Fixpoint insertQ (x : Q) (l : list Q) : list Q :=
  match l with
  | [] => [x]
  | y :: l' => if Qle_bool x y then x :: l else y :: insertQ x l'
  end.

Definition sortQ (l : list Q) : list Q := fold_right insertQ [] l.

Definition reduce (f : list Q -> Q) (l : list pixel) : pixel :=
  match values l with
  | [] => Pixel 0 false
  | vs => Pixel (Qred (f vs)) true
  end.

Definition medianQ (vs : list Q) : Q :=
  let s := sortQ vs in
  let n := length s in
  if Nat.even n
  then ((nth (n / 2 - 1) s 0 + nth (n / 2) s 0) / 2)%Q
  else nth (n / 2) s 0%Q.

Definition minQ (vs : list Q) : Q := hd 0%Q (sortQ vs).
Definition maxQ (vs : list Q) : Q := last (sortQ vs) 0%Q.

Definition sumQ (vs : list Q) : Q := fold_right Qplus 0%Q vs.
Definition lengthQ (vs : list Q) : Q := inject_Z (Z.of_nat (length vs)).
Definition meanQ (vs : list Q) : Q := (sumQ vs / lengthQ vs)%Q.
Definition varianceQ (vs : list Q) : Q :=
  (sumQ (map (fun v => (v - meanQ vs) * (v - meanQ vs)) vs) / lengthQ vs)%Q.
Definition sqrtQ (q : Q) : Q :=
  (inject_Z (Z.sqrt (Qfloor (q * 1000000000000))) / 1000000)%Q.
Definition stdDevQ (vs : list Q) : Q := sqrtQ (varianceQ vs).

(** Least squares through the normal equations, solved by Cramer's rule. *)
Definition row_valid (r : list pixel) : bool := forallb valid r.
Definition col (i : nat) (r : list pixel) : Q := val (nth i r (Pixel 0 false)).
Definition dot (i j : nat) (rows : list (list pixel)) : Q :=
  Qred (sumQ (map (fun r => col i r * col j r)%Q rows)).

Definition det2 (a b c d : Q) : Q := (a * d - b * c)%Q.
Definition det3 (a b c d e f g h i : Q) : Q :=
  (a * det2 e f h i - b * det2 d f g i + c * det2 d e g h)%Q.

Definition solved (det : Q) (nums : list Q) : list pixel :=
  map (fun n => Pixel (Qred (n / det)) (negb (Qeq_bool det 0))) nums.

Definition least_squares (numX : nat) (all_rows : list (list pixel)) : list pixel :=
  let rows := filter row_valid all_rows in
  let s := fun i j => dot i j rows in
  if (length rows <? numX)%nat then repeat (Pixel 0 false) numX
  else match numX with
  | 2%nat =>
      solved (det2 (s 0 0) (s 0 1) (s 1 0) (s 1 1))%nat
        [det2 (s 0 2) (s 0 1) (s 1 2) (s 1 1);
         det2 (s 0 0) (s 0 2) (s 1 0) (s 1 2)]%nat
  | 3%nat =>
      solved (det3 (s 0 0) (s 0 1) (s 0 2)
                   (s 1 0) (s 1 1) (s 1 2)
                   (s 2 0) (s 2 1) (s 2 2))%nat
        [det3 (s 0 3) (s 0 1) (s 0 2)
              (s 1 3) (s 1 1) (s 1 2)
              (s 2 3) (s 2 1) (s 2 2);
         det3 (s 0 0) (s 0 3) (s 0 2)
              (s 1 0) (s 1 3) (s 1 2)
              (s 2 0) (s 2 3) (s 2 2);
         det3 (s 0 0) (s 0 1) (s 0 3)
              (s 1 0) (s 1 1) (s 1 3)
              (s 2 0) (s 2 1) (s 2 3)]%nat
  | _ => repeat (Pixel 0 false) numX
  end.

(** The proleptic Gregorian calendar over days since 1970-01-01. *)
Definition days_from_civil (y m d : Z) : Z :=
  let y' := if m <=? 2 then y - 1 else y in
  let era := y' / 400 in
  let yoe := y' - era * 400 in
  let doy := (153 * (if 2 <? m then m - 3 else m + 9) + 2) / 5 + d - 1 in
  let doe := yoe * 365 + yoe / 4 - yoe / 100 + doy in
  era * 146097 + doe - 719468.

Definition civil_from_days (z : Z) : Z * Z * Z :=
  let z' := z + 719468 in
  let era := z' / 146097 in
  let doe := z' - era * 146097 in
  let yoe := (doe - doe / 1460 + doe / 36524 - doe / 146096) / 365 in
  let doy := doe - (365 * yoe + yoe / 4 - yoe / 100) in
  let mp := (5 * doy + 2) / 153 in
  let d := doy - (153 * mp + 2) / 5 + 1 in
  let m := if mp <? 10 then mp + 3 else mp - 9 in
  ((if m <=? 2 then yoe + era * 400 + 1 else yoe + era * 400), m, d).

Definition year_of (date : Z) : Z :=
  let '(y, _, _) := civil_from_days (date / ms_per_day) in y.

Definition from_ymd (y m d : Z) : Z := days_from_civil y m d * ms_per_day.

Definition leap (y : Z) : bool :=
  ((y mod 4 =? 0) && negb (y mod 100 =? 0)) || (y mod 400 =? 0).

Definition plus_years (date n : Z) : Z :=
  let '(y, m, d) := civil_from_days (date / ms_per_day) in
  let d' := if (m =? 2) && (d =? 29) && negb (leap (y + n)) then 28 else d in
  from_ymd (y + n) m d' + date mod ms_per_day.

#[export] Instance library : Library := {|
  median := reduce medianQ;
  minimum := reduce minQ;
  maximum := reduce maxQ;
  stdDev := reduce stdDevQ;
  robustLinearRegression := least_squares;
  get_year := year_of;
  fromYMD := from_ymd;
  advance_year := plus_years
|}.

End Reference.

(** ** Concrete series *)

Module Examples.

Import Reference.

(** An observation as the collection builder attaches it: the acquisition
    time in milliseconds, the [time] band in years, and the target band. *)
Definition time_of (ts : Z) : Q := Qred (inject_Z ts / 31557600000 + 1970).
Definition observation (ts : Z) (v : Q) (ok : bool) : Phenology.image :=
  Phenology.Image (Some ts) (constant (time_of ts)) (Pixel v ok).

Definition day (y m d : Z) : Z := from_ymd y m d.

(** Six observations on a straight line, five days apart. *)
Definition june_line : list Phenology.image :=
  [observation (day 2020 6 1) (50 # 100) true;
   observation (day 2020 6 6) (51 # 100) true;
   observation (day 2020 6 11) (52 # 100) true;
   observation (day 2020 6 16) (53 # 100) true;
   observation (day 2020 6 21) (54 # 100) true;
   observation (day 2020 6 26) (55 # 100) true].


(** Two observations above the default upper bound 1, and two below the
    default lower bound -1. *)
Definition bright_pair : list Phenology.image :=
  [observation (day 2020 6 10) (11 # 10) true;
   observation (day 2020 6 20) (13 # 10) true].
Definition dark_pair : list Phenology.image :=
  [observation (day 2020 6 10) (- (11 # 10)) true;
   observation (day 2020 6 20) (- (13 # 10)) true].


(** A scene of the cloud filter on a given day of the year, the
    acquisition time being that day counted from the epoch. *)
Definition on_day (doy : Z) (v : Q) (ok : bool) : CloudFilter.scene :=
  CloudFilter.Scene (doy * ms_per_day) (Pixel v ok) (constant (inject_Z doy)).

Definition spike : list CloudFilter.scene :=
  [on_day 0 10 true; on_day 5 100 true; on_day 10 12 true].
Definition line : list CloudFilter.scene :=
  [on_day 0 10 true; on_day 5 11 true; on_day 10 12 true].
Definition lone : list CloudFilter.scene := [on_day 100 (7 # 10) true].
Definition two_years : list CloudFilter.scene :=
  [on_day 0 10 true; on_day 400 11 true].

(** The masks of the target band in an output collection. *)
Definition masks (out : option (list CloudFilter.filtered_scene)) : option (list bool) :=
  option_map (map (fun f => valid (CloudFilter.f_value f))) out.

End Examples.

(** ** Vocabulary of the statements *)

(** *** Rejection stage *)

(** The flags of the rejection stage on a prediction [p], given the window
    median [m] and standard deviation [s]: above the upper bound or more
    than 1.5 standard deviations above the median; below the lower bound or
    more than 1.5 standard deviations below the median. *)
Definition flagged_high (p m s : pixel) (max_value : Q) : Prop :=
  (max_value < val p \/ val m + (3 # 2) * val s < val p)%Q.
Definition flagged_low (p m s : pixel) (min_value : Q) : Prop :=
  (val p < min_value \/ val p < val m - (3 # 2) * val s)%Q.

(** *** Windows *)


(** *** Series of scenes *)

(** A list in the order of a comparison of acquisition times. *)
Definition ordered (le : Z -> Z -> bool) (l : list CloudFilter.scene) : Prop :=
  StronglySorted
    (fun a b => le (CloudFilter.system_time_start a)
                   (CloudFilter.system_time_start b) = true) l.

(** Acquisition times strictly increase along the list. *)
Definition ascending (l : list CloudFilter.scene) : Prop :=
  StronglySorted
    (fun a b => CloudFilter.system_time_start a < CloudFilter.system_time_start b) l.

(** The series lies within 365 days. *)
Definition within_a_year (l : list CloudFilter.scene) : Prop :=
  forall x y, In x l -> In y l ->
    CloudFilter.system_time_start y - CloudFilter.system_time_start x
    < CloudFilter.year_ms.

(** The scenes folded onto the start and onto the end, in time order. *)
Definition folded_before (pheno_in : list CloudFilter.scene)
    (num_padding_scenes : nat) : list CloudFilter.scene :=
  map CloudFilter.buffer_end
      (skipn (length pheno_in - num_padding_scenes) pheno_in).
Definition folded_after (pheno_in : list CloudFilter.scene)
    (num_padding_scenes : nat) : list CloudFilter.scene :=
  map CloudFilter.buffer_start (firstn num_padding_scenes pheno_in).

(** Rank in a series of the scene acquired at a given time. *)
Fixpoint position (t : Z) (series : list CloudFilter.scene) : nat :=
  match series with
  | [] => 0
  | s :: rest =>
      if CloudFilter.system_time_start s =? t then 0 else S (position t rest)
  end.

Definition no_scene : CloudFilter.scene :=
  CloudFilter.Scene 0 (constant 0) (constant 0).

(** *** Neighbour scans *)

(** Two-band images with the same data, and with both bands unmasked. *)
Definition same_bands (a b : CloudFilter.bands) : Prop :=
  same (CloudFilter.b_value a) (CloudFilter.b_value b) /\
  same (CloudFilter.b_DOY a) (CloudFilter.b_DOY b).
Definition valid_bands (a : CloudFilter.bands) : Prop :=
  valid (CloudFilter.b_value a) = true /\ valid (CloudFilter.b_DOY a) = true.

(** The two fillers of the scans: value 0 at day of year 0, and value 0 at
    day of year 365. *)
Definition sentinel_first : CloudFilter.bands :=
  CloudFilter.Bands (constant 0) (constant 0).
Definition sentinel_last : CloudFilter.bands :=
  CloudFilter.Bands (constant 0) (constant 365).

(** What one call of [get_previous_unmasked_scene] appends, given the last
    image of the running list. *)
Definition scan_step (image : CloudFilter.scene) (previous : CloudFilter.bands)
    : CloudFilter.bands :=
  CloudFilter.Bands
    (CloudFilter.carry (mask_of (CloudFilter.value image))
       (CloudFilter.value image) (CloudFilter.b_value previous))
    (CloudFilter.carry (mask_of (CloudFilter.value image))
       (CloudFilter.DOY image) (CloudFilter.b_DOY previous)).

Definition scan (l : list CloudFilter.scene) (a : CloudFilter.bands) : CloudFilter.bands :=
  fold_left (fun acc x => scan_step x acc) l a.

Fixpoint running (a : CloudFilter.bands) (l : list CloudFilter.scene)
    : list CloudFilter.bands :=
  match l with
  | [] => [a]
  | x :: l' => a :: running (scan_step x a) l'
  end.

(** The scene whose bands a scan holds: the latest one with a valid target
    band, if any. *)
Definition has_value (s : CloudFilter.scene) : bool := valid (CloudFilter.value s).
Definition unmasked (s : CloudFilter.scene) : CloudFilter.bands :=
  CloudFilter.Bands (unmask (CloudFilter.value s)) (unmask (CloudFilter.DOY s)).
Definition latest (none : CloudFilter.bands) (l : list CloudFilter.scene)
    : CloudFilter.bands :=
  match find has_value (rev l) with
  | Some s => unmasked s
  | None => none
  end.

(** The nearest scene with a valid target band strictly before, and
    strictly after, a rank of a series; the fillers when there is none. *)
Definition nearest_valid_before (series : list CloudFilter.scene) (i : nat)
    : CloudFilter.bands :=
  match find has_value (rev (firstn i series)) with
  | Some s => unmasked s
  | None => sentinel_first
  end.
Definition nearest_valid_after (series : list CloudFilter.scene) (i : nat)
    : CloudFilter.bands :=
  match find has_value (skipn (S i) series) with
  | Some s => unmasked s
  | None => sentinel_last
  end.

(** The neighbours in the output image of rank [i] are the nearest valid
    scenes around the place of scene [i] in the buffered series. *)
Definition neighbours_recorded (pheno_in : list CloudFilter.scene)
    (threshold_low threshold_high : Q) (num_padding_scenes i : nat) : Prop :=
  exists out f current,
    CloudFilter.cloud_temporal_filter pheno_in threshold_low threshold_high
      num_padding_scenes = Some out /\
    nth_error out i = Some f /\
    nth_error (CloudFilter.sort true pheno_in) i = Some current /\
    let series := CloudFilter.pheno_buffered pheno_in num_padding_scenes in
    let place := position (CloudFilter.system_time_start current) series in
    same_bands
      (CloudFilter.Bands (CloudFilter.previous f) (CloudFilter.previous_DOY f))
      (nearest_valid_before series place) /\
    same_bands
      (CloudFilter.Bands (CloudFilter.next f) (CloudFilter.next_DOY f))
      (nearest_valid_after series place).

(** The output image of rank [k] for a series within one year. *)
Definition checked (pheno_in : list CloudFilter.scene)
    (threshold_low threshold_high : Q) (num_padding_scenes k : nat)
    : CloudFilter.filtered_scene :=
  let series := CloudFilter.pheno_buffered pheno_in num_padding_scenes in
  CloudFilter.check threshold_low threshold_high
    (scan (firstn (num_padding_scenes + k) series) sentinel_first)
    (scan (rev (skipn (S (num_padding_scenes + k)) series)) sentinel_last)
    (nth k pheno_in no_scene).

(** *** check_value *)

(** The straight line through the two recorded neighbours, read at a day
    of year. *)
Definition interpolation (f : CloudFilter.filtered_scene) (doy : Q) : Q :=
  (val (CloudFilter.previous f)
   + (doy - val (CloudFilter.previous_DOY f))
     * ((val (CloudFilter.next f) - val (CloudFilter.previous f))
        / (val (CloudFilter.next_DOY f) - val (CloudFilter.previous_DOY f))))%Q.

(** What the output image [f] of rank [i] holds: the interpolation between
    distinct neighbour days, the residual, and a mask that is kept exactly
    when the scene was unmasked and the residual lies strictly between the
    thresholds. *)
Definition interpolated_and_masked (pheno_in : list CloudFilter.scene)
    (threshold_low threshold_high : Q) (i : nat)
    (f : CloudFilter.filtered_scene) : Prop :=
  exists current,
    nth_error (CloudFilter.sort true pheno_in) i = Some current /\
    (~ (val (CloudFilter.next_DOY f) == val (CloudFilter.previous_DOY f))%Q ->
     (val (CloudFilter.reg_expected f)
      == interpolation f (val (CloudFilter.DOY current)))%Q) /\
    (val (CloudFilter.reg_diff f)
     == val (CloudFilter.value current) - val (CloudFilter.reg_expected f))%Q /\
    (valid (CloudFilter.f_value f) = true <->
     valid (CloudFilter.value current) = true /\
     valid (CloudFilter.DOY current) = true /\
     (threshold_low < val (CloudFilter.reg_diff f) < threshold_high)%Q).

(** What the output image [f] of rank [i] holds when both recorded
    neighbours are the fillers. *)
Definition judged_on_raw_value (pheno_in : list CloudFilter.scene)
    (threshold_low threshold_high : Q) (i : nat)
    (f : CloudFilter.filtered_scene) : Prop :=
  exists current,
    nth_error (CloudFilter.sort true pheno_in) i = Some current /\
    (val (CloudFilter.slope
            (CloudFilter.Bands (CloudFilter.previous f) (CloudFilter.previous_DOY f))
            (CloudFilter.Bands (CloudFilter.next f) (CloudFilter.next_DOY f)))
     == 0)%Q /\
    (val (CloudFilter.reg_expected f) == 0)%Q /\
    (val (CloudFilter.reg_diff f) == val (CloudFilter.value current))%Q /\
    (valid (CloudFilter.value current) = true ->
     valid (CloudFilter.DOY current) = true ->
     (valid (CloudFilter.f_value f) = false <->
      ~ (threshold_low < val (CloudFilter.value current) < threshold_high)%Q)).

(** *** The window of get_window_fit *)



(** The window is built, and is not empty. *)
Definition window_guarded {L : Library} (input_collection : list Phenology.image)
    (advance_window_width following_window_width target_date : Z)
    (collection_median : option Phenology.image) (wrap_data : bool) : Prop :=
  exists window,
    Phenology.window_or_error input_collection advance_window_width
      following_window_width target_date collection_median wrap_data
    = Some window /\
    window <> [].

(** *** The choice of the fit *)




(** *** Calls of fit_phenology *)

(** The parameters the specification calls out of range. *)
Definition out_of_range (num_time_steps min_date max_date : Z) : Prop :=
  num_time_steps = 0 \/ max_date <= min_date.

(** *** Landsat images *)

(** The cloud bits of a QA_PIXEL value are all clear: dilated cloud (bit
    1), cloud (bit 3) and cloud shadow (bit 4), and for Landsat 8 and 9
    also cirrus (bit 2). *)
Definition clear_457 (qa : Z) : bool :=
  negb (Z.testbit qa 1 || Z.testbit qa 3 || Z.testbit qa 4).
Definition clear_89 (qa : Z) : bool :=
  negb (Z.testbit qa 1 || Z.testbit qa 2 || Z.testbit qa 3 || Z.testbit qa 4).

(** The image with every band masked where [keep] is false. *)
Definition masked_unless (keep : bool) (img : Landsat.image) : Landsat.image :=
  Landsat.on_bands (fun b => Pixel (val b) (valid b && keep)) img.

(** The scale factors of Landsat Collection 2 surface reflectance and
    surface temperature, applied to a stored number. *)
Definition reflectance (dn : Q) : Q := (dn * (275 # 10000000) - (2 # 10))%Q.
Definition temperature (dn : Q) : Q := (dn * (341802 # 100000000) + 149)%Q.

(** A band as the collection builders deliver it: rescaled, and masked
    where [keep] is false. *)
Definition prepared (scale : Q -> Q) (keep : bool) (b : pixel) : pixel :=
  Pixel (scale (val b)) (valid b && keep).

(** What [landsat_rescale] does to a reflectance band and to a
    temperature band. *)
Definition rescaled_sr (b : pixel) : pixel :=
  add (multiply b (constant (275 # 10000000))) (constant (- (2 # 10))).
Definition rescaled_st (b : pixel) : pixel :=
  add (multiply b (constant (341802 # 100000000))) (constant 149).

Section BandNames.

Import String.
Local Open Scope string_scope.
Local Open Scope list_scope.

(** The seven band names that the collections of all five sensors share. *)
Definition common_names : list string :=
  ["SR_B1"; "SR_B2"; "SR_B3"; "SR_B4"; "SR_B5"; "SR_B7"; "ST"].

End BandNames.

(** ** Further example inputs *)

Module Scenes.

Import String.
Local Open Scope string_scope.
Local Open Scope list_scope.

(** Three observations acquired at the same instant. *)
Definition same_instant : list Phenology.image :=
  [Examples.observation (Examples.day 2020 6 10) (50 # 100) true;
   Examples.observation (Examples.day 2020 6 10) (60 # 100) true;
   Examples.observation (Examples.day 2020 6 10) (70 # 100) true].

(** A Landsat 8 or 9 scene and a Landsat 4, 5 or 7 scene at one pixel,
    with the stored numbers of the catalogue and a given QA_PIXEL value. *)
Definition oli_scene (t qa : Z) : Landsat.image :=
  Landsat.Image t
    [("SR_B1", Pixel 8000 true); ("SR_B2", Pixel 8500 true);
     ("SR_B3", Pixel 9500 true); ("SR_B4", Pixel 9000 true);
     ("SR_B5", Pixel 20000 true); ("SR_B6", Pixel 15000 true);
     ("SR_B7", Pixel 11000 true); ("ST_B10", Pixel 44000 true);
     ("QA_PIXEL", Pixel (inject_Z qa) true)].
Definition tm_scene (t qa : Z) : Landsat.image :=
  Landsat.Image t
    [("SR_B1", Pixel 8500 true); ("SR_B2", Pixel 9500 true);
     ("SR_B3", Pixel 9000 true); ("SR_B4", Pixel 20000 true);
     ("SR_B5", Pixel 15000 true); ("SR_B7", Pixel 11000 true);
     ("ST_B6", Pixel 44000 true); ("QA_PIXEL", Pixel (inject_Z qa) true)].

(** QA_PIXEL of a clear pixel, and of one with the cloud bit set. *)
Definition qa_clear : Z := 21824.
Definition qa_cloud : Z := 22280.

(** Reflectances of a vegetated pixel under the names of Landsat 4, 5
    and 7. *)
Definition vegetated : Landsat.image :=
  Landsat.Image (Examples.day 2020 6 10)
    [("SR_B3", Pixel (5 # 100) true); ("SR_B4", Pixel (45 # 100) true)].

(** Catalogues of a few scenes in 2020: per sensor, the scenes of June and
    one scene of another year. *)
Definition lc08 : list Landsat.image :=
  [oli_scene (Examples.day 2020 6 1) qa_clear;
   oli_scene (Examples.day 2020 6 17) qa_cloud;
   oli_scene (Examples.day 2021 6 4) qa_clear].
Definition lc09 : list Landsat.image :=
  [oli_scene (Examples.day 2022 6 9) qa_clear].
Definition le07 : list Landsat.image :=
  [tm_scene (Examples.day 2020 6 9) qa_clear;
   tm_scene (Examples.day 2020 6 25) qa_cloud].
Definition lt05 : list Landsat.image :=
  [tm_scene (Examples.day 2011 6 9) qa_clear].
Definition lt04 : list Landsat.image := [].

End Scenes.

(** ** Facts about pixel arithmetic *)

Section PixelFacts.

Lemma Qlt_bool_iff (x y : Q) : Qlt_bool x y = true <-> (x < y)%Q.
Proof.
  unfold Qlt_bool. rewrite negb_true_iff.
  destruct (Qle_bool y x) eqn:E.
  - apply Qle_bool_iff in E. split; [discriminate | intro; exfalso; lra].
  - split; [intros _ | reflexivity].
    apply Qnot_le_lt. intro H. apply Qle_bool_iff in H. congruence.
Qed.

Lemma Qlt_bool_false_iff (x y : Q) : Qlt_bool x y = false <-> (y <= x)%Q.
Proof.
  destruct (Qlt_bool x y) eqn:E.
  - apply Qlt_bool_iff in E. split; [discriminate | intro; exfalso; lra].
  - split; [intros _ | reflexivity].
    apply Qnot_lt_le. intro H. apply Qlt_bool_iff in H. congruence.
Qed.

Lemma same_refl (a : pixel) : same a a.
Proof. split; [reflexivity | intros _; reflexivity]. Qed.

Lemma same_valid (a b : pixel) :
  valid a = true -> valid b = true -> (val a == val b)%Q -> same a b.
Proof. intros Ha Hb Hv. split; [congruence | auto]. Qed.

End PixelFacts.

(** Case analysis on a strict comparison of rationals. *)
Ltac case_Qlt x y :=
  let E := fresh "E" in
  destruct (Qlt_bool x y) eqn:E;
  [apply Qlt_bool_iff in E | apply Qlt_bool_false_iff in E].

(** Unfold the pixel operations down to numbers and mask bits. *)
Ltac pixel_unfold :=
  unfold gt, lt, eq, add, subtract, multiply, divide, unmask, Not, mask_of,
    updateMask, set_mask, nonzero, binop, constant;
  cbn [val valid].

(** Evaluate the closed flag arithmetic left after a case analysis. *)
Ltac eval_flags :=
  repeat match goal with
  | |- context [Qlt_bool 0 (indicator ?a + indicator ?b)] =>
      let v := eval vm_compute in (Qlt_bool 0 (indicator a + indicator b)) in
      change (Qlt_bool 0 (indicator a + indicator b)) with v
  end;
  cbn [indicator];
  repeat match goal with
  | |- context [Qeq_bool ?a 0] =>
      let v := eval vm_compute in (Qeq_bool a 0) in
      change (Qeq_bool a 0) with v
  end;
  cbn [indicator].

(** Decide a closed statement about mask bits and rational comparisons. *)
Ltac by_evaluation :=
  vm_compute; repeat split; try reflexivity; try discriminate; try lia.

(** ** The rejection stage of get_window_fit *)

Section Rejection.

Context {L : Library}.
Variable input_collection : list Phenology.image.
Variables advance_window_width following_window_width : Z.
Variable target_date : Z.
Variables min_value max_value : Q.
Variable collection_median : option Phenology.image.
Variable wrap_data : bool.

Let prediction : pixel :=
  Phenology.model_prediction input_collection advance_window_width
    following_window_width target_date collection_median wrap_data.
Let window_median : pixel :=
  Phenology.neighborhood_median input_collection advance_window_width
    following_window_width target_date collection_median wrap_data.
Let window_stdev : pixel :=
  Phenology.neighborhood_stdev input_collection advance_window_width
    following_window_width target_date collection_median wrap_data.
Let emitted : pixel :=
  Phenology.out_prediction_filtered
    (Phenology.get_window_fit input_collection advance_window_width
       following_window_width target_date min_value max_value
       collection_median wrap_data).

Ltac open_rejection :=
  unfold Phenology.get_window_fit, Phenology.out_prediction_filtered,
    Phenology.model_prediction_filtered, Phenology.after_high_replacement,
    Phenology.bad_data_high, Phenology.bad_data_low,
    Phenology.too_high_mask, Phenology.too_low_mask,
    Phenology.statistical_outlier_high, Phenology.statistical_outlier_low.

(** In exact arithmetic a prediction that lies within [min_value,
    max_value] and within 1.5 standard deviations of the window median
    leaves the rejection stage of [get_window_fit] as it entered: the
    standard deviation that the high replacement adds whatever the flag is
    taken off again by the low replacement.  In the arithmetic of the
    program the two roundings need not cancel: see the rejection stage in
    binary64 below. *)
Theorem unflagged_prediction_unchanged :
  valid prediction = true ->
  valid window_median = true ->
  valid window_stdev = true ->
  (min_value <= val prediction <= max_value)%Q ->
  (val window_median - (3 # 2) * val window_stdev <= val prediction
   <= val window_median + (3 # 2) * val window_stdev)%Q ->
  same (Phenology.out_prediction_filtered
          (Phenology.get_window_fit input_collection advance_window_width
             following_window_width target_date min_value max_value
             collection_median wrap_data))
       (Phenology.model_prediction input_collection advance_window_width
          following_window_width target_date collection_median wrap_data).
Proof.
  intros Hp Hm Hs [Hlo Hhi] [Hslo Hshi].
  open_rejection.
  fold prediction window_median window_stdev.
  pixel_unfold. rewrite Hp, Hm, Hs. cbn [andb].
  case_Qlt max_value (val prediction); [lra|].
  case_Qlt (val window_median + val window_stdev * (3 # 2))%Q (val prediction); [lra|].
  case_Qlt (val prediction) min_value; [lra|].
  case_Qlt (val prediction) (val window_median - val window_stdev * (3 # 2))%Q; [lra|].
  eval_flags.
  apply same_valid; [reflexivity | assumption | cbn [val]; ring].
Qed.

(** C1.  What [get_window_fit] emits for a flagged prediction: flagged high
    and not low, the window median itself, the standard deviation added by
    the high replacement being subtracted again by the low replacement;
    flagged low, the window median less the standard deviation. *)
Theorem flagged_prediction_replaced :
  valid prediction = true ->
  valid window_median = true ->
  valid window_stdev = true ->
  (flagged_high prediction window_median window_stdev max_value ->
   ~ flagged_low prediction window_median window_stdev min_value ->
   valid emitted = true /\ (val emitted == val window_median)%Q) /\
  (flagged_low prediction window_median window_stdev min_value ->
   valid emitted = true /\
   (val emitted == val window_median - val window_stdev)%Q).
Proof.
  intros Hp Hm Hs.
  unfold emitted, flagged_high, flagged_low. open_rejection.
  fold prediction window_median window_stdev.
  pixel_unfold. rewrite Hp, Hm, Hs. cbn [andb].
  case_Qlt max_value (val prediction);
  case_Qlt (val window_median + val window_stdev * (3 # 2))%Q (val prediction);
  case_Qlt (val prediction) min_value;
  case_Qlt (val prediction) (val window_median - val window_stdev * (3 # 2))%Q;
  eval_flags;
  (split; [intros Hhigh Hlow | intros Hlow]; (split; [reflexivity|]));
  try ring;
  try (exfalso; (apply Hlow; lra) || (destruct Hhigh; lra) || (destruct Hlow; lra)).
Qed.

End Rejection.

(** On [june_line] the quadratic fit at 2020-06-15 is 0.528, inside the
    bounds and within 1.5 standard deviations of the median 0.525. *)
Lemma unflagged_prediction_unchanged_june :
  same (Phenology.out_prediction_filtered
          (Phenology.get_window_fit (L := Reference.library) Examples.june_line
             20 20 (Examples.day 2020 6 15) (-1) 1 None false))
       (Phenology.model_prediction (L := Reference.library) Examples.june_line
          20 20 (Examples.day 2020 6 15) None false).
Proof.
  apply (unflagged_prediction_unchanged (L := Reference.library)
           Examples.june_line 20 20 (Examples.day 2020 6 15) (-1) 1 None false);
    by_evaluation.
Defined.

(** On [bright_pair] the prediction is the median 1.2, above the bound 1,
    with standard deviation 0.1: 1.2 is emitted, not 1.3.  On [dark_pair]
    the prediction -1.2 is below the bound -1: -1.3 is emitted. *)
Lemma flagged_prediction_replaced_pairs :
  (let r := Phenology.get_window_fit (L := Reference.library) Examples.bright_pair
              20 20 (Examples.day 2020 6 15) (-1) 1 None false in
   valid (Phenology.out_prediction_filtered r) = true /\
   (val (Phenology.out_prediction_filtered r) == val (Phenology.out_median r))%Q /\
   (val (Phenology.out_median r) == 12 # 10)%Q /\
   (val (Phenology.out_stdev r) == 1 # 10)%Q) /\
  (let r := Phenology.get_window_fit (L := Reference.library) Examples.dark_pair
              20 20 (Examples.day 2020 6 15) (-1) 1 None false in
   valid (Phenology.out_prediction_filtered r) = true /\
   (val (Phenology.out_prediction_filtered r)
    == val (Phenology.out_median r) - val (Phenology.out_stdev r))%Q).
Proof.
  split.
  - destruct (flagged_prediction_replaced (L := Reference.library)
                Examples.bright_pair 20 20 (Examples.day 2020 6 15) (-1) 1 None false)
      as [Hhigh _]; [by_evaluation | by_evaluation | by_evaluation |].
    destruct Hhigh as [Hv He].
    + left. by_evaluation.
    + intros [H | H]; vm_compute in H; discriminate.
    + cbv zeta. split; [exact Hv |]. split; [exact He |]. by_evaluation.
  - destruct (flagged_prediction_replaced (L := Reference.library)
                Examples.dark_pair 20 20 (Examples.day 2020 6 15) (-1) 1 None false)
      as [_ Hlow]; [by_evaluation | by_evaluation | by_evaluation |].
    apply Hlow. left. by_evaluation.
Defined.

(** ** The rejection stage in binary64 *)

Section Rounding.

Import PrimFloat.
Local Set Warnings "-inexact-float".

(** C9.  In binary64 the rejection stage does not hand an unflagged
    prediction back as it came: for the prediction 0.1 with window median
    0.15 and standard deviation 0.2 under the bounds -1 and 1, neither flag
    is raised, and the value emitted is (0.1 + 0.2) - 0.2, which is
    0.10000000000000003 and not 0.1.  The standard deviation added
    whatever the flag by the high replacement and subtracted whatever the
    flag by the low replacement leaves the rounding of the sum behind. *)
Theorem unflagged_prediction_not_restored :
  let prediction := Binary64.constant 0.1%float in
  let window_median := Binary64.constant 0.15%float in
  let window_stdev := Binary64.constant 0.2%float in
  let emitted :=
    Binary64.model_prediction_filtered prediction window_median window_stdev
      (-1)%float 1%float in
  Binary64.bad_data_high prediction window_median window_stdev 1%float
  = Binary64.constant 0%float /\
  Binary64.bad_data_low prediction window_median window_stdev (-1)%float
  = Binary64.constant 0%float /\
  emitted = Binary64.constant 0.10000000000000003%float /\
  PrimFloat.eqb (Binary64.val emitted) (Binary64.val prediction) = false /\
  PrimFloat.ltb (Binary64.val prediction) (Binary64.val emitted) = true.
Proof.
  cbv zeta. repeat split; vm_compute; reflexivity.
Qed.

End Rounding.

(** ** The choice of the fit by number of scenes *)

Section Selection.

Context {L : Library}.
Variable input_collection : list Phenology.image.
Variables advance_window_width following_window_width : Z.
Variable target_date : Z.
Variable collection_median : option Phenology.image.
Variable wrap_data : bool.

Let window : list Phenology.image :=
  Phenology.window input_collection advance_window_width
    following_window_width target_date collection_median wrap_data.
Let quadratic : pixel :=
  Phenology.quadratic_prediction input_collection advance_window_width
    following_window_width target_date collection_median wrap_data.
Let linear : pixel :=
  Phenology.linear_prediction input_collection advance_window_width
    following_window_width target_date collection_median wrap_data.
Let window_median : pixel :=
  Phenology.window_band_median input_collection advance_window_width
    following_window_width target_date collection_median wrap_data.
Let prediction : pixel :=
  Phenology.model_prediction input_collection advance_window_width
    following_window_width target_date collection_median wrap_data.

Lemma count_below (n : nat) (k : positive) :
  Qlt_bool (inject_Z (Z.of_nat n)) (Z.pos k # 1) = (Z.of_nat n <? Z.pos k).
Proof.
  destruct (Z.of_nat n <? Z.pos k) eqn:E.
  - apply Qlt_bool_iff. apply Z.ltb_lt in E. unfold Qlt. simpl. lia.
  - apply Qlt_bool_false_iff. apply Z.ltb_ge in E. unfold Qle. simpl. lia.
Qed.

Lemma regression_count_window :
  Phenology.regression_count input_collection advance_window_width
    following_window_width target_date collection_median wrap_data
  = count (map Phenology.band window).
Proof.
  unfold Phenology.regression_count, Phenology.regression_data.
  rewrite !map_map. reflexivity.
Qed.



End Selection.



(** ** The window of get_window_fit *)

Section Window.

Context {L : Library}.
Variable input_collection : list Phenology.image.
Variables advance_window_width following_window_width : Z.
Variable target_date : Z.
Variable collection_median : option Phenology.image.

Let window (wrap_data : bool) : list Phenology.image :=
  Phenology.window input_collection advance_window_width
    following_window_width target_date collection_median wrap_data.
Let selected_window (wrap_data : bool) : list Phenology.image :=
  Phenology.selected_window input_collection advance_window_width
    following_window_width target_date wrap_data.
Let guard_image : Phenology.image :=
  Phenology.guard_image input_collection collection_median.
Let window_start_date : Z :=
  Phenology.window_start_date advance_window_width target_date.
Let window_end_date : Z :=
  Phenology.window_end_date following_window_width target_date.




(** C7, amended.  For a collection that is not empty, whatever the target,
    the program builds the window and returns the record; the window
    handed to the reducers ends with the guard image, masked and zero on
    both bands, so the window, the band values reduced and the rows of
    both regressions are never empty. *)
Theorem window_never_empty (wrap_data : bool) (min_value max_value : Q) :
  input_collection <> [] ->
  Phenology.window_or_error input_collection advance_window_width
    following_window_width target_date collection_median wrap_data
  = Some (Phenology.window input_collection advance_window_width
            following_window_width target_date collection_median wrap_data) /\
  Phenology.run_get_window_fit input_collection advance_window_width
    following_window_width target_date min_value max_value
    collection_median wrap_data
  = Some (Phenology.get_window_fit input_collection advance_window_width
            following_window_width target_date min_value max_value
            collection_median wrap_data) /\
  In (Phenology.guard_image input_collection collection_median)
     (Phenology.window input_collection advance_window_width
        following_window_width target_date collection_median wrap_data) /\
  Phenology.window input_collection advance_window_width
    following_window_width target_date collection_median wrap_data <> [] /\
  valid (Phenology.time guard_image) = false /\
  valid (Phenology.band guard_image) = false /\
  (val (Phenology.time guard_image) == 0)%Q /\
  (val (Phenology.band guard_image) == 0)%Q /\
  map Phenology.band (window wrap_data) <> [] /\
  map Phenology.quadratic_row
    (Phenology.regression_data input_collection advance_window_width
       following_window_width target_date collection_median wrap_data) <> [] /\
  map Phenology.linear_row
    (Phenology.regression_data input_collection advance_window_width
       following_window_width target_date collection_median wrap_data) <> [].
Proof.
  intro Hne.
  assert (Hbuilt :
            Phenology.window_or_error input_collection advance_window_width
              following_window_width target_date collection_median wrap_data
            = Some (window wrap_data)).
  { unfold Phenology.window_or_error, Phenology.cast_guard_image,
      Phenology.collection_median_image, Phenology.median_image.
    unfold window, Phenology.window, Phenology.guard_image,
      Phenology.collection_median.
    destruct collection_median as [m |]; [reflexivity |].
    destruct input_collection; [congruence | reflexivity]. }
  fold guard_image. fold (window wrap_data).
  assert (Hw : window wrap_data = selected_window wrap_data ++ [guard_image])
    by reflexivity.
  assert (Hmap : forall (A : Type) (f : Phenology.image -> A),
             map f (window wrap_data) <> []).
  { intros A f. rewrite Hw, map_app. simpl. intro H.
    apply app_eq_nil in H. destruct H. discriminate. }
  repeat apply conj.
  - exact Hbuilt.
  - unfold Phenology.run_get_window_fit. rewrite Hbuilt. reflexivity.
  - rewrite Hw. apply in_or_app. right. left. reflexivity.
  - rewrite <- (map_id (window wrap_data)). apply Hmap.
  - reflexivity.
  - reflexivity.
  - unfold guard_image, Phenology.guard_image, Phenology.zero_masked.
    pixel_unfold. cbn [Phenology.time val]. ring.
  - unfold guard_image, Phenology.guard_image, Phenology.zero_masked.
    pixel_unfold. cbn [Phenology.band val]. ring.
  - apply Hmap.
  - unfold Phenology.regression_data. rewrite !map_map. apply Hmap.
  - unfold Phenology.regression_data. rewrite !map_map. apply Hmap.
Qed.

End Window.


(** [june_line] seen from 15 January 2021: no image is selected, and the
    window is the guard image alone. *)
Lemma window_never_empty_january :
  Phenology.window_or_error (L := Reference.library) Examples.june_line 20 20
    (Examples.day 2021 1 15) None false
  = Some [Phenology.guard_image (L := Reference.library) Examples.june_line None].
Proof.
  destruct (window_never_empty (L := Reference.library) Examples.june_line
              20 20 (Examples.day 2021 1 15) None false (-1) 1)
    as [Hbuilt _]; [discriminate |].
  rewrite Hbuilt. reflexivity.
Defined.

(** C7 as stated fails: the median of an empty collection has no bands, the
    guard image cannot be cast to the two bands, and no window is built. *)
Lemma empty_collection_has_no_window :
  ~ window_guarded (L := Reference.library) [] 20 20 (Examples.day 2020 6 15)
      None false.
Proof.
  intros [window [Hbuilt _]]. discriminate.
Qed.


(** ** fit_phenology *)

Section FitPhenology.

Context {L : Library}.
Variable input_collection : list Phenology.image.
Variables advance_window_width following_window_width : Z.
Variables min_date max_date : Z.
Variables min_value max_value : Q.
Variable wrap_data : bool.

Lemma length_sequence (a b : Z) : length (sequence a b) = Z.to_nat (b - a + 1).
Proof. unfold sequence. rewrite length_map, length_seq. reflexivity. Qed.

Lemma length_target_dates (num_time_steps : Z) :
  length (Phenology.target_dates num_time_steps min_date max_date)
  = Z.to_nat (num_time_steps + 1).
Proof.
  unfold Phenology.target_dates.
  rewrite length_map, length_sequence. f_equal. lia.
Qed.

(** C3.  [fit_phenology] returns one record per element of
    [ee.List.sequence(0, num_time_steps)], both ends included: one more
    than [num_time_steps], against the count of the claim and of the
    comment in the source. *)
Theorem fit_phenology_one_record_too_many (num_time_steps : Z) :
  length (Phenology.fit_phenology input_collection advance_window_width
            following_window_width num_time_steps min_date max_date
            min_value max_value wrap_data)
  = Z.to_nat (num_time_steps + 1).
Proof.
  unfold Phenology.fit_phenology.
  rewrite length_map. apply length_target_dates.
Qed.

End FitPhenology.

(** C8 as stated fails: with [num_time_steps = 0], and with [max_date]
    before [min_date], the parameters are out of range and the call
    returns, without an error. *)
Lemma out_of_range_call_returns :
  (out_of_range 0 (Examples.day 2020 1 1) (Examples.day 2020 12 31) /\
   Phenology.call_fit_phenology (L := Reference.library) Examples.june_line
     20 20 0 (Examples.day 2020 1 1) (Examples.day 2020 12 31) (-1) 1 false
   <> Phenology.ConfigurationError) /\
  (out_of_range 12 (Examples.day 2020 12 31) (Examples.day 2020 1 1) /\
   Phenology.call_fit_phenology (L := Reference.library) Examples.june_line
     20 20 12 (Examples.day 2020 12 31) (Examples.day 2020 1 1) (-1) 1 false
   <> Phenology.ConfigurationError).
Proof.
  split; (split; [| discriminate]).
  - left. reflexivity.
  - right. by_evaluation.
Qed.

(** ** Sorting a collection by acquisition time *)

Section SortFacts.

Variable le : Z -> Z -> bool.
Hypothesis le_total : forall a b, le a b = false -> le b a = true.
Hypothesis le_trans : forall a b c, le a b = true -> le b c = true -> le a c = true.
Hypothesis le_antisym : forall a b, le a b = true -> le b a = true -> a = b.

Local Abbreviation key := CloudFilter.system_time_start.

Lemma insert_by_perm (x : CloudFilter.scene) (l : list CloudFilter.scene) :
  Permutation (x :: l) (CloudFilter.insert_by le x l).
Proof.
  induction l as [| y l IH]; simpl.
  - apply Permutation_refl.
  - destruct (le _ _).
    + apply Permutation_refl.
    + eapply perm_trans; [apply perm_swap | apply perm_skip, IH].
Qed.

Lemma insert_by_ordered (x : CloudFilter.scene) (l : list CloudFilter.scene) :
  ordered le l -> ordered le (CloudFilter.insert_by le x l).
Proof.
  unfold ordered. induction l as [| y l IH]; simpl; intro Hl.
  - constructor; constructor.
  - apply StronglySorted_inv in Hl. destruct Hl as [Hl Hy].
    destruct (le (CloudFilter.system_time_start x) (CloudFilter.system_time_start y)) eqn:E.
    + constructor.
      * constructor; assumption.
      * constructor; [exact E |].
        eapply Forall_impl; [| exact Hy].
        intros z Hz. eapply le_trans; [exact E | exact Hz].
    + constructor.
      * apply IH, Hl.
      * eapply Permutation_Forall; [apply insert_by_perm |].
        constructor; [apply le_total, E | exact Hy].
Qed.

Lemma sort_by_perm (l : list CloudFilter.scene) :
  Permutation l (CloudFilter.sort_by le l).
Proof.
  induction l as [| x l IH]; simpl.
  - constructor.
  - eapply perm_trans; [apply perm_skip, IH | apply insert_by_perm].
Qed.

Lemma sort_by_ordered (l : list CloudFilter.scene) :
  ordered le (CloudFilter.sort_by le l).
Proof.
  induction l as [| x l IH]; simpl.
  - constructor.
  - apply insert_by_ordered, IH.
Qed.

(** Two lists in order, with the same scenes and no repeated acquisition
    time, are the same list. *)
Lemma ordered_unique (l1 l2 : list CloudFilter.scene) :
  ordered le l1 -> ordered le l2 -> NoDup (map key l2) -> Permutation l1 l2 ->
  l1 = l2.
Proof.
  revert l2. induction l1 as [| x l1 IH]; intros l2 H1 H2 Hnd Hp.
  - apply Permutation_nil in Hp. congruence.
  - destruct l2 as [| y l2].
    + apply Permutation_sym, Permutation_nil in Hp. discriminate.
    + apply StronglySorted_inv in H1. destruct H1 as [H1 Hx].
      apply StronglySorted_inv in H2. destruct H2 as [H2 Hy].
      simpl in Hnd. apply NoDup_cons_iff in Hnd. destruct Hnd as [Hny Hnd].
      assert (Hxy : x = y).
      { assert (Hin : In x (y :: l2))
          by (eapply Permutation_in; [exact Hp | left; reflexivity]).
        destruct Hin as [Heq | Hin]; [congruence |].
        assert (Hin' : In y (x :: l1))
          by (eapply Permutation_in;
              [apply Permutation_sym; exact Hp | left; reflexivity]).
        destruct Hin' as [Heq | Hin']; [congruence |].
        rewrite Forall_forall in Hx, Hy.
        assert (Hk : key y = key x)
          by (apply le_antisym; [apply Hy, Hin | apply Hx, Hin']).
        exfalso. apply Hny. rewrite Hk. apply in_map, Hin. }
      subst y. f_equal.
      apply IH; try assumption.
      eapply Permutation_cons_inv. exact Hp.
Qed.

Lemma sort_by_is (l l' : list CloudFilter.scene) :
  ordered le l' -> NoDup (map key l') -> Permutation l l' ->
  CloudFilter.sort_by le l = l'.
Proof.
  intros Ho Hnd Hp.
  apply ordered_unique; try assumption.
  - apply sort_by_ordered.
  - eapply perm_trans; [apply Permutation_sym, sort_by_perm | exact Hp].
Qed.

End SortFacts.

Section Ascending.

Local Abbreviation key := CloudFilter.system_time_start.

Lemma ascending_NoDup (l : list CloudFilter.scene) :
  ascending l -> NoDup (map key l).
Proof.
  induction 1 as [| x l Hl IH Hx]; simpl; constructor; [| exact IH].
  rewrite in_map_iff. intros [y [Hk Hy]].
  rewrite Forall_forall in Hx. specialize (Hx y Hy). clear - Hx Hk. lia.
Qed.

Lemma ascending_ordered (l : list CloudFilter.scene) :
  ascending l -> ordered Z.leb l.
Proof.
  unfold ascending, ordered.
  induction 1 as [| x l Hl IH Hx]; constructor; [exact IH |].
  eapply Forall_impl; [| exact Hx]. intros y Hy. cbv beta in Hy. apply Z.leb_le. lia.
Qed.

Lemma ascending_rev_ordered (l : list CloudFilter.scene) :
  ascending l -> ordered Z.geb (rev l).
Proof.
  unfold ascending, ordered.
  induction 1 as [| x l Hl IH Hx]; simpl; [constructor |].
  clear Hl. revert IH Hx. generalize (rev_involutive l).
  generalize (rev l) as r. intros r Hr IH Hx.
  assert (Hall : Forall (fun a => key x < key a) r).
  { rewrite Forall_forall in *. intros a Ha. apply Hx.
    rewrite <- Hr. rewrite <- in_rev. exact Ha. }
  clear Hx Hr. induction r as [| a r IHr]; simpl.
  - constructor; constructor.
  - apply StronglySorted_inv in IH. destruct IH as [IH Ha].
    apply Forall_cons_iff in Hall. destruct Hall as [Hxa Hall].
    constructor; [apply IHr; assumption |].
    apply Forall_app. split; [exact Ha |].
    constructor; [| constructor]. rewrite Z.geb_le. lia.
Qed.

Lemma geb_total (a b : Z) : (a >=? b) = false -> (b >=? a) = true.
Proof. rewrite Z.geb_leb, Z.leb_gt, Z.geb_le. lia. Qed.
Lemma geb_trans (a b c : Z) : (a >=? b) = true -> (b >=? c) = true -> (a >=? c) = true.
Proof. rewrite !Z.geb_le. lia. Qed.
Lemma geb_antisym (a b : Z) : (a >=? b) = true -> (b >=? a) = true -> a = b.
Proof. rewrite !Z.geb_le. lia. Qed.
Lemma leb_total (a b : Z) : (a <=? b) = false -> (b <=? a) = true.
Proof. rewrite Z.leb_gt, Z.leb_le. lia. Qed.
Lemma leb_trans (a b c : Z) : (a <=? b) = true -> (b <=? c) = true -> (a <=? c) = true.
Proof. rewrite !Z.leb_le. lia. Qed.
Lemma leb_antisym (a b : Z) : (a <=? b) = true -> (b <=? a) = true -> a = b.
Proof. rewrite !Z.leb_le. lia. Qed.

(** Sorting a rearrangement of a strictly increasing series restores it;
    sorting it in descending order reverses it. *)
Lemma sort_ascending (l l' : list CloudFilter.scene) :
  ascending l' -> Permutation l l' -> CloudFilter.sort true l = l'.
Proof.
  intros Ha Hp. unfold CloudFilter.sort.
  apply (sort_by_is Z.leb leb_total leb_trans leb_antisym).
  - apply ascending_ordered, Ha.
  - apply ascending_NoDup, Ha.
  - exact Hp.
Qed.

Lemma sort_descending (l l' : list CloudFilter.scene) :
  ascending l' -> Permutation l l' -> CloudFilter.sort false l = rev l'.
Proof.
  intros Ha Hp. unfold CloudFilter.sort.
  apply (sort_by_is Z.geb geb_total geb_trans geb_antisym).
  - apply ascending_rev_ordered, Ha.
  - rewrite map_rev. apply NoDup_rev, ascending_NoDup, Ha.
  - eapply perm_trans; [exact Hp | apply Permutation_rev].
Qed.

End Ascending.

(** ** The neighbour scans of cloud_temporal_filter *)

Section Scan.

Lemma iterate_running (pre : list CloudFilter.bands) (a : CloudFilter.bands)
    (l : list CloudFilter.scene) :
  CloudFilter.iterate CloudFilter.get_previous_unmasked_scene (pre ++ [a]) l
  = pre ++ running a l.
Proof.
  unfold CloudFilter.iterate. revert pre a.
  induction l as [| x l IH]; intros pre a; simpl.
  - reflexivity.
  - unfold CloudFilter.get_previous_unmasked_scene at 2.
    rewrite last_last. fold (scan_step x a).
    rewrite IH, <- app_assoc. reflexivity.
Qed.

Lemma length_running (a : CloudFilter.bands) (l : list CloudFilter.scene) :
  length (running a l) = S (length l).
Proof. revert a. induction l as [| x l IH]; intro a; simpl; [| rewrite IH]; reflexivity. Qed.

Lemma nth_running (l : list CloudFilter.scene) (a : CloudFilter.bands) (k : nat) :
  (k <= length l)%nat ->
  nth_error (running a l) k = Some (scan (firstn k l) a).
Proof.
  revert a k. induction l as [| x l IH]; intros a k Hk.
  - simpl in Hk. assert (k = 0%nat) by lia. subst. reflexivity.
  - destruct k as [| k]; [reflexivity |].
    simpl in Hk. simpl. apply IH. lia.
Qed.

Lemma scan_step_valid (x : CloudFilter.scene) (a : CloudFilter.bands) :
  valid_bands (scan_step x a).
Proof. split; reflexivity. Qed.

Lemma scan_step_taken (x : CloudFilter.scene) (a : CloudFilter.bands) :
  has_value x = true -> same_bands (scan_step x a) (unmasked x).
Proof.
  unfold has_value. intro Hx.
  unfold same_bands, scan_step, unmasked, CloudFilter.carry, same.
  pixel_unfold. cbn [CloudFilter.b_value CloudFilter.b_DOY val valid].
  rewrite Hx. cbn [indicator]. change (Qeq_bool 1 0) with false.
  cbn [indicator]. repeat split; intros _; ring.
Qed.

Lemma scan_step_kept (x : CloudFilter.scene) (a : CloudFilter.bands) :
  has_value x = false -> valid_bands a -> same_bands (scan_step x a) a.
Proof.
  unfold has_value. intros Hx [Hv Hd].
  unfold same_bands, scan_step, CloudFilter.carry, same.
  pixel_unfold. cbn [CloudFilter.b_value CloudFilter.b_DOY val valid].
  rewrite Hx, Hv, Hd. cbn [indicator]. change (Qeq_bool 0 0) with true.
  cbn [indicator]. repeat split; intros _; ring.
Qed.

Lemma same_bands_trans (a b c : CloudFilter.bands) :
  same_bands a b -> same_bands b c -> same_bands a c.
Proof.
  unfold same_bands, same.
  intros [[H1 H2] [H3 H4]] [[H5 H6] [H7 H8]].
  repeat split; try congruence.
  - intro H. rewrite (H2 H). apply H6. congruence.
  - intro H. rewrite (H4 H). apply H8. congruence.
Qed.

Lemma scan_latest (l : list CloudFilter.scene) (a : CloudFilter.bands) :
  valid_bands a ->
  valid_bands (scan l a) /\ same_bands (scan l a) (latest a l).
Proof.
  intro Ha. unfold scan, latest.
  induction l as [| x l IH] using rev_ind.
  - simpl. split; [exact Ha | split; apply same_refl].
  - rewrite fold_left_app, rev_app_distr. simpl.
    destruct IH as [IHv IHs]. split; [apply scan_step_valid |].
    destruct (has_value x) eqn:Hx.
    + apply scan_step_taken, Hx.
    + eapply same_bands_trans; [apply scan_step_kept; assumption | exact IHs].
Qed.

End Scan.

(** ** Indexing the running lists *)

Section Indexing.

Lemma map_opt_all {A B : Type} (f : A -> option B) (g : A -> B) (l : list A) :
  (forall x, In x l -> f x = Some (g x)) ->
  CloudFilter.map_opt f l = Some (map g l).
Proof.
  induction l as [| a l IH]; intro H; simpl.
  - reflexivity.
  - rewrite (H a (or_introl Logic.eq_refl)). simpl.
    rewrite IH by (intros x Hx; apply H; right; exact Hx).
    reflexivity.
Qed.

Lemma map_opt_length {A B : Type} (f : A -> option B) (l : list A) (out : list B) :
  CloudFilter.map_opt f l = Some out -> length out = length l.
Proof.
  revert out. induction l as [| a l IH]; intros out H; simpl in H.
  - inversion H. reflexivity.
  - destruct (f a) as [b |]; simpl in H; [| discriminate].
    destruct (CloudFilter.map_opt f l) as [bs |]; simpl in H; [| discriminate].
    inversion H. simpl. f_equal. apply IH. reflexivity.
Qed.

Lemma map_opt_nth {A B : Type} (f : A -> option B) (l : list A) (out : list B)
    (i : nat) (b : B) :
  CloudFilter.map_opt f l = Some out -> nth_error out i = Some b ->
  exists a, nth_error l i = Some a /\ f a = Some b.
Proof.
  revert out i. induction l as [| a l IH]; intros out i H Hi; simpl in H.
  - inversion H. subst. destruct i; discriminate.
  - destruct (f a) as [b' |] eqn:Ea; simpl in H; [| discriminate].
    destruct (CloudFilter.map_opt f l) as [bs |] eqn:El; simpl in H; [| discriminate].
    inversion H. subst out. destruct i as [| i]; simpl in Hi.
    + inversion Hi. subst. exists a. split; [reflexivity | exact Ea].
    + destruct (IH bs i Logic.eq_refl Hi) as [a' [Ha' Hf]].
      exists a'. split; assumption.
Qed.

Lemma list_get_of_nat {A : Type} (l : list A) (k : nat) :
  CloudFilter.list_get l (Z.of_nat k) = nth_error l k.
Proof.
  unfold CloudFilter.list_get.
  destruct (Z.ltb_spec (Z.of_nat k) 0); [lia |].
  rewrite Nat2Z.id. reflexivity.
Qed.

Lemma list_get_from_end {A : Type} (l : list A) (k : nat) :
  (0 < k <= length l)%nat ->
  CloudFilter.list_get l (- Z.of_nat k) = nth_error l (length l - k).
Proof.
  intro Hk. unfold CloudFilter.list_get.
  destruct (Z.ltb_spec (- Z.of_nat k) 0); [| lia].
  destruct (Z.ltb_spec (Z.of_nat (length l) + - Z.of_nat k) 0); [lia |].
  f_equal. lia.
Qed.

Lemma nth_error_sequence (a b : Z) (i : nat) (x : Z) :
  nth_error (sequence a b) i = Some x ->
  x = a + Z.of_nat i /\ (i < Z.to_nat (b - a + 1))%nat.
Proof.
  unfold sequence. intro H.
  assert (Hi : (i < Z.to_nat (b - a + 1))%nat).
  { assert (Hn : nth_error (map (fun i => a + Z.of_nat i)
                                (seq 0 (Z.to_nat (b - a + 1)))) i <> None)
      by congruence.
    apply nth_error_Some in Hn. rewrite length_map, length_seq in Hn. exact Hn. }
  split; [| exact Hi].
  rewrite nth_error_map, nth_error_seq in H.
  destruct (Nat.ltb_spec i (Z.to_nat (b - a + 1))); [| lia].
  simpl in H. inversion H. reflexivity.
Qed.

Lemma in_sequence (a b x : Z) :
  In x (sequence a b) -> exists i, x = a + Z.of_nat i /\ (i < Z.to_nat (b - a + 1))%nat.
Proof.
  unfold sequence. rewrite in_map_iff.
  intros [i [Hx Hi]]. apply in_seq in Hi. exists i. split; [congruence | lia].
Qed.

Lemma iterate_get_list_iterator (acc l : list CloudFilter.scene) :
  CloudFilter.iterate CloudFilter.get_list_iterator acc l = acc ++ l.
Proof.
  unfold CloudFilter.iterate. revert acc.
  induction l as [| x l IH]; intro acc; simpl.
  - rewrite app_nil_r. reflexivity.
  - rewrite IH. unfold CloudFilter.get_list_iterator.
    rewrite <- app_assoc. reflexivity.
Qed.

Lemma pheno_in_list_is (pheno_in : list CloudFilter.scene) :
  pheno_in <> [] ->
  exists filler,
    CloudFilter.pheno_in_list pheno_in
    = Some (filler :: CloudFilter.sort true pheno_in).
Proof.
  intro Hne. unfold CloudFilter.pheno_in_list, CloudFilter.first_input.
  destruct pheno_in as [| img rest]; [congruence |].
  eexists. cbn [CloudFilter.bind].
  rewrite iterate_get_list_iterator. reflexivity.
Qed.

End Indexing.

Section Recorded.

Variable pheno_in : list CloudFilter.scene.
Variables threshold_low threshold_high : Q.
Variable num_padding_scenes : nat.

Let buffered : list CloudFilter.scene :=
  CloudFilter.pheno_buffered pheno_in num_padding_scenes.

Lemma previous_all_running :
  CloudFilter.previous_unmasked_scene_all pheno_in num_padding_scenes
  = running sentinel_first buffered.
Proof.
  unfold CloudFilter.previous_unmasked_scene_all, CloudFilter.first.
  apply (iterate_running [] sentinel_first).
Qed.

Lemma previous_list :
  length buffered = (length pheno_in + 2 * num_padding_scenes)%nat ->
  CloudFilter.previous_unmasked_scene pheno_in num_padding_scenes
  = Some (map (fun k => scan (firstn (num_padding_scenes + k) buffered) sentinel_first)
              (seq 0 (length pheno_in))).
Proof.
  intro Hlen.
  unfold CloudFilter.previous_unmasked_scene, CloudFilter.indices_to_retain,
    CloudFilter.get_retained_previous_image.
  rewrite previous_all_running, length_running, Hlen.
  unfold sequence.
  replace (Z.to_nat _) with (length pheno_in) by lia.
  rewrite (map_opt_all _
    (fun ind => scan (firstn (Z.to_nat (ind - 1)) buffered) sentinel_first)).
  - rewrite map_map. f_equal. apply map_ext. intro k.
    do 2 f_equal. lia.
  - intros ind Hin. apply in_map_iff in Hin. destruct Hin as [k [Hk Hin]].
    apply in_seq in Hin. subst ind.
    replace (Z.of_nat num_padding_scenes + 1 + Z.of_nat k - 1)
      with (Z.of_nat (num_padding_scenes + k)) by lia.
    rewrite list_get_of_nat, Nat2Z.id.
    apply nth_running. lia.
Qed.

Lemma next_list :
  length buffered = (length pheno_in + 2 * num_padding_scenes)%nat ->
  CloudFilter.sort false buffered = rev buffered ->
  CloudFilter.next_unmasked_scene pheno_in num_padding_scenes
  = Some (map (fun k => scan (rev (skipn (S (num_padding_scenes + k)) buffered))
                          sentinel_last)
              (seq 0 (length pheno_in))).
Proof.
  intros Hlen Hrev.
  unfold CloudFilter.next_unmasked_scene, CloudFilter.indices_to_retain,
    CloudFilter.get_retained_next_image, CloudFilter.next_unmasked_scene_all.
  fold buffered. rewrite Hrev.
  rewrite previous_all_running, length_running, Hlen.
  unfold CloudFilter.last_.
  rewrite (iterate_running [] sentinel_last). simpl app.
  unfold sequence.
  replace (Z.to_nat _) with (length pheno_in) by lia.
  rewrite (map_opt_all _
    (fun ind => scan (rev (skipn (Z.to_nat ind) buffered)) sentinel_last)).
  - rewrite map_map. f_equal. apply map_ext. intro k.
    do 3 f_equal. lia.
  - intros ind Hin. apply in_map_iff in Hin. destruct Hin as [k [Hk Hin]].
    apply in_seq in Hin. subst ind.
    replace ((Z.of_nat num_padding_scenes + 1 + Z.of_nat k) * -1 - 1)
      with (- Z.of_nat (num_padding_scenes + k + 2)) by lia.
    rewrite list_get_from_end
      by (rewrite length_running, length_rev, Hlen; lia).
    rewrite length_running, length_rev, Hlen.
    rewrite nth_running by (rewrite length_rev, Hlen; lia).
    rewrite firstn_rev, Hlen. do 4 f_equal. lia.
Qed.

End Recorded.

(** ** The buffered series when the folded scenes sort apart *)

Section Buffered.

Local Abbreviation key := CloudFilter.system_time_start.

Lemma ascending_app (l1 l2 : list CloudFilter.scene) :
  ascending (l1 ++ l2) <->
  ascending l1 /\ ascending l2 /\
  (forall x y, In x l1 -> In y l2 -> key x < key y).
Proof.
  unfold ascending. induction l1 as [| a l1 IH]; simpl.
  - split.
    + intro H. repeat split; [constructor | exact H | intros x y []].
    + intros [_ [H _]]. exact H.
  - split.
    + intro H. apply StronglySorted_inv in H. destruct H as [H Ha].
      apply IH in H. destruct H as [H1 [H2 H12]].
      apply Forall_app in Ha. destruct Ha as [Ha1 Ha2].
      repeat split.
      * constructor; assumption.
      * exact H2.
      * intros x y [Hx | Hx] Hy.
        -- subst x. rewrite Forall_forall in Ha2. apply Ha2, Hy.
        -- apply H12; assumption.
    + intros [H1 [H2 H12]].
      apply StronglySorted_inv in H1. destruct H1 as [H1 Ha].
      constructor.
      * apply IH. repeat split; try assumption.
        intros x y Hx Hy. apply H12; [right |]; assumption.
      * apply Forall_app. split; [exact Ha |].
        apply Forall_forall. intros y Hy. apply H12; [left; reflexivity | exact Hy].
Qed.

Lemma ascending_map (f : CloudFilter.scene -> CloudFilter.scene) (d : Z)
    (l : list CloudFilter.scene) :
  (forall x, key (f x) = key x + d) -> ascending l -> ascending (map f l).
Proof.
  intros Hf. unfold ascending.
  induction 1 as [| a l Hl IH Ha]; simpl; constructor; [exact IH |].
  apply Forall_map. eapply Forall_impl; [| exact Ha].
  intros y Hy. cbv beta in Hy. rewrite !Hf. clear - Hy. lia.
Qed.

Lemma ascending_firstn (n : nat) (l : list CloudFilter.scene) :
  ascending l -> ascending (firstn n l).
Proof.
  intro H. rewrite <- (firstn_skipn n l) in H.
  apply ascending_app in H. tauto.
Qed.

Lemma ascending_skipn (n : nat) (l : list CloudFilter.scene) :
  ascending l -> ascending (skipn n l).
Proof.
  intro H. rewrite <- (firstn_skipn n l) in H.
  apply ascending_app in H. tauto.
Qed.

Variable pheno_in : list CloudFilter.scene.
Variable num_padding_scenes : nat.

Hypothesis pheno_in_ascending : ascending pheno_in.
Hypothesis padding_fits : (num_padding_scenes <= length pheno_in)%nat.
Hypothesis folded_apart : num_padding_scenes = 0%nat \/ within_a_year pheno_in.

Let before : list CloudFilter.scene := folded_before pheno_in num_padding_scenes.
Let after : list CloudFilter.scene := folded_after pheno_in num_padding_scenes.

Lemma sort_pheno_in : CloudFilter.sort true pheno_in = pheno_in.
Proof. apply sort_ascending; [exact pheno_in_ascending | apply Permutation_refl]. Qed.

Lemma sort_pheno_in_descending : CloudFilter.sort false pheno_in = rev pheno_in.
Proof. apply sort_descending; [exact pheno_in_ascending | apply Permutation_refl]. Qed.

Lemma augmented_ascending :
  ascending (before ++ pheno_in ++ after).
Proof.
  destruct folded_apart as [Hnone | pheno_in_within_a_year].
  { assert (Hb : before = []).
    { unfold before, folded_before.
      rewrite Hnone, Nat.sub_0_r, skipn_all. reflexivity. }
    assert (Ha : after = [])
      by (unfold after, folded_after; rewrite Hnone; reflexivity).
    rewrite Hb, Ha, app_nil_r. exact pheno_in_ascending. }
  assert (Hy : 0 < CloudFilter.year_ms) by reflexivity.
  assert (Hb : ascending before).
  { apply (ascending_map _ (- CloudFilter.year_ms)).
    - intro x. unfold CloudFilter.buffer_end. cbn [CloudFilter.system_time_start]. lia.
    - apply ascending_skipn, pheno_in_ascending. }
  assert (Ha : ascending after).
  { apply (ascending_map _ CloudFilter.year_ms).
    - intro x. reflexivity.
    - apply ascending_firstn, pheno_in_ascending. }
  assert (Hin_b : forall x, In x before ->
            exists s, In s pheno_in /\ key x = key s - CloudFilter.year_ms).
  { intros x Hx. apply in_map_iff in Hx. destruct Hx as [s [Hs Hin]].
    exists s. split; [| subst x; reflexivity].
    rewrite <- (firstn_skipn (length pheno_in - num_padding_scenes) pheno_in).
    apply in_or_app. right. exact Hin. }
  assert (Hin_a : forall x, In x after ->
            exists s, In s pheno_in /\ key x = key s + CloudFilter.year_ms).
  { intros x Hx. apply in_map_iff in Hx. destruct Hx as [s [Hs Hin]].
    exists s. split; [| subst x; reflexivity].
    rewrite <- (firstn_skipn num_padding_scenes pheno_in).
    apply in_or_app. left. exact Hin. }
  apply ascending_app. repeat split.
  - exact Hb.
  - apply ascending_app. repeat split.
    + exact pheno_in_ascending.
    + exact Ha.
    + intros x y Hx Hy'. destruct (Hin_a y Hy') as [s [Hs Hk]].
      pose proof (pheno_in_within_a_year s x Hs Hx). lia.
  - intros x y Hx Hy'. destruct (Hin_b x Hx) as [s [Hs Hk]].
    apply in_app_or in Hy'. destruct Hy' as [Hy' | Hy'].
    + pose proof (pheno_in_within_a_year y s Hy' Hs). lia.
    + destruct (Hin_a y Hy') as [s' [Hs' Hk']].
      pose proof (pheno_in_within_a_year s' s Hs' Hs). lia.
Qed.

Lemma pheno_buffered_is :
  CloudFilter.pheno_buffered pheno_in num_padding_scenes
  = map CloudFilter.subset_bands_and_update_mask
        (before ++ pheno_in ++ after).
Proof.
  unfold CloudFilter.pheno_buffered. f_equal.
  apply sort_ascending; [apply augmented_ascending |].
  unfold CloudFilter.last_few_scenes, CloudFilter.first_few_scenes,
    CloudFilter.limit.
  rewrite sort_pheno_in, sort_pheno_in_descending, firstn_rev.
  apply Permutation_app.
  - unfold before, folded_before. apply Permutation_map.
    apply Permutation_sym, Permutation_rev.
  - apply Permutation_refl.
Qed.

Lemma pheno_buffered_ascending :
  ascending (CloudFilter.pheno_buffered pheno_in num_padding_scenes).
Proof.
  rewrite pheno_buffered_is.
  apply (ascending_map _ 0); [intro x; simpl; lia | apply augmented_ascending].
Qed.

Lemma length_pheno_buffered :
  length (CloudFilter.pheno_buffered pheno_in num_padding_scenes)
  = (length pheno_in + 2 * num_padding_scenes)%nat.
Proof.
  rewrite pheno_buffered_is. unfold before, after, folded_before, folded_after.
  rewrite length_map, !length_app, !length_map, length_skipn, length_firstn.
  lia.
Qed.

Lemma sort_pheno_buffered_descending :
  CloudFilter.sort false (CloudFilter.pheno_buffered pheno_in num_padding_scenes)
  = rev (CloudFilter.pheno_buffered pheno_in num_padding_scenes).
Proof.
  apply sort_descending; [apply pheno_buffered_ascending | apply Permutation_refl].
Qed.

End Buffered.

(** ** What check_value computes *)

Section Check.

Variables threshold_low threshold_high : Q.

Lemma running_valid (l : list CloudFilter.scene) (a : CloudFilter.bands) :
  valid_bands a -> Forall valid_bands (running a l).
Proof.
  revert a. induction l as [| x l IH]; intros a Ha; simpl.
  - constructor; [exact Ha | constructor].
  - constructor; [exact Ha | apply IH, scan_step_valid].
Qed.

Lemma list_get_In {A : Type} (l : list A) (i : Z) (x : A) :
  CloudFilter.list_get l i = Some x -> In x l.
Proof.
  unfold CloudFilter.list_get.
  destruct (i <? 0); [destruct (_ <? 0); [discriminate |] |];
    apply nth_error_In.
Qed.

Lemma map_opt_In {A B : Type} (f : A -> option B) (l : list A) (out : list B) (b : B) :
  CloudFilter.map_opt f l = Some out -> In b out -> exists a, In a l /\ f a = Some b.
Proof.
  intros H Hb. apply In_nth_error in Hb. destruct Hb as [i Hi].
  destruct (map_opt_nth f l out i b H Hi) as [a [Ha Hf]].
  exists a. split; [eapply nth_error_In; exact Ha | exact Hf].
Qed.

(** Every image of the output collection is [check] applied to the scene
    of that rank in time order and to two unmasked neighbour images. *)
Lemma filter_output (pheno_in : list CloudFilter.scene) (num_padding_scenes : nat)
    (out : list CloudFilter.filtered_scene) (i : nat) (f : CloudFilter.filtered_scene) :
  CloudFilter.cloud_temporal_filter pheno_in threshold_low threshold_high
    num_padding_scenes = Some out ->
  nth_error out i = Some f ->
  exists previous_scene next_scene current_scene,
    valid_bands previous_scene /\ valid_bands next_scene /\
    nth_error (CloudFilter.sort true pheno_in) i = Some current_scene /\
    f = CloudFilter.check threshold_low threshold_high
          previous_scene next_scene current_scene.
Proof.
  intros Hout Hf. unfold CloudFilter.cloud_temporal_filter in Hout.
  destruct (map_opt_nth _ _ _ _ _ Hout Hf) as [ind [Hind Hcheck]].
  apply nth_error_sequence in Hind. destruct Hind as [Hind _].
  simpl in Hind. subst ind.
  unfold CloudFilter.check_value in Hcheck.
  destruct (CloudFilter.previous_unmasked_scene pheno_in num_padding_scenes)
    as [pl |] eqn:Hpl; [| discriminate].
  destruct (CloudFilter.next_unmasked_scene pheno_in num_padding_scenes)
    as [nl |] eqn:Hnl; [| discriminate].
  destruct (CloudFilter.pheno_in_list pheno_in) as [targets |] eqn:Ht;
    [| discriminate].
  cbn [CloudFilter.bind] in Hcheck.
  destruct (CloudFilter.list_get pl (Z.of_nat i)) as [p |] eqn:Hp; [| discriminate].
  destruct (CloudFilter.list_get nl (Z.of_nat i)) as [n |] eqn:Hn; [| discriminate].
  destruct (CloudFilter.list_get targets (Z.of_nat i + 1)) as [c |] eqn:Hc;
    [| discriminate].
  cbn [CloudFilter.bind] in Hcheck. inversion Hcheck as [Hf'].
  assert (Hvp : valid_bands p).
  { apply list_get_In in Hp.
    destruct (map_opt_In _ _ _ _ Hpl Hp) as [ind [_ Hget]].
    apply list_get_In in Hget.
    unfold CloudFilter.previous_unmasked_scene_all, CloudFilter.first in Hget.
    rewrite (iterate_running [] sentinel_first) in Hget.
    pose proof (running_valid (CloudFilter.pheno_buffered pheno_in num_padding_scenes)
                  sentinel_first (conj Logic.eq_refl Logic.eq_refl)) as Hall.
    rewrite Forall_forall in Hall. apply (Hall p Hget). }
  assert (Hvn : valid_bands n).
  { apply list_get_In in Hn.
    destruct (map_opt_In _ _ _ _ Hnl Hn) as [ind [_ Hget]].
    apply list_get_In in Hget.
    unfold CloudFilter.next_unmasked_scene_all, CloudFilter.last_ in Hget.
    rewrite (iterate_running [] sentinel_last) in Hget.
    pose proof (running_valid
                  (CloudFilter.sort false
                     (CloudFilter.pheno_buffered pheno_in num_padding_scenes))
                  sentinel_last (conj Logic.eq_refl Logic.eq_refl)) as Hall.
    rewrite Forall_forall in Hall. apply (Hall n Hget). }
  exists p, n, c.
  split; [exact Hvp | split; [exact Hvn | split; [| reflexivity]]].
  unfold CloudFilter.pheno_in_list in Ht.
  destruct (CloudFilter.first_input pheno_in) as [filler |] eqn:Hfi;
    [| discriminate].
  cbn [CloudFilter.bind] in Ht. inversion Ht as [Ht']. subst targets.
  rewrite iterate_get_list_iterator in Hc.
  unfold CloudFilter.first_input in Hfi.
  destruct pheno_in as [| img rest]; [discriminate |].
  inversion Hfi as [Hfi']. subst filler.
  replace (Z.of_nat i + 1) with (Z.of_nat (S i)) in Hc by lia.
  rewrite list_get_of_nat in Hc. exact Hc.
Qed.

(** The mask that [check] gives the target band. *)
Lemma check_mask (previous_scene next_scene : CloudFilter.bands)
    (current_scene : CloudFilter.scene) :
  valid_bands previous_scene -> valid_bands next_scene ->
  let f := CloudFilter.check threshold_low threshold_high
             previous_scene next_scene current_scene in
  valid (CloudFilter.f_value f)
  = valid (CloudFilter.value current_scene)
    && valid (CloudFilter.DOY current_scene)
    && Qlt_bool threshold_low (val (CloudFilter.reg_diff f))
    && Qlt_bool (val (CloudFilter.reg_diff f)) threshold_high.
Proof.
  intros [Hp1 Hp2] [Hn1 Hn2] f. unfold f, CloudFilter.check.
  cbn [CloudFilter.f_value CloudFilter.reg_diff].
  unfold CloudFilter.allowed.
  set (d := CloudFilter.difference previous_scene next_scene current_scene).
  assert (Hd : valid d = valid (CloudFilter.value current_scene)
                         && valid (CloudFilter.DOY current_scene)).
  { unfold d, CloudFilter.difference, CloudFilter.expected_value,
      CloudFilter.slope, CloudFilter.neighbor_change.
    pixel_unfold. cbn [CloudFilter.b_value CloudFilter.b_DOY].
    rewrite Hp1, Hp2, Hn1, Hn2. cbn [andb]. rewrite !andb_true_r. reflexivity. }
  pixel_unfold. rewrite Hd.
  destruct (valid (CloudFilter.value current_scene));
    destruct (valid (CloudFilter.DOY current_scene)); cbn [andb]; try reflexivity.
  destruct (Qlt_bool threshold_low (val d));
    destruct (Qlt_bool (val d) threshold_high); reflexivity.
Qed.

End Check.

(** ** check_value on the output collection *)

Section CheckValue.

(** C4 as stated fails: in [line] with thresholds 0 and 20 the middle scene
    has neighbours on distinct days and residual 0, which lies in the band
    [0, 20], and it is masked. *)
Lemma residual_on_threshold_is_masked :
  exists out f,
    CloudFilter.cloud_temporal_filter Examples.line 0 20 0 = Some out /\
    nth_error out 1 = Some f /\
    ~ (val (CloudFilter.next_DOY f) == val (CloudFilter.previous_DOY f))%Q /\
    (0 <= val (CloudFilter.reg_diff f) <= 20)%Q /\
    valid (CloudFilter.f_value f) = false.
Proof.
  eexists. eexists. split; [vm_compute; reflexivity |].
  split; [reflexivity |]. cbn.
  repeat split; try discriminate.
Qed.

(** C4, amended.  In every output image the expected value is the straight
    line between the two recorded neighbours read at the scene's day of
    year, when the neighbours' days differ; the residual is the scene's
    value less the expected value; and the scene stays unmasked exactly
    when it was unmasked and the residual lies strictly between the two
    thresholds.  With thresholds -20 and 20 and no padding, the middle
    scene of (10, 100, 12) is masked and the three scenes of (10, 11, 12)
    are kept. *)
Theorem check_value_masks_outside_open_band
    (pheno_in : list CloudFilter.scene) (threshold_low threshold_high : Q)
    (num_padding_scenes : nat) (out : list CloudFilter.filtered_scene)
    (i : nat) (f : CloudFilter.filtered_scene) :
  CloudFilter.cloud_temporal_filter pheno_in threshold_low threshold_high
    num_padding_scenes = Some out ->
  nth_error out i = Some f ->
  interpolated_and_masked pheno_in threshold_low threshold_high i f /\
  Examples.masks (CloudFilter.cloud_temporal_filter Examples.spike (-20) 20 0)
    = Some [true; false; false] /\
  Examples.masks (CloudFilter.cloud_temporal_filter Examples.line (-20) 20 0)
    = Some [true; true; true].
Proof.
  intros Hout Hf. split; [| split; vm_compute; reflexivity].
  destruct (filter_output _ _ _ _ _ _ _ Hout Hf)
    as [p [n [c [Hp [Hn [Hc Hcheck]]]]]].
  exists c. split; [exact Hc |].
  pose proof (check_mask threshold_low threshold_high p n c Hp Hn) as Hmask.
  cbv zeta in Hmask. rewrite <- Hcheck in Hmask.
  split; [| split].
  - intro Hdistinct. subst f. unfold interpolation.
    cbn [CloudFilter.check CloudFilter.reg_expected CloudFilter.previous
         CloudFilter.previous_DOY CloudFilter.next CloudFilter.next_DOY] in *.
    unfold CloudFilter.expected_value, CloudFilter.slope,
      CloudFilter.neighbor_change.
    pixel_unfold. cbn [CloudFilter.b_value CloudFilter.b_DOY].
    unfold Qdivide.
    destruct (Qeq_bool _ 0) eqn:E.
    + exfalso. apply Hdistinct. apply Qeq_bool_iff in E. cbn [val] in E. lra.
    + cbn [val]. ring.
  - subst f. reflexivity.
  - rewrite Hmask, !andb_true_iff, !Qlt_bool_iff. tauto.
Qed.

(** C10.  When the neighbours recorded for a scene are the two fillers
    (value 0 at day 0, value 0 at day 365), the slope and the expected
    value are 0, the residual is the scene's own value, and an unmasked
    scene is masked exactly when its value does not lie strictly between
    the thresholds. *)
Theorem no_neighbour_judged_on_raw_value
    (pheno_in : list CloudFilter.scene) (threshold_low threshold_high : Q)
    (num_padding_scenes : nat) (out : list CloudFilter.filtered_scene)
    (i : nat) (f : CloudFilter.filtered_scene) :
  CloudFilter.cloud_temporal_filter pheno_in threshold_low threshold_high
    num_padding_scenes = Some out ->
  nth_error out i = Some f ->
  (val (CloudFilter.previous f) == 0)%Q ->
  (val (CloudFilter.previous_DOY f) == 0)%Q ->
  (val (CloudFilter.next f) == 0)%Q ->
  (val (CloudFilter.next_DOY f) == 365)%Q ->
  judged_on_raw_value pheno_in threshold_low threshold_high i f.
Proof.
  intros Hout Hf Hpv Hpd Hnv Hnd.
  destruct (filter_output _ _ _ _ _ _ _ Hout Hf)
    as [p [n [c [Hp [Hn [Hc Hcheck]]]]]].
  exists c. split; [exact Hc |].
  pose proof (check_mask threshold_low threshold_high p n c Hp Hn) as Hmask.
  cbv zeta in Hmask. rewrite <- Hcheck in Hmask.
  assert (Hslope : (val (CloudFilter.slope
            (CloudFilter.Bands (CloudFilter.previous f) (CloudFilter.previous_DOY f))
            (CloudFilter.Bands (CloudFilter.next f) (CloudFilter.next_DOY f)))
     == 0)%Q).
  { unfold CloudFilter.slope, CloudFilter.neighbor_change.
    pixel_unfold. cbn [CloudFilter.b_value CloudFilter.b_DOY].
    unfold Qdivide. destruct (Qeq_bool _ 0); [reflexivity |].
    cbn [val]. rewrite Hnv, Hpv. unfold Qdiv. ring. }
  assert (Hexp : (val (CloudFilter.reg_expected f) == 0)%Q).
  { subst f.
    cbn [CloudFilter.check CloudFilter.reg_expected CloudFilter.previous
         CloudFilter.previous_DOY CloudFilter.next CloudFilter.next_DOY] in *.
    unfold CloudFilter.expected_value. pixel_unfold.
    destruct p as [pv pd], n as [nv nd].
    cbn [CloudFilter.b_value CloudFilter.b_DOY] in *.
    rewrite Hslope, Hpv. ring. }
  assert (Hdiff : (val (CloudFilter.reg_diff f) == val (CloudFilter.value c))%Q).
  { assert (Hd : (val (CloudFilter.reg_diff f)
                  == val (CloudFilter.value c) - val (CloudFilter.reg_expected f))%Q)
      by (subst f; reflexivity).
    rewrite Hd, Hexp. ring. }
  split; [exact Hslope | split; [exact Hexp | split; [exact Hdiff |]]].
  intros Hv Hd. rewrite Hmask, Hv, Hd. cbn [andb]. split.
  - intros Hmasked [Hlo Hhi]. rewrite <- Hdiff in Hlo, Hhi.
    apply Qlt_bool_iff in Hlo, Hhi. rewrite Hlo, Hhi in Hmasked. discriminate.
  - intros Hout'.
    destruct (Qlt_bool threshold_low _) eqn:E1;
      destruct (Qlt_bool _ threshold_high) eqn:E2; try reflexivity.
    exfalso. apply Hout'. apply Qlt_bool_iff in E1, E2.
    rewrite <- Hdiff. split; assumption.
Qed.

End CheckValue.

(** The middle scene of [line] under thresholds -20 and 20. *)
Lemma check_value_masks_outside_open_band_line :
  exists out f,
    CloudFilter.cloud_temporal_filter Examples.line (-20) 20 0 = Some out /\
    nth_error out 1 = Some f /\
    interpolated_and_masked Examples.line (-20) 20 1 f.
Proof.
  destruct (CloudFilter.cloud_temporal_filter Examples.line (-20) 20 0)
    as [out |] eqn:Hout; [| vm_compute in Hout; discriminate].
  destruct (nth_error out 1) as [f |] eqn:Hf;
    [| vm_compute in Hout; inversion Hout; subst out; discriminate].
  exists out, f. split; [reflexivity |]. split; [exact Hf |].
  exact (proj1 (check_value_masks_outside_open_band
                  Examples.line (-20) 20 0%nat out 1%nat f Hout Hf)).
Defined.

(** The single scene of [lone], value 0.7, under thresholds -0.5 and 0.5:
    both neighbours are the fillers and the scene is judged on 0.7. *)
Lemma no_neighbour_judged_on_raw_value_lone :
  exists f,
    CloudFilter.cloud_temporal_filter Examples.lone (- (1 # 2)) (1 # 2) 0
      = Some [f] /\
    judged_on_raw_value Examples.lone (- (1 # 2)) (1 # 2) 0 f /\
    valid (CloudFilter.f_value f) = false.
Proof.
  destruct (CloudFilter.cloud_temporal_filter Examples.lone (- (1 # 2)) (1 # 2) 0)
    as [out |] eqn:Hout; [| vm_compute in Hout; discriminate].
  assert (Hout' := Hout). vm_compute in Hout'.
  inversion Hout' as [Hlist]. clear Hout'. subst out.
  eexists. split; [reflexivity |]. split.
  - eapply no_neighbour_judged_on_raw_value;
      [exact Hout | reflexivity | | | |]; by_evaluation.
  - reflexivity.
Defined.

(** ** The neighbours recorded for each scene *)

Section Neighbours.

Local Abbreviation key := CloudFilter.system_time_start.

Lemma position_nth (l : list CloudFilter.scene) (i : nat) (d : CloudFilter.scene) :
  NoDup (map key l) -> (i < length l)%nat -> position (key (nth i l d)) l = i.
Proof.
  revert i. induction l as [| s rest IH]; intros i Hnd Hi; simpl in Hi; [lia |].
  simpl in Hnd. apply NoDup_cons_iff in Hnd. destruct Hnd as [Hs Hnd].
  destruct i as [| i]; simpl.
  - rewrite Z.eqb_refl. reflexivity.
  - destruct (Z.eqb_spec (key s) (key (nth i rest d))) as [E | E].
    + exfalso. apply Hs. rewrite E. apply in_map, nth_In. lia.
    + f_equal. apply IH; [exact Hnd | lia].
Qed.

Section FoldedApart.

Variable pheno_in : list CloudFilter.scene.
Variables threshold_low threshold_high : Q.
Variable num_padding_scenes : nat.

Hypothesis pheno_in_ascending : ascending pheno_in.
Hypothesis padding_fits : (num_padding_scenes <= length pheno_in)%nat.
Hypothesis folded_apart : num_padding_scenes = 0%nat \/ within_a_year pheno_in.

Let series : list CloudFilter.scene :=
  CloudFilter.pheno_buffered pheno_in num_padding_scenes.
Let checked_at (k : nat) : CloudFilter.filtered_scene :=
  checked pheno_in threshold_low threshold_high num_padding_scenes k.

Lemma filter_within_a_year :
  CloudFilter.cloud_temporal_filter pheno_in threshold_low threshold_high
    num_padding_scenes
  = Some (map checked_at (seq 0 (length pheno_in))).
Proof.
  pose proof (length_pheno_buffered pheno_in num_padding_scenes
                pheno_in_ascending padding_fits folded_apart) as Hlen.
  pose proof (sort_pheno_buffered_descending pheno_in num_padding_scenes
                pheno_in_ascending padding_fits folded_apart) as Hrev.
  unfold CloudFilter.cloud_temporal_filter, CloudFilter.target_sequence, sequence.
  replace (Z.to_nat _) with (length pheno_in) by lia.
  rewrite (map_opt_all _ (fun ind => checked_at (Z.to_nat ind))).
  - rewrite map_map. f_equal. apply map_ext. intro k. f_equal. lia.
  - intros ind Hin. apply in_map_iff in Hin. destruct Hin as [k [Hk Hin]].
    apply in_seq in Hin. simpl in Hk. subst ind. rewrite Nat2Z.id.
    unfold CloudFilter.check_value.
    rewrite (previous_list pheno_in num_padding_scenes Hlen).
    rewrite (next_list pheno_in num_padding_scenes Hlen Hrev).
    assert (Hne : pheno_in <> [])
      by (intro E; rewrite E in Hin; simpl in Hin; lia).
    destruct (pheno_in_list_is pheno_in Hne) as [filler Hl]. rewrite Hl.
    cbn [CloudFilter.bind].
    rewrite (sort_pheno_in pheno_in pheno_in_ascending).
    rewrite !list_get_of_nat.
    replace (Z.of_nat k + 1) with (Z.of_nat (S k)) by lia.
    rewrite list_get_of_nat. cbn [nth_error].
    rewrite !nth_error_map, nth_error_seq.
    destruct (Nat.ltb_spec k (length pheno_in)) as [Hk | Hk]; [| lia].
    cbn [option_map CloudFilter.bind].
    rewrite (nth_error_nth' pheno_in no_scene Hk).
    cbn [CloudFilter.bind]. reflexivity.
Qed.

Lemma place_of_scene (i : nat) :
  (i < length pheno_in)%nat ->
  position (key (nth i pheno_in no_scene)) series = (num_padding_scenes + i)%nat.
Proof.
  intro Hi.
  pose proof (length_pheno_buffered pheno_in num_padding_scenes
                pheno_in_ascending padding_fits folded_apart) as Hlen.
  pose proof (pheno_buffered_ascending pheno_in num_padding_scenes
                pheno_in_ascending padding_fits folded_apart) as Hasc.
  fold series in Hlen, Hasc.
  assert (Hkey : key (nth (num_padding_scenes + i) series
                        (CloudFilter.subset_bands_and_update_mask no_scene))
                 = key (nth i pheno_in no_scene)).
  { unfold series.
    rewrite (pheno_buffered_is pheno_in num_padding_scenes
               pheno_in_ascending padding_fits folded_apart).
    rewrite map_nth.
    assert (Hb : length (folded_before pheno_in num_padding_scenes)
                 = num_padding_scenes).
    { unfold folded_before. rewrite length_map, length_skipn. lia. }
    rewrite app_nth2 by lia. rewrite Hb.
    replace (num_padding_scenes + i - num_padding_scenes)%nat with i by lia.
    rewrite app_nth1 by exact Hi. reflexivity. }
  rewrite <- Hkey. apply position_nth; [apply ascending_NoDup, Hasc | lia].
Qed.

Lemma neighbours_within_a_year (i : nat) :
  (i < length pheno_in)%nat ->
  neighbours_recorded pheno_in threshold_low threshold_high num_padding_scenes i.
Proof.
  intro Hi. unfold neighbours_recorded.
  exists (map checked_at (seq 0 (length pheno_in))), (checked_at i),
         (nth i pheno_in no_scene).
  split; [apply filter_within_a_year |].
  split.
  { rewrite nth_error_map, nth_error_seq.
    destruct (Nat.ltb_spec i (length pheno_in)); [reflexivity | lia]. }
  split.
  { rewrite (sort_pheno_in pheno_in pheno_in_ascending).
    apply nth_error_nth', Hi. }
  cbv zeta. fold series. rewrite (place_of_scene i Hi).
  unfold checked_at, checked, CloudFilter.check.
  cbn [CloudFilter.previous CloudFilter.previous_DOY CloudFilter.next CloudFilter.next_DOY].
  fold series.
  split.
  - destruct (scan_latest (firstn (num_padding_scenes + i) series) sentinel_first
                (conj Logic.eq_refl Logic.eq_refl)) as [_ Hs].
    exact Hs.
  - destruct (scan_latest (rev (skipn (S (num_padding_scenes + i)) series))
                sentinel_last (conj Logic.eq_refl Logic.eq_refl)) as [_ Hs].
    unfold latest in Hs. rewrite rev_involutive in Hs. exact Hs.
Qed.

End FoldedApart.

(** C5, amended.  For a series with strictly increasing acquisition
    times, and either no padding scene or a series that spans less than
    365 days with a padding no larger than the series, the previous
    neighbour recorded for scene [i] is the nearest scene with a valid
    target band strictly before it in the buffered series, or the filler
    (value 0, day 0), and the next neighbour is the nearest one strictly
    after it, or the filler (value 0, day 365). *)
Theorem neighbours_are_nearest_valid (pheno_in : list CloudFilter.scene)
    (threshold_low threshold_high : Q) (num_padding_scenes i : nat) :
  ascending pheno_in ->
  num_padding_scenes = 0%nat \/
  ((num_padding_scenes <= length pheno_in)%nat /\ within_a_year pheno_in) ->
  (i < length pheno_in)%nat ->
  neighbours_recorded pheno_in threshold_low threshold_high num_padding_scenes i.
Proof.
  intros Hasc Hapart Hi.
  apply neighbours_within_a_year; try assumption.
  - destruct Hapart as [-> | [Hpad _]]; [lia | exact Hpad].
  - destruct Hapart as [Hnone | [_ Hyear]]; [left | right]; assumption.
Qed.

(** C5 as stated fails: in a series over two years with one padding scene,
    the first scene has nothing before it in the buffered series, and the
    previous neighbour recorded for it is the scene itself, value 10. *)
Lemma neighbours_misplaced_over_two_years :
  ~ neighbours_recorded Examples.two_years (-20) 20 1 0.
Proof.
  intros [out [f [current [Hout [Hf [Hc [Hprev _]]]]]]].
  vm_compute in Hout. inversion Hout; subst out; clear Hout.
  simpl in Hf. inversion Hf; subst f; clear Hf.
  vm_compute in Hc. inversion Hc; subst current; clear Hc.
  destruct Hprev as [[_ Hv] _]. vm_compute in Hv.
  specialize (Hv Logic.eq_refl). discriminate.
Qed.

End Neighbours.

(** The first scene of [line] with one padding scene, and the first scene
    of [two_years] without padding. *)
Lemma neighbours_are_nearest_valid_line :
  neighbours_recorded Examples.line (-20) 20 1 0 /\
  neighbours_recorded Examples.two_years (-20) 20 0 0.
Proof.
  split.
  - apply (neighbours_are_nearest_valid Examples.line (-20) 20 1%nat 0%nat).
    + repeat constructor.
    + right. split; [by_evaluation |].
      intros x y Hx Hy. simpl in Hx, Hy.
      destruct Hx as [Hx | [Hx | [Hx | []]]];
        destruct Hy as [Hy | [Hy | [Hy | []]]]; subst x y; reflexivity.
    + by_evaluation.
  - apply (neighbours_are_nearest_valid Examples.two_years (-20) 20 0%nat 0%nat).
    + repeat constructor.
    + left. reflexivity.
    + by_evaluation.
Defined.

(** ** Diagnostics and masks of get_window_fit *)

Section Diagnostics.

Context {L : Library}.
Variable input_collection : list Phenology.image.
Variables advance_window_width following_window_width : Z.
Variable target_date : Z.
Variables min_value max_value : Q.
Variable collection_median : option Phenology.image.
Variable wrap_data : bool.

Let fit : Phenology.prediction_record :=
  Phenology.get_window_fit input_collection advance_window_width
    following_window_width target_date min_value max_value
    collection_median wrap_data.
Let selected : list Phenology.image :=
  Phenology.selected_window input_collection advance_window_width
    following_window_width target_date wrap_data.
Let quadratic : pixel :=
  Phenology.quadratic_prediction input_collection advance_window_width
    following_window_width target_date collection_median wrap_data.
Let linear : pixel :=
  Phenology.linear_prediction input_collection advance_window_width
    following_window_width target_date collection_median wrap_data.
Let prediction : pixel :=
  Phenology.model_prediction input_collection advance_window_width
    following_window_width target_date collection_median wrap_data.

Lemma count_valid_unmask (l : list Phenology.image) :
  count_valid (map (fun img => unmask (Phenology.band img)) l) = length l.
Proof.
  unfold count_valid. induction l as [| x l IH]; [reflexivity |].
  cbn [map filter unmask valid length]. now rewrite IH.
Qed.

Lemma count_valid_app (l1 l2 : list pixel) :
  count_valid (l1 ++ l2) = (count_valid l1 + count_valid l2)%nat.
Proof. unfold count_valid. now rewrite filter_app, length_app. Qed.

Lemma count_valid_le (l : list pixel) : (count_valid l <= length l)%nat.
Proof. apply filter_length_le. Qed.

Lemma count_valid_window :
  count_valid
    (map Phenology.band
       (Phenology.window input_collection advance_window_width
          following_window_width target_date collection_median wrap_data))
  = count_valid (map Phenology.band selected).
Proof.
  unfold Phenology.window, Phenology.merge. rewrite map_app, count_valid_app.
  fold selected. cbn. lia.
Qed.

(** The band [window_size] is never masked and is one more than the number
    of images selected into the window, because the guard image is counted
    with them; the band [clear_images] counts the valid observations of
    the selected images only and stays below [window_size]. *)
Theorem window_size_counts_guard :
  valid (Phenology.out_window_size fit) = true /\
  val (Phenology.out_window_size fit)
  = inject_Z (Z.of_nat (length selected) + 1) /\
  Phenology.out_clear_images fit = count (map Phenology.band selected) /\
  (val (Phenology.out_clear_images fit) < val (Phenology.out_window_size fit))%Q.
Proof.
  unfold fit, Phenology.get_window_fit.
  cbn [Phenology.out_window_size Phenology.out_clear_images].
  unfold count. rewrite count_valid_unmask, count_valid_window.
  unfold Phenology.window, Phenology.merge. fold selected.
  rewrite length_app. cbn [length val valid].
  assert (Hle := count_valid_le (map Phenology.band selected)).
  rewrite length_map in Hle.
  repeat apply conj.
  - destruct (Nat.eqb_spec (length selected + 1) 0); [lia | reflexivity].
  - f_equal. lia.
  - reflexivity.
  - rewrite <- Zlt_Qlt. lia.
Qed.

(** The emitted prediction is unmasked exactly where the median and the
    standard deviation of the window are: the regression outputs, the
    bounds and the flags have no part in its mask. *)
Theorem prediction_masked_with_window_statistics :
  valid (Phenology.out_prediction_filtered fit)
  = valid (Phenology.out_median fit) && valid (Phenology.out_stdev fit).
Proof.
  unfold fit, Phenology.get_window_fit.
  cbn [Phenology.out_prediction_filtered Phenology.out_median Phenology.out_stdev].
  unfold Phenology.model_prediction_filtered, Phenology.bad_data_low,
    Phenology.too_low_mask, Phenology.statistical_outlier_low.
  pixel_unfold. reflexivity.
Qed.

(** With at least three valid observations in the window, a masked linear
    prediction, or with at least six a masked quadratic prediction, makes
    the prediction that enters the rejection stage the number 0, unmasked:
    no lower-order model and no median takes its place. *)
Theorem masked_regression_predicts_zero :
  let n := count_valid (map Phenology.band selected) in
  (3 <= n)%nat ->
  valid (Phenology.out_median fit) = true ->
  valid linear = false \/ ((6 <= n)%nat /\ valid quadratic = false) ->
  valid prediction = true /\ (val prediction == 0)%Q.
Proof.
  intros n Hn Hm Hmasked.
  unfold fit, Phenology.get_window_fit in Hm.
  cbn [Phenology.out_median] in Hm. unfold Phenology.neighborhood_median in Hm.
  unfold prediction, Phenology.model_prediction, Phenology.quadratic_or_linear,
    Phenology.too_little_data_for_linear_mask,
    Phenology.too_little_data_for_quadratic_mask,
    Phenology.window_band_median.
  rewrite regression_count_window.
  fold quadratic linear.
  unfold count. rewrite count_valid_window. fold n. pixel_unfold.
  rewrite !count_below, Hm.
  destruct (Nat.eqb_spec n 0) as [Hz | Hz]; [lia |].
  destruct (Z.ltb_spec (Z.of_nat n) 3) as [H3 | H3]; [lia |].
  destruct (Z.ltb_spec (Z.of_nat n) 6) as [H6 | H6];
    cbn [negb andb indicator]; eval_flags.
  - destruct Hmasked as [Hl | [H _]]; [| lia].
    rewrite Hl. cbn [andb]. split; [reflexivity | ring].
  - destruct Hmasked as [Hl | [_ Hq]].
    + rewrite Hl. destruct (valid quadratic); cbn [andb];
        split; try reflexivity; ring.
    + rewrite Hq. cbn [andb].
      destruct (valid linear); cbn [andb]; split; try reflexivity; ring.
Qed.

End Diagnostics.

(** Three observations acquired at the same instant leave the linear
    regression without a solution: the prediction of [same_instant] is the
    number 0, unmasked, while the median of the window is 0.6. *)
Lemma masked_regression_predicts_zero_same_instant :
  let prediction :=
    Phenology.model_prediction (L := Reference.library) Scenes.same_instant
      20 20 (Examples.day 2020 6 15) None false in
  valid prediction = true /\ (val prediction == 0)%Q.
Proof.
  apply (masked_regression_predicts_zero (L := Reference.library)
           Scenes.same_instant 20 20 (Examples.day 2020 6 15) (-1) 1 None false).
  - by_evaluation.
  - by_evaluation.
  - left. by_evaluation.
Defined.

(** ** The target dates of fit_phenology *)

Section TargetDates.

Variables min_date max_date : Z.

Lemma Qfloor_unique (x : Q) (z : Z) :
  (inject_Z z <= x)%Q -> (x < inject_Z (z + 1))%Q -> Qfloor x = z.
Proof.
  intros Hle Hlt.
  assert (H1 := Qfloor_le x). assert (H2 := Qlt_floor x).
  assert (Ha : (inject_Z z < inject_Z (Qfloor x + 1))%Q)
    by (eapply Qle_lt_trans; eassumption).
  assert (Hb : (inject_Z (Qfloor x) < inject_Z (z + 1))%Q)
    by (eapply Qle_lt_trans; eassumption).
  rewrite <- Zlt_Qlt in Ha, Hb. lia.
Qed.

(** The interval in days is the span in milliseconds divided, rounding
    down, by [num_time_steps] days. *)
Lemma timing_interval_quotient (num_time_steps : Z) :
  0 < num_time_steps ->
  Phenology.timing_interval num_time_steps min_date max_date
  = (max_date - min_date) / (ms_per_day * num_time_steps).
Proof.
  intros Hk.
  unfold Phenology.timing_interval, number_divide, Qdivide, difference_day.
  destruct (Qeq_bool (inject_Z num_time_steps) 0) eqn:E.
  { apply Qeq_bool_iff in E. unfold Qeq in E. simpl in E. lia. }
  set (D := max_date - min_date).
  assert (Hms : 0 < ms_per_day) by reflexivity.
  assert (Hpos : 0 < ms_per_day * num_time_steps) by lia.
  assert (Heq : (inject_Z D / inject_Z ms_per_day / inject_Z num_time_steps
                 == inject_Z D / inject_Z (ms_per_day * num_time_steps))%Q).
  { rewrite inject_Z_mult. field. split.
    - intro H. unfold Qeq in H. simpl in H. lia.
    - intro H. unfold Qeq in H. simpl in H. lia. }
  rewrite Heq.
  assert (Hq : (0 < inject_Z (ms_per_day * num_time_steps))%Q)
    by (change 0%Q with (inject_Z 0); rewrite <- Zlt_Qlt; exact Hpos).
  apply Qfloor_unique.
  - apply Qle_shift_div_l; [exact Hq |].
    rewrite <- inject_Z_mult, <- Zle_Qle.
    rewrite Z.mul_comm. apply Z.mul_div_le. exact Hpos.
  - apply Qlt_shift_div_r; [exact Hq |].
    rewrite <- inject_Z_mult, <- Zlt_Qlt.
    assert (H := Z.mod_pos_bound D _ Hpos).
    assert (H' := Z.div_mod D (ms_per_day * num_time_steps)).
    nia.
Qed.

Lemma nth_target_date (num_time_steps : Z) (i : nat) (d : Z) :
  0 < num_time_steps ->
  nth_error (Phenology.target_dates num_time_steps min_date max_date) i = Some d ->
  d = min_date
      + Z.of_nat i * ((max_date - min_date) / (ms_per_day * num_time_steps))
        * ms_per_day /\
  0 <= Z.of_nat i <= num_time_steps.
Proof.
  intros Hk Hd.
  unfold Phenology.target_dates in Hd.
  rewrite nth_error_map in Hd.
  destruct (nth_error (sequence 0 num_time_steps) i) as [j |] eqn:Hj;
    [| discriminate].
  injection Hd as <-.
  apply nth_error_sequence in Hj. destruct Hj as [-> Hi].
  unfold Phenology.sampleDate, advance_day.
  rewrite timing_interval_quotient by exact Hk.
  split; lia.
Qed.

(** For a positive number of steps and [min_date] not after [max_date],
    the target date of rank [i] is [min_date] plus [i] intervals, the
    interval being the span divided by the number of steps and rounded down
    to whole days, and every target date lies from [min_date] to
    [max_date]. *)
Theorem target_dates_within_range (num_time_steps : Z) (i : nat) (d : Z) :
  0 < num_time_steps ->
  min_date <= max_date ->
  nth_error (Phenology.target_dates num_time_steps min_date max_date) i = Some d ->
  d = min_date
      + Z.of_nat i * ((max_date - min_date) / (ms_per_day * num_time_steps))
        * ms_per_day /\
  min_date <= d <= max_date.
Proof.
  intros Hk Hle Hd.
  destruct (nth_target_date num_time_steps i d Hk Hd) as [Hf Hi].
  split; [exact Hf |].
  assert (Hms : 0 < ms_per_day) by reflexivity.
  assert (Hpos : 0 < ms_per_day * num_time_steps) by lia.
  revert Hf.
  set (I := (max_date - min_date) / (ms_per_day * num_time_steps)).
  intros Hf.
  assert (HI : 0 <= I) by (apply Z.div_pos; lia).
  assert (Hmul : (ms_per_day * num_time_steps) * I <= max_date - min_date)
    by (apply Z.mul_div_le; exact Hpos).
  assert (Z.of_nat i * I <= num_time_steps * I) by nia.
  split; nia.
Qed.

(** When the span from [min_date] to [max_date] is shorter than
    [num_time_steps] days, the interval is zero days and every record is
    fitted at [min_date]. *)
Theorem short_span_repeats_min_date (num_time_steps : Z) (d : Z) :
  0 < num_time_steps ->
  0 <= max_date - min_date < num_time_steps * ms_per_day ->
  In d (Phenology.target_dates num_time_steps min_date max_date) ->
  d = min_date.
Proof.
  intros Hk Hspan Hd.
  apply In_nth_error in Hd. destruct Hd as [i Hd].
  destruct (nth_target_date num_time_steps i d Hk Hd) as [Hf _].
  rewrite Z.div_small in Hf by lia. lia.
Qed.

End TargetDates.

(** Twelve steps over 2020: the interval is 365 / 12 = 30 days, and the
    date of rank 3 is 31 March. *)
Lemma target_dates_within_range_2020 :
  Examples.day 2020 3 31 = Examples.day 2020 1 1 + 3 * 30 * ms_per_day /\
  Examples.day 2020 1 1 <= Examples.day 2020 3 31 <= Examples.day 2020 12 31.
Proof.
  destruct (target_dates_within_range (Examples.day 2020 1 1)
              (Examples.day 2020 12 31) 12 3 (Examples.day 2020 3 31))
    as [Hd Hrange]; [reflexivity | by_evaluation | reflexivity |].
  split; [exact Hd | exact Hrange].
Defined.

(** Ten steps over the four days from 1 to 5 June 2020: the record of
    rank 7 is fitted at 1 June. *)
Lemma short_span_repeats_min_date_june :
  nth 7 (Phenology.target_dates 10 (Examples.day 2020 6 1) (Examples.day 2020 6 5)) 0
  = Examples.day 2020 6 1.
Proof.
  apply (short_span_repeats_min_date (Examples.day 2020 6 1)
           (Examples.day 2020 6 5) 10).
  - reflexivity.
  - by_evaluation.
  - vm_compute. left. reflexivity.
Defined.

(** ** Calls of fit_phenology with parameters out of range *)

Section OutOfRange.

Context {L : Library}.
Variable input_collection : list Phenology.image.
Variables advance_window_width following_window_width : Z.
Variables min_date max_date : Z.
Variables min_value max_value : Q.
Variable wrap_data : bool.

Let fitted_at (target_date : Z) : Phenology.prediction_record :=
  Phenology.get_window_fit input_collection advance_window_width
    following_window_width target_date min_value max_value
    (Some (Phenology.collection_median_of input_collection)) wrap_data.

(** C8, amended.  [fit_phenology] checks none of its parameters.  Whatever
    they are, out of range or not, the call reports no error and goes on
    to the per-pixel work: every record it returns is fitted by
    [get_window_fit] at a target date computed from the parameters as they
    are.  With
    [num_time_steps = 0] the division by zero yields 0, the interval is
    0 days and no record is fitted at another date than [min_date]; with
    [max_date] not after [min_date] the interval is zero or negative, a
    record is fitted at [min_date] and none at a later date. *)
Theorem fit_phenology_checks_nothing (num_time_steps : Z) :
  exists records,
    Phenology.call_fit_phenology input_collection advance_window_width
      following_window_width num_time_steps min_date max_date
      min_value max_value wrap_data = Phenology.Returned records /\
    (forall r, In r records ->
       exists target_date,
         In target_date
            (Phenology.target_dates num_time_steps min_date max_date) /\
         r = fitted_at target_date) /\
    (num_time_steps = 0 ->
     Phenology.timing_interval 0 min_date max_date = 0 /\
     forall target_date,
       In target_date (Phenology.target_dates 0 min_date max_date) ->
       target_date = min_date) /\
    (0 < num_time_steps -> max_date <= min_date ->
     Phenology.timing_interval num_time_steps min_date max_date <= 0 /\
     In (fitted_at min_date) records /\
     forall target_date,
       In target_date (Phenology.target_dates num_time_steps min_date max_date) ->
       target_date <= min_date).
Proof.
  eexists. split; [reflexivity |].
  split; [| split].
  - intros r Hr. unfold Phenology.fit_phenology in Hr.
    apply in_map_iff in Hr. destruct Hr as [d [Hd Hin]].
    exists d. split; [exact Hin | symmetry; exact Hd].
  - intros _.
    assert (Hzero : Phenology.timing_interval 0 min_date max_date = 0).
    { unfold Phenology.timing_interval, number_divide, Qdivide.
      change (Qeq_bool (inject_Z 0) 0) with true. reflexivity. }
    split; [exact Hzero |].
    intros d Hd. unfold Phenology.target_dates in Hd.
    apply in_map_iff in Hd. destruct Hd as [i [Hi _]].
    unfold Phenology.sampleDate, advance_day in Hi.
    rewrite Hzero in Hi. lia.
  - intros Hk Hle.
    assert (Hms : 0 < ms_per_day) by reflexivity.
    assert (Hinterval :
              Phenology.timing_interval num_time_steps min_date max_date <= 0).
    { rewrite (timing_interval_quotient min_date max_date num_time_steps Hk).
      apply Z.div_le_upper_bound; lia. }
    split; [exact Hinterval |]. split.
    + unfold Phenology.fit_phenology. apply in_map_iff.
      exists min_date. split; [reflexivity |].
      unfold Phenology.target_dates. apply in_map_iff.
      exists 0. split.
      * unfold Phenology.sampleDate, advance_day. lia.
      * unfold sequence. apply in_map_iff. exists 0%nat.
        split; [reflexivity |]. apply in_seq. lia.
    + intros d Hd. apply In_nth_error in Hd. destruct Hd as [i Hd].
      destruct (nth_target_date min_date max_date num_time_steps i d Hk Hd)
        as [Hf _].
      rewrite <- (timing_interval_quotient min_date max_date num_time_steps Hk)
        in Hf.
      nia.
Qed.

End OutOfRange.

(** No step at all over 2020, with [june_line]: the interval is 0 days. *)
Lemma fit_phenology_checks_nothing_no_step :
  Phenology.timing_interval 0 (Examples.day 2020 1 1) (Examples.day 2020 12 31)
  = 0.
Proof.
  destruct (fit_phenology_checks_nothing (L := Reference.library)
              Examples.june_line 20 20 (Examples.day 2020 1 1)
              (Examples.day 2020 12 31) (-1) 1 false 0)
    as [records [_ [_ [Hzero _]]]].
  exact (proj1 (Hzero Logic.eq_refl)).
Defined.

(** ** When cloud_temporal_filter returns, and what it leaves untouched *)

Section FilterReturns.

Variables threshold_low threshold_high : Q.

Lemma length_sort (ascending : bool) (l : list CloudFilter.scene) :
  length (CloudFilter.sort ascending l) = length l.
Proof.
  unfold CloudFilter.sort. symmetry.
  apply Permutation_length, sort_by_perm.
Qed.

Lemma length_limit (n : nat) (ascending : bool) (l : list CloudFilter.scene) :
  length (CloudFilter.limit n ascending l) = Nat.min n (length l).
Proof. unfold CloudFilter.limit. now rewrite length_firstn, length_sort. Qed.

Lemma length_buffered (pheno_in : list CloudFilter.scene) (num_padding_scenes : nat) :
  length (CloudFilter.pheno_buffered pheno_in num_padding_scenes)
  = (length pheno_in + 2 * Nat.min num_padding_scenes (length pheno_in))%nat.
Proof.
  unfold CloudFilter.pheno_buffered, CloudFilter.last_few_scenes,
    CloudFilter.first_few_scenes.
  rewrite length_map, length_sort, !length_app, !length_map, !length_limit. lia.
Qed.

Lemma length_previous_all (pheno_in : list CloudFilter.scene) (num_padding_scenes : nat) :
  length (CloudFilter.previous_unmasked_scene_all pheno_in num_padding_scenes)
  = S (length (CloudFilter.pheno_buffered pheno_in num_padding_scenes)).
Proof. now rewrite previous_all_running, length_running. Qed.

Lemma length_next_all (pheno_in : list CloudFilter.scene) (num_padding_scenes : nat) :
  length (CloudFilter.next_unmasked_scene_all pheno_in num_padding_scenes)
  = S (length (CloudFilter.pheno_buffered pheno_in num_padding_scenes)).
Proof.
  unfold CloudFilter.next_unmasked_scene_all, CloudFilter.last_.
  rewrite (iterate_running [] sentinel_last). cbn [app].
  now rewrite length_running, length_sort.
Qed.

Lemma list_get_in_range {A : Type} (l : list A) (i : Z) :
  - Z.of_nat (length l) <= i < Z.of_nat (length l) ->
  exists x, CloudFilter.list_get l i = Some x.
Proof.
  intro Hi. unfold CloudFilter.list_get.
  destruct (Z.ltb_spec i 0).
  - destruct (Z.ltb_spec (Z.of_nat (length l) + i) 0); [lia |].
    destruct (nth_error l (Z.to_nat (Z.of_nat (length l) + i))) eqn:E;
      [eexists; reflexivity |].
    apply nth_error_None in E. lia.
  - destruct (nth_error l (Z.to_nat i)) eqn:E; [eexists; reflexivity |].
    apply nth_error_None in E. lia.
Qed.

Lemma list_get_bound {A : Type} (l : list A) (i : Z) (x : A) :
  CloudFilter.list_get l i = Some x ->
  - Z.of_nat (length l) <= i < Z.of_nat (length l).
Proof.
  unfold CloudFilter.list_get.
  destruct (Z.ltb_spec i 0).
  - destruct (Z.ltb_spec (Z.of_nat (length l) + i) 0); [discriminate |].
    intro E. assert (Hn : nth_error l (Z.to_nat (Z.of_nat (length l) + i)) <> None)
      by congruence.
    apply nth_error_Some in Hn. lia.
  - intro E. assert (Hn : nth_error l (Z.to_nat i) <> None) by congruence.
    apply nth_error_Some in Hn. lia.
Qed.

Lemma map_opt_defined {A B : Type} (f : A -> option B) (l : list A) :
  (forall x, In x l -> exists b, f x = Some b) ->
  exists out, CloudFilter.map_opt f l = Some out.
Proof.
  induction l as [| a l IH]; intro H; simpl.
  - eexists. reflexivity.
  - destruct (H a (or_introl Logic.eq_refl)) as [b ->].
    destruct IH as [bs ->]; [intros x Hx; apply H; right; exact Hx |].
    eexists. reflexivity.
Qed.

Lemma map_opt_each {A B : Type} (f : A -> option B) (l : list A) (out : list B) (a : A) :
  CloudFilter.map_opt f l = Some out -> In a l -> exists b, f a = Some b.
Proof.
  revert out. induction l as [| x l IH]; intros out H Ha; [contradiction |].
  simpl in H.
  destruct (f x) as [b |] eqn:Ex; simpl in H; [| discriminate].
  destruct (CloudFilter.map_opt f l) as [bs |]; simpl in H; [| discriminate].
  destruct Ha as [<- | Ha]; [eexists; exact Ex |].
  apply (IH bs Logic.eq_refl Ha).
Qed.

Lemma sequence_In (a b x : Z) : a <= x <= b -> In x (sequence a b).
Proof.
  intro H. unfold sequence. apply in_map_iff.
  exists (Z.to_nat (x - a)). split; [lia |]. apply in_seq. lia.
Qed.

Section OneSeries.

Variable pheno_in : list CloudFilter.scene.
Variable num_padding_scenes : nat.

Let size : nat := length pheno_in.

Lemma length_indices_to_retain :
  length (CloudFilter.indices_to_retain pheno_in num_padding_scenes)
  = (size + 2 * Nat.min num_padding_scenes size - 2 * num_padding_scenes)%nat.
Proof.
  unfold CloudFilter.indices_to_retain.
  rewrite length_sequence, length_previous_all, length_buffered. fold size. lia.
Qed.

Lemma retained_defined :
  (num_padding_scenes <= size)%nat ->
  exists previous_list next_list,
    CloudFilter.previous_unmasked_scene pheno_in num_padding_scenes
    = Some previous_list /\
    CloudFilter.next_unmasked_scene pheno_in num_padding_scenes
    = Some next_list /\
    length previous_list = size /\ length next_list = size.
Proof.
  intro Hfit.
  assert (Hind : forall ind,
            In ind (CloudFilter.indices_to_retain pheno_in num_padding_scenes) ->
            Z.of_nat num_padding_scenes + 1 <= ind
            <= Z.of_nat size + Z.of_nat num_padding_scenes).
  { intros ind Hin. unfold CloudFilter.indices_to_retain in Hin.
    apply in_sequence in Hin. destruct Hin as [k [-> Hk]].
    rewrite length_previous_all, length_buffered in Hk. fold size in Hk. lia. }
  destruct (map_opt_defined
              (CloudFilter.get_retained_previous_image pheno_in num_padding_scenes)
              (CloudFilter.indices_to_retain pheno_in num_padding_scenes))
    as [pl Hpl].
  { intros ind Hin. apply Hind in Hin.
    unfold CloudFilter.get_retained_previous_image.
    apply list_get_in_range.
    rewrite length_previous_all, length_buffered. fold size. lia. }
  destruct (map_opt_defined
              (CloudFilter.get_retained_next_image pheno_in num_padding_scenes)
              (CloudFilter.indices_to_retain pheno_in num_padding_scenes))
    as [nl Hnl].
  { intros ind Hin. apply Hind in Hin.
    unfold CloudFilter.get_retained_next_image.
    apply list_get_in_range.
    rewrite length_next_all, length_buffered. fold size. lia. }
  exists pl, nl.
  unfold CloudFilter.previous_unmasked_scene, CloudFilter.next_unmasked_scene.
  repeat apply conj; try assumption.
  - rewrite (map_opt_length _ _ _ Hpl), length_indices_to_retain. lia.
  - rewrite (map_opt_length _ _ _ Hnl), length_indices_to_retain. lia.
Qed.

(** On a collection that is not empty, [cloud_temporal_filter] returns a
    collection exactly when [num_padding_scenes] is at most the number of
    scenes; with more padding, a list index is out of range. *)
Theorem filter_returns_iff_padding_fits :
  pheno_in <> [] ->
  (exists out,
     CloudFilter.cloud_temporal_filter pheno_in threshold_low threshold_high
       num_padding_scenes = Some out) <->
  (num_padding_scenes <= length pheno_in)%nat.
Proof.
  intro Hne. fold size.
  assert (Hsize : (0 < size)%nat)
    by (unfold size; destruct pheno_in; [congruence | simpl; lia]).
  split.
  - intros [out Hout].
    destruct (Nat.le_gt_cases num_padding_scenes size) as [H | Hover];
      [exact H | exfalso].
    unfold CloudFilter.cloud_temporal_filter in Hout.
    destruct (map_opt_each _ _ _ (Z.of_nat size - 1) Hout) as [f Hf].
    { unfold CloudFilter.target_sequence. fold size. apply sequence_In. lia. }
    unfold CloudFilter.check_value in Hf.
    destruct (CloudFilter.previous_unmasked_scene pheno_in num_padding_scenes)
      as [pl |] eqn:Hpl; [| discriminate].
    destruct (CloudFilter.next_unmasked_scene pheno_in num_padding_scenes);
      [| discriminate].
    destruct (CloudFilter.pheno_in_list pheno_in); [| discriminate].
    cbn [CloudFilter.bind] in Hf.
    destruct (CloudFilter.list_get pl (Z.of_nat size - 1)) eqn:Hget;
      [| discriminate].
    apply list_get_bound in Hget.
    unfold CloudFilter.previous_unmasked_scene in Hpl.
    rewrite (map_opt_length _ _ _ Hpl), length_indices_to_retain in Hget. lia.
  - intro Hfit.
    destruct (retained_defined Hfit) as [pl [nl [Hpl [Hnl [Lpl Lnl]]]]].
    destruct (pheno_in_list_is pheno_in Hne) as [filler Ht].
    unfold CloudFilter.cloud_temporal_filter.
    apply map_opt_defined. intros ind Hin.
    unfold CloudFilter.target_sequence in Hin. fold size in Hin.
    apply in_sequence in Hin. destruct Hin as [k [-> Hk]].
    unfold CloudFilter.check_value. rewrite Hpl, Hnl, Ht.
    cbn [CloudFilter.bind].
    destruct (list_get_in_range pl (0 + Z.of_nat k)) as [p ->]; [lia |].
    destruct (list_get_in_range nl (0 + Z.of_nat k)) as [n ->]; [lia |].
    destruct (list_get_in_range (filler :: CloudFilter.sort true pheno_in)
                (0 + Z.of_nat k + 1)) as [c ->].
    { cbn [length]. rewrite length_sort. fold size. lia. }
    cbn [CloudFilter.bind]. eexists. reflexivity.
Qed.

(** The collection returned holds one image per scene, in the order of the
    acquisition times; each image carries the acquisition time and the
    stored numbers of the target band and of the day-of-year band of its
    scene, and a pixel that was masked in the scene is masked in the
    image: the filter only ever clears mask bits. *)
Theorem filter_only_clears_masks (out : list CloudFilter.filtered_scene) :
  CloudFilter.cloud_temporal_filter pheno_in threshold_low threshold_high
    num_padding_scenes = Some out ->
  length out = length pheno_in /\
  forall i f,
    nth_error out i = Some f ->
    exists current,
      nth_error (CloudFilter.sort true pheno_in) i = Some current /\
      CloudFilter.f_time_start f = CloudFilter.system_time_start current /\
      val (CloudFilter.f_value f) = val (CloudFilter.value current) /\
      val (CloudFilter.f_DOY f) = val (CloudFilter.DOY current) /\
      (valid (CloudFilter.f_value f) = true ->
       valid (CloudFilter.value current) = true) /\
      (valid (CloudFilter.f_DOY f) = true ->
       valid (CloudFilter.DOY current) = true).
Proof.
  intro Hout. split.
  - unfold CloudFilter.cloud_temporal_filter in Hout.
    rewrite (map_opt_length _ _ _ Hout).
    unfold CloudFilter.target_sequence. rewrite length_sequence. lia.
  - intros i f Hf.
    destruct (filter_output threshold_low threshold_high pheno_in
                num_padding_scenes out i f Hout Hf)
      as [p [n [c [_ [_ [Hc ->]]]]]].
    exists c. split; [exact Hc |].
    unfold CloudFilter.check.
    cbn [CloudFilter.f_time_start CloudFilter.f_value CloudFilter.f_DOY].
    unfold updateMask. cbn [val valid].
    repeat apply conj; try reflexivity;
      intro H; apply andb_true_iff in H; apply H.
Qed.

End OneSeries.

End FilterReturns.

(** The three scenes of [line]: the filter returns with three padding
    scenes and fails with four. *)
Lemma filter_returns_iff_padding_fits_line :
  (exists out,
     CloudFilter.cloud_temporal_filter Examples.line (-20) 20 3 = Some out) /\
  CloudFilter.cloud_temporal_filter Examples.line (-20) 20 4 = None.
Proof.
  assert (Hne : Examples.line <> []) by discriminate.
  split.
  - apply (filter_returns_iff_padding_fits (-20) 20 Examples.line 3 Hne).
    by_evaluation.
  - destruct (CloudFilter.cloud_temporal_filter Examples.line (-20) 20 4)
      as [out |] eqn:Hout; [exfalso | reflexivity].
    assert (H : (4 <= length Examples.line)%nat)
      by (apply (filter_returns_iff_padding_fits (-20) 20 Examples.line 4 Hne);
          exists out; exact Hout).
    vm_compute in H. lia.
Defined.

(** On [spike] the middle scene is masked by the filter; the image keeps
    the value 100 and the acquisition time of the scene. *)
Lemma filter_only_clears_masks_spike :
  exists out f,
    CloudFilter.cloud_temporal_filter Examples.spike (-20) 20 0 = Some out /\
    length out = 3%nat /\
    nth_error out 1 = Some f /\
    CloudFilter.f_time_start f = 5 * ms_per_day /\
    val (CloudFilter.f_value f) = 100%Q.
Proof.
  destruct (CloudFilter.cloud_temporal_filter Examples.spike (-20) 20 0)
    as [out |] eqn:Hout; [| vm_compute in Hout; discriminate].
  destruct (filter_only_clears_masks (-20) 20 Examples.spike 0 out Hout)
    as [Hlen Heach].
  destruct (nth_error out 1) as [f |] eqn:Hf;
    [| apply nth_error_None in Hf; rewrite Hlen in Hf; vm_compute in Hf; lia].
  destruct (Heach 1%nat f Hf) as [current [Hc [Ht [Hv _]]]].
  vm_compute in Hc. injection Hc as <-.
  exists out, f. repeat split; assumption.
Defined.

(** ** The running lists of the neighbour scans *)

Section RunningLists.

Variable pheno_in : list CloudFilter.scene.
Variable num_padding_scenes : nat.

Let buffered : list CloudFilter.scene :=
  CloudFilter.pheno_buffered pheno_in num_padding_scenes.

(** Whatever the order and the span of the series, the running list of the
    forward scan holds at rank [k] two unmasked bands that carry the data
    of the latest scene with a valid target band among the first [k]
    scenes of the buffered series, or value 0 at day 0 when there is none;
    the running list of the backward scan does the same over the buffered
    series sorted by descending time, with value 0 at day 365. *)
Theorem running_lists_hold_latest_valid (k : nat) :
  (k <= length buffered)%nat ->
  (exists b,
     nth_error
       (CloudFilter.previous_unmasked_scene_all pheno_in num_padding_scenes) k
     = Some b /\
     valid_bands b /\
     same_bands b (latest sentinel_first (firstn k buffered))) /\
  (exists b,
     nth_error
       (CloudFilter.next_unmasked_scene_all pheno_in num_padding_scenes) k
     = Some b /\
     valid_bands b /\
     same_bands b
       (latest sentinel_last (firstn k (CloudFilter.sort false buffered)))).
Proof.
  intro Hk. split.
  - rewrite previous_all_running. fold buffered.
    rewrite nth_running by exact Hk.
    eexists. split; [reflexivity |].
    apply scan_latest. split; reflexivity.
  - unfold CloudFilter.next_unmasked_scene_all, CloudFilter.last_.
    rewrite (iterate_running [] sentinel_last). cbn [app]. fold buffered.
    rewrite nth_running by (rewrite length_sort; exact Hk).
    eexists. split; [reflexivity |].
    apply scan_latest. split; reflexivity.
Qed.

End RunningLists.

(** [line] with one padding scene, at rank 2 of the running lists. *)
Lemma running_lists_hold_latest_valid_line :
  (exists b,
     nth_error (CloudFilter.previous_unmasked_scene_all Examples.line 1) 2
     = Some b /\
     valid_bands b /\
     same_bands b
       (latest sentinel_first
          (firstn 2 (CloudFilter.pheno_buffered Examples.line 1)))) /\
  (exists b,
     nth_error (CloudFilter.next_unmasked_scene_all Examples.line 1) 2
     = Some b /\
     valid_bands b /\
     same_bands b
       (latest sentinel_last
          (firstn 2 (CloudFilter.sort false
                       (CloudFilter.pheno_buffered Examples.line 1))))).
Proof.
  apply (running_lists_hold_latest_valid Examples.line 1 2).
  by_evaluation.
Defined.

(** ** Cloud masks of Landsat images *)

Section CloudMasks.

Import String.
Local Open Scope string_scope.
Local Open Scope list_scope.
Local Open Scope Z_scope.

Lemma Qeq_bool_inject_Z (z : Z) : Qeq_bool (inject_Z z) 0 = (z =? 0).
Proof.
  unfold Qeq_bool, inject_Z. cbn [Qnum Qden].
  rewrite Z.mul_1_r. reflexivity.
Qed.

Lemma land_bit (q n : Z) :
  0 <= n ->
  (Z.land q (Z.shiftl 1 n) =? 0) = negb (Z.testbit q n).
Proof.
  intro Hn. rewrite Z.shiftl_1_l.
  destruct (Z.testbit q n) eqn:Hb; cbn [negb].
  - apply Z.eqb_neq. intro H.
    assert (Ht : Z.testbit (Z.land q (2 ^ n)) n = true)
      by (rewrite Z.land_spec, Hb, Z.pow2_bits_true by exact Hn; reflexivity).
    rewrite H, Z.bits_0 in Ht. discriminate.
  - apply Z.eqb_eq. apply Z.bits_inj'. intros m Hm.
    rewrite Z.land_spec, Z.bits_0.
    destruct (Z.eq_dec n m) as [<- | Hne].
    + rewrite Hb. reflexivity.
    + rewrite Z.pow2_bits_false by exact Hne. apply andb_false_r.
Qed.

Lemma Qeq_bool_scaled (b : bool) (m : Q) :
  Qeq_bool m 0 = false ->
  Qeq_bool (indicator b * m) 0 = negb b.
Proof.
  intro Hm. destruct b; cbn [indicator negb].
  - destruct (Qeq_bool (1 * m) 0) eqn:E; [| reflexivity].
    apply Qeq_bool_iff in E. rewrite Qmult_1_l in E.
    apply Qeq_bool_iff in E. congruence.
  - apply Qeq_bool_iff. ring.
Qed.

Lemma Qeq_bool_indicator (b : bool) : Qeq_bool (indicator b) 0 = negb b.
Proof. destruct b; reflexivity. Qed.

Lemma on_bands_ext (f g : pixel -> pixel) (img : Landsat.image) :
  (forall b, f b = g b) -> Landsat.on_bands f img = Landsat.on_bands g img.
Proof.
  intro H. unfold Landsat.on_bands. f_equal.
  apply map_ext. intro b. now rewrite H.
Qed.

Ltac open_mask :=
  unfold Landsat.bitwiseAnd, Landsat.Or; pixel_unfold;
  rewrite ?Qfloor_Z, ?Qeq_bool_indicator, ?Qeq_bool_inject_Z, ?negb_involutive,
    ?land_bit by lia.

Lemma mask_457_keeps (qa mask_mask : pixel) :
  nonzero mask_mask = true ->
  nonzero
    (Not (multiply
            (Landsat.Or
               (Landsat.Or (Landsat.bitwiseAnd qa (Z.shiftl 1 1))
                           (Landsat.bitwiseAnd qa (Z.shiftl 1 4)))
               (Landsat.bitwiseAnd qa (Z.shiftl 1 3)))
            mask_mask))
  = valid qa && clear_457 (Qfloor (val qa)).
Proof.
  intro Hm. apply andb_true_iff in Hm. destruct Hm as [Hv Hz].
  apply negb_true_iff in Hz.
  open_mask. rewrite Hv, (Qeq_bool_scaled _ _ Hz).
  unfold clear_457.
  destruct (Z.testbit (Qfloor (val qa)) 1), (Z.testbit (Qfloor (val qa)) 3),
    (Z.testbit (Qfloor (val qa)) 4), (valid qa); reflexivity.
Qed.

Lemma mask_89_keeps (qa mask_mask : pixel) :
  nonzero mask_mask = true ->
  nonzero
    (Not (multiply
            (Landsat.Or
               (Landsat.Or
                  (Landsat.Or (Landsat.bitwiseAnd qa (Z.shiftl 1 1))
                              (Landsat.bitwiseAnd qa (Z.shiftl 1 2)))
                  (Landsat.bitwiseAnd qa (Z.shiftl 1 4)))
               (Landsat.bitwiseAnd qa (Z.shiftl 1 3)))
            mask_mask))
  = valid qa && clear_89 (Qfloor (val qa)).
Proof.
  intro Hm. apply andb_true_iff in Hm. destruct Hm as [Hv Hz].
  apply negb_true_iff in Hz.
  open_mask. rewrite Hv, (Qeq_bool_scaled _ _ Hz).
  unfold clear_89.
  destruct (Z.testbit (Qfloor (val qa)) 1), (Z.testbit (Qfloor (val qa)) 2),
    (Z.testbit (Qfloor (val qa)) 3), (Z.testbit (Qfloor (val qa)) 4),
    (valid qa); reflexivity.
Qed.

(** [landsat_cloud_mask_457] with a mask switch that is not zero: a pixel
    of any band stays unmasked exactly when it was unmasked, QA_PIXEL is
    unmasked there and bits 1, 3 and 4 of QA_PIXEL are zero; the stored
    numbers are unchanged. *)
Theorem cloud_mask_457_reads_three_bits (image : Landsat.image)
    (mask_mask : pixel) (qa : Z) (unmasked : bool) :
  Landsat.band "QA_PIXEL" image = Some (Pixel (inject_Z qa) unmasked) ->
  nonzero mask_mask = true ->
  Landsat.landsat_cloud_mask_457 image mask_mask
  = Some (masked_unless (unmasked && clear_457 qa) image).
Proof.
  intros Hqa Hm.
  unfold Landsat.landsat_cloud_mask_457. rewrite Hqa. cbn [CloudFilter.bind].
  f_equal. unfold masked_unless. apply on_bands_ext. intro b.
  unfold updateMask. rewrite (mask_457_keeps _ _ Hm).
  cbn [val valid]. now rewrite Qfloor_Z.
Qed.

(** [landsat_cloud_mask_89] does the same with the cirrus bit added: bits
    1, 2, 3 and 4 of QA_PIXEL must be zero. *)
Theorem cloud_mask_89_reads_four_bits (image : Landsat.image)
    (mask_mask : pixel) (qa : Z) (unmasked : bool) :
  Landsat.band "QA_PIXEL" image = Some (Pixel (inject_Z qa) unmasked) ->
  nonzero mask_mask = true ->
  Landsat.landsat_cloud_mask_89 image mask_mask
  = Some (masked_unless (unmasked && clear_89 qa) image).
Proof.
  intros Hqa Hm.
  unfold Landsat.landsat_cloud_mask_89. rewrite Hqa. cbn [CloudFilter.bind].
  f_equal. unfold masked_unless. apply on_bands_ext. intro b.
  unfold updateMask. rewrite (mask_89_keeps _ _ Hm).
  cbn [val valid]. now rewrite Qfloor_Z.
Qed.

(** With the mask switch [ee.Image(0)] both cloud masks return the image
    as it is wherever QA_PIXEL is unmasked, whatever its bits are. *)
Theorem cloud_mask_switched_off (image : Landsat.image) (qa : pixel) :
  Landsat.band "QA_PIXEL" image = Some qa ->
  valid qa = true ->
  Landsat.landsat_cloud_mask_457 image (constant 0) = Some image /\
  Landsat.landsat_cloud_mask_89 image (constant 0) = Some image.
Proof.
  intros Hqa Hv.
  assert (Hid : forall f, (forall b, f b = b) -> Landsat.on_bands f image = image).
  { intros f Hf. unfold Landsat.on_bands. destruct image as [t bs].
    cbn [Landsat.system_time_start Landsat.bands]. f_equal.
    rewrite <- (map_id bs) at 2. apply map_ext. intros [n p].
    cbn [fst snd]. now rewrite Hf. }
  assert (Hzero : forall x, Qeq_bool (x * 0) 0 = true)
    by (intro x; apply Qeq_bool_iff; ring).
  unfold Landsat.landsat_cloud_mask_457, Landsat.landsat_cloud_mask_89.
  rewrite Hqa. cbn [CloudFilter.bind].
  split; f_equal; apply Hid; intros [v ok];
    unfold Landsat.bitwiseAnd, Landsat.Or; pixel_unfold; rewrite Hv, Hzero;
    cbn [andb indicator];
    (replace (Qeq_bool 1 0) with false by reflexivity);
    cbn [negb]; now rewrite andb_true_r.
Qed.

End CloudMasks.

Section CloudMaskExamples.

Import String.
Local Open Scope string_scope.
Local Open Scope list_scope.
Local Open Scope Z_scope.

(** A Landsat 7 scene whose QA_PIXEL has the cloud bit set comes back with
    every band masked. *)
Lemma cloud_mask_457_reads_three_bits_cloud :
  Landsat.landsat_cloud_mask_457
    (Scenes.tm_scene (Examples.day 2020 6 25) Scenes.qa_cloud) (constant 1)
  = Some (masked_unless false
            (Scenes.tm_scene (Examples.day 2020 6 25) Scenes.qa_cloud)).
Proof.
  apply (cloud_mask_457_reads_three_bits
           (Scenes.tm_scene (Examples.day 2020 6 25) Scenes.qa_cloud)
           (constant 1) Scenes.qa_cloud true); reflexivity.
Defined.

(** A Landsat 8 scene with a clear QA_PIXEL keeps its masks. *)
Lemma cloud_mask_89_reads_four_bits_clear :
  Landsat.landsat_cloud_mask_89
    (Scenes.oli_scene (Examples.day 2020 6 1) Scenes.qa_clear) (constant 1)
  = Some (masked_unless true
            (Scenes.oli_scene (Examples.day 2020 6 1) Scenes.qa_clear)).
Proof.
  apply (cloud_mask_89_reads_four_bits
           (Scenes.oli_scene (Examples.day 2020 6 1) Scenes.qa_clear)
           (constant 1) Scenes.qa_clear true); reflexivity.
Defined.

(** The cloudy Landsat 8 scene with the mask switched off. *)
Lemma cloud_mask_switched_off_cloud :
  Landsat.landsat_cloud_mask_89
    (Scenes.oli_scene (Examples.day 2020 6 17) Scenes.qa_cloud) (constant 0)
  = Some (Scenes.oli_scene (Examples.day 2020 6 17) Scenes.qa_cloud).
Proof.
  apply (cloud_mask_switched_off
           (Scenes.oli_scene (Examples.day 2020 6 17) Scenes.qa_cloud)
           (Pixel (inject_Z Scenes.qa_cloud) true)); reflexivity.
Defined.

End CloudMaskExamples.

(** ** Vegetation indices *)

Section Indices.

Import String.
Local Open Scope string_scope.
Local Open Scope list_scope.
Local Open Scope Z_scope.

Lemma Qle_bool_true (x y : Q) : Qle_bool x y = true <-> (x <= y)%Q.
Proof. apply Qle_bool_iff. Qed.

Lemma normalized_difference_valid (x y : pixel) :
  valid (Landsat.normalized_difference x y) = true <->
  valid x = true /\ valid y = true /\ (0 <= val x)%Q /\ (0 <= val y)%Q.
Proof.
  unfold Landsat.normalized_difference. cbn [valid].
  rewrite !andb_true_iff, !Qle_bool_true. tauto.
Qed.

Lemma normalized_difference_bounds (x y : pixel) :
  (0 <= val x)%Q -> (0 <= val y)%Q ->
  (-1 <= val (Landsat.normalized_difference x y) <= 1)%Q.
Proof.
  intros Hx Hy. unfold Landsat.normalized_difference, Qdivide. cbn [val].
  destruct (Qeq_bool (val x + val y) 0) eqn:E; [split; discriminate |].
  assert (Hne : ~ (val x + val y == 0)%Q)
    by (intro H; apply Qeq_bool_iff in H; congruence).
  assert (Hpos : (0 < val x + val y)%Q) by lra.
  split.
  - apply Qle_shift_div_l; [exact Hpos | lra].
  - apply Qle_shift_div_r; [exact Hpos | lra].
Qed.

(** The NDVI band that [get_ndvi_457] adds is masked wherever a
    reflectance is masked or negative; where it is unmasked it lies from
    -1 to 1, and the NIRv band of [get_nirv_457], NDVI times the near
    infrared reflectance, lies between minus and plus that reflectance.
    Where both reflectances are unmasked, not negative and not both zero,
    NDVI is unmasked and is (NIR - Red) / (NIR + Red). *)
Theorem ndvi_and_nirv_bounded (image : Landsat.image) (nir red : pixel) :
  Landsat.band "SR_B4" image = Some nir ->
  Landsat.band "SR_B3" image = Some red ->
  exists ndvi nirv,
    Landsat.get_ndvi_457 image = Some (Landsat.addBands image [("NDVI", ndvi)]) /\
    Landsat.get_nirv_457 image = Some (Landsat.addBands image [("NIRv", nirv)]) /\
    valid nirv = valid ndvi /\
    (valid ndvi = true ->
     valid nir = true /\ valid red = true /\
     (0 <= val nir)%Q /\ (0 <= val red)%Q /\
     (-1 <= val ndvi <= 1)%Q /\ (- val nir <= val nirv <= val nir)%Q) /\
    (valid nir = true -> valid red = true ->
     (0 <= val nir)%Q -> (0 <= val red)%Q -> (0 < val nir + val red)%Q ->
     valid ndvi = true /\
     (val ndvi == (val nir - val red) / (val nir + val red))%Q).
Proof.
  intros Hnir Hred.
  exists (Landsat.normalized_difference nir red),
         (multiply (Landsat.normalized_difference nir red) nir).
  unfold Landsat.get_ndvi_457, Landsat.get_nirv_457, Landsat.normalizedDifference.
  rewrite Hnir, Hred. cbn [CloudFilter.bind].
  split; [reflexivity |]. split; [reflexivity |].
  split; [| split].
  - unfold multiply, binop. cbn [valid].
    unfold Landsat.normalized_difference. cbn [valid].
    destruct (valid nir); cbn [andb]; [now rewrite andb_true_r | reflexivity].
  - intro Hv. apply normalized_difference_valid in Hv.
    destruct Hv as [Hvn [Hvr [Hx Hy]]].
    destruct (normalized_difference_bounds nir red Hx Hy) as [Hlo Hhi].
    repeat (split; [assumption |]).
    unfold multiply, binop. cbn [val]. split; nra.
  - intros Hvn Hvr Hx Hy Hpos. split.
    + apply normalized_difference_valid. repeat split; assumption.
    + unfold Landsat.normalized_difference, Qdivide. cbn [val].
      destruct (Qeq_bool (val nir + val red) 0) eqn:E; [| reflexivity].
      apply Qeq_bool_iff in E. exfalso. lra.
Qed.

(** For reflectances that are unmasked and not negative, the SAVI band that
    [get_savi_457] adds is unmasked, is 1.5 (NIR - Red) / (0.5 + NIR + Red)
    with a denominator of at least 0.5, and lies strictly between -1.5
    and 1.5. *)
Theorem savi_bounded (image : Landsat.image) (nir red : pixel) :
  Landsat.band "SR_B4" image = Some nir ->
  Landsat.band "SR_B3" image = Some red ->
  valid nir = true -> valid red = true ->
  (0 <= val nir)%Q -> (0 <= val red)%Q ->
  exists savi,
    Landsat.get_savi_457 image = Some (Landsat.addBands image [("SAVI", savi)]) /\
    valid savi = true /\
    (val savi
     == (15 # 10) * (val nir - val red) / ((5 # 10) + val nir + val red))%Q /\
    (- (15 # 10) < val savi < 15 # 10)%Q.
Proof.
  intros Hnir Hred Hvn Hvr Hn Hr.
  exists (Landsat.savi nir red).
  unfold Landsat.get_savi_457. rewrite Hnir, Hred. cbn [CloudFilter.bind].
  split; [reflexivity |].
  unfold Landsat.savi. pixel_unfold. rewrite Hvn, Hvr.
  split; [reflexivity |].
  unfold Qdivide.
  destruct (Qeq_bool ((5 # 10) + val nir + val red) 0) eqn:E.
  { apply Qeq_bool_iff in E. exfalso. lra. }
  assert (Hpos : (0 < (5 # 10) + val nir + val red)%Q) by lra.
  split; [reflexivity |].
  split.
  - apply Qlt_shift_div_l; [exact Hpos | lra].
  - apply Qlt_shift_div_r; [exact Hpos | lra].
Qed.

End Indices.

Section IndexExamples.

Import String.
Local Open Scope string_scope.
Local Open Scope list_scope.
Local Open Scope Z_scope.

(** Near infrared 0.45 and red 0.05: NDVI is 0.8. *)
Lemma ndvi_and_nirv_bounded_vegetated :
  exists ndvi,
    Landsat.get_ndvi_457 Scenes.vegetated
    = Some (Landsat.addBands Scenes.vegetated [("NDVI", ndvi)]) /\
    valid ndvi = true /\ (val ndvi == 8 # 10)%Q.
Proof.
  destruct (ndvi_and_nirv_bounded Scenes.vegetated
              (Pixel (45 # 100) true) (Pixel (5 # 100) true))
    as [ndvi [nirv [Hndvi [_ [_ [_ Hclear]]]]]]; [reflexivity | reflexivity |].
  destruct Hclear as [Hv He];
    [reflexivity | reflexivity | by_evaluation | by_evaluation | by_evaluation |].
  exists ndvi. split; [exact Hndvi |]. split; [exact Hv |].
  rewrite He. reflexivity.
Defined.

(** The same pixel: SAVI is 1.5 * 0.4 / 1 = 0.6. *)
Lemma savi_bounded_vegetated :
  exists savi,
    Landsat.get_savi_457 Scenes.vegetated
    = Some (Landsat.addBands Scenes.vegetated [("SAVI", savi)]) /\
    valid savi = true /\ (val savi == 6 # 10)%Q.
Proof.
  destruct (savi_bounded Scenes.vegetated
              (Pixel (45 # 100) true) (Pixel (5 # 100) true))
    as [savi [Hsavi [Hv [He _]]]];
    [reflexivity | reflexivity | reflexivity | reflexivity
    | by_evaluation | by_evaluation |].
  exists savi. split; [exact Hsavi |]. split; [exact Hv |].
  rewrite He. reflexivity.
Defined.

End IndexExamples.

(** ** Common band names *)

Section CommonBands.

Import String.
Local Open Scope string_scope.
Local Open Scope list_scope.
Local Open Scope Z_scope.

(** What [get_common_band_names_89] returns, and when. *)
Lemma common_89_bands (image common : Landsat.image) :
  Landsat.get_common_band_names_89 image = Some common <->
  exists b1 b2 b3 b4 b5 b6 b7 b10,
    Landsat.band "SR_B1" image = Some b1 /\
    Landsat.band "SR_B2" image = Some b2 /\
    Landsat.band "SR_B3" image = Some b3 /\
    Landsat.band "SR_B4" image = Some b4 /\
    Landsat.band "SR_B5" image = Some b5 /\
    Landsat.band "SR_B6" image = Some b6 /\
    Landsat.band "SR_B7" image = Some b7 /\
    Landsat.band "ST_B10" image = Some b10 /\
    common = Landsat.Image (Landsat.system_time_start image)
               [("SR_B1", b2); ("SR_B2", b3); ("SR_B3", b4); ("SR_B4", b5);
                ("SR_B5", b6); ("SR_B7", b7); ("ST", b10); ("SR_coastal", b1)].
Proof.
  unfold Landsat.get_common_band_names_89, Landsat.select, Landsat.rename.
  cbn [CloudFilter.map_opt].
  split.
  - intro H.
    destruct (Landsat.band "SR_B2" image) as [b2 |]; [| discriminate].
    destruct (Landsat.band "SR_B3" image) as [b3 |]; [| discriminate].
    destruct (Landsat.band "SR_B4" image) as [b4 |]; [| discriminate].
    destruct (Landsat.band "SR_B5" image) as [b5 |]; [| discriminate].
    destruct (Landsat.band "SR_B6" image) as [b6 |]; [| discriminate].
    destruct (Landsat.band "SR_B7" image) as [b7 |]; [| discriminate].
    destruct (Landsat.band "ST_B10" image) as [b10 |]; [| discriminate].
    destruct (Landsat.band "SR_B1" image) as [b1 |]; [| discriminate].
    cbn in H. inversion H.
    exists b1, b2, b3, b4, b5, b6, b7, b10. repeat split.
  - intros [b1 [b2 [b3 [b4 [b5 [b6 [b7 [b10 H]]]]]]]].
    destruct H as [-> [-> [-> [-> [-> [-> [-> [-> ->]]]]]]]]. reflexivity.
Qed.

(** What [get_common_band_names_457] returns, and when. *)
Lemma common_457_bands (image common : Landsat.image) :
  Landsat.get_common_band_names_457 image = Some common <->
  exists b1 b2 b3 b4 b5 b7 b6,
    Landsat.band "SR_B1" image = Some b1 /\
    Landsat.band "SR_B2" image = Some b2 /\
    Landsat.band "SR_B3" image = Some b3 /\
    Landsat.band "SR_B4" image = Some b4 /\
    Landsat.band "SR_B5" image = Some b5 /\
    Landsat.band "SR_B7" image = Some b7 /\
    Landsat.band "ST_B6" image = Some b6 /\
    common = Landsat.Image (Landsat.system_time_start image)
               [("SR_B1", b1); ("SR_B2", b2); ("SR_B3", b3); ("SR_B4", b4);
                ("SR_B5", b5); ("SR_B7", b7); ("ST", b6)].
Proof.
  unfold Landsat.get_common_band_names_457, Landsat.select, Landsat.rename.
  cbn [CloudFilter.map_opt].
  split.
  - intro H.
    destruct (Landsat.band "SR_B1" image) as [b1 |]; [| discriminate].
    destruct (Landsat.band "SR_B2" image) as [b2 |]; [| discriminate].
    destruct (Landsat.band "SR_B3" image) as [b3 |]; [| discriminate].
    destruct (Landsat.band "SR_B4" image) as [b4 |]; [| discriminate].
    destruct (Landsat.band "SR_B5" image) as [b5 |]; [| discriminate].
    destruct (Landsat.band "SR_B7" image) as [b7 |]; [| discriminate].
    destruct (Landsat.band "ST_B6" image) as [b6 |]; [| discriminate].
    cbn in H. inversion H.
    exists b1, b2, b3, b4, b5, b7, b6. repeat split.
  - intros [b1 [b2 [b3 [b4 [b5 [b7 [b6 H]]]]]]].
    destruct H as [-> [-> [-> [-> [-> [-> [-> ->]]]]]]]. reflexivity.
Qed.

(** On an image renamed by [get_common_band_names_89], the Landsat 4-5-7
    versions of NDVI, EVI, NIRv and SAVI add the very band that the
    Landsat 8-9 versions add on the image before renaming. *)
Theorem indices_agree_after_renaming (image common : Landsat.image) :
  Landsat.get_common_band_names_89 image = Some common ->
  exists ndvi evi nirv savi,
    Landsat.get_ndvi_89 image = Some (Landsat.addBands image [("NDVI", ndvi)]) /\
    Landsat.get_ndvi_457 common = Some (Landsat.addBands common [("NDVI", ndvi)]) /\
    Landsat.get_evi_89 image = Some (Landsat.addBands image [("EVI", evi)]) /\
    Landsat.get_evi_457 common = Some (Landsat.addBands common [("EVI", evi)]) /\
    Landsat.get_nirv_89 image = Some (Landsat.addBands image [("NIRv", nirv)]) /\
    Landsat.get_nirv_457 common = Some (Landsat.addBands common [("NIRv", nirv)]) /\
    Landsat.get_savi_89 image = Some (Landsat.addBands image [("SAVI", savi)]) /\
    Landsat.get_savi_457 common = Some (Landsat.addBands common [("SAVI", savi)]).
Proof.
  intro H. apply common_89_bands in H.
  destruct H as [b1 [b2 [b3 [b4 [b5 [b6 [b7 [b10 H]]]]]]]].
  destruct H as [H1 [H2 [H3 [H4 [H5 [H6 [H7 [H10 ->]]]]]]]].
  exists (Landsat.normalized_difference b5 b4), (Landsat.evi b5 b4 b2),
         (multiply (Landsat.normalized_difference b5 b4) b5),
         (Landsat.savi b5 b4).
  unfold Landsat.get_ndvi_89, Landsat.get_evi_89, Landsat.get_nirv_89,
    Landsat.get_savi_89, Landsat.normalizedDifference.
  rewrite H2, H4, H5.
  repeat split.
Qed.

(** [get_ndsvi_457], as the module exports it, reads SR_B6: it fails on
    every image returned by [get_common_band_names_457] and by
    [get_common_band_names_89], which have no band of that name. *)
Theorem ndsvi_fails_on_common_bands (image common : Landsat.image) :
  Landsat.get_common_band_names_457 image = Some common \/
  Landsat.get_common_band_names_89 image = Some common ->
  Landsat.get_ndsvi_457 common = None.
Proof.
  intros [H | H].
  - apply common_457_bands in H.
    destruct H as [b1 [b2 [b3 [b4 [b5 [b7 [b6 H]]]]]]].
    destruct H as [_ [_ [_ [_ [_ [_ [_ ->]]]]]]]. reflexivity.
  - apply common_89_bands in H.
    destruct H as [b1 [b2 [b3 [b4 [b5 [b6 [b7 [b10 H]]]]]]]].
    destruct H as [_ [_ [_ [_ [_ [_ [_ [_ ->]]]]]]]]. reflexivity.
Qed.

(** [remove_coastal_band] takes the eighth band off an image renamed by
    [get_common_band_names_89] and leaves the other seven, under the names
    and in the order that [get_common_band_names_457] gives; an image
    renamed by the latter is returned as it is. *)
Theorem remove_coastal_band_aligns_sensors (image common : Landsat.image) :
  (Landsat.get_common_band_names_89 image = Some common ->
   Landsat.remove_coastal_band common
   = Some (Landsat.Image (Landsat.system_time_start common)
             (firstn 7 (Landsat.bands common))) /\
   map fst (firstn 7 (Landsat.bands common))
   = ["SR_B1"; "SR_B2"; "SR_B3"; "SR_B4"; "SR_B5"; "SR_B7"; "ST"]) /\
  (Landsat.get_common_band_names_457 image = Some common ->
   Landsat.remove_coastal_band common = Some common /\
   Landsat.bandNames common
   = ["SR_B1"; "SR_B2"; "SR_B3"; "SR_B4"; "SR_B5"; "SR_B7"; "ST"]).
Proof.
  split; intro H.
  - apply common_89_bands in H.
    destruct H as [b1 [b2 [b3 [b4 [b5 [b6 [b7 [b10 H]]]]]]]].
    destruct H as [_ [_ [_ [_ [_ [_ [_ [_ ->]]]]]]]]. split; reflexivity.
  - apply common_457_bands in H.
    destruct H as [b1 [b2 [b3 [b4 [b5 [b7 [b6 H]]]]]]].
    destruct H as [_ [_ [_ [_ [_ [_ [_ ->]]]]]]]. split; reflexivity.
Qed.

End CommonBands.

Section CommonBandExamples.

Import String.
Local Open Scope string_scope.
Local Open Scope list_scope.
Local Open Scope Z_scope.

(** A Landsat 8 scene: NDVI from SR_B5 and SR_B4 before renaming, from
    SR_B4 and SR_B3 after. *)
Lemma indices_agree_after_renaming_oli :
  exists common ndvi,
    Landsat.get_common_band_names_89
      (Scenes.oli_scene (Examples.day 2020 6 1) Scenes.qa_clear) = Some common /\
    Landsat.get_ndvi_89
      (Scenes.oli_scene (Examples.day 2020 6 1) Scenes.qa_clear)
    = Some (Landsat.addBands
              (Scenes.oli_scene (Examples.day 2020 6 1) Scenes.qa_clear)
              [("NDVI", ndvi)]) /\
    Landsat.get_ndvi_457 common
    = Some (Landsat.addBands common [("NDVI", ndvi)]).
Proof.
  destruct (Landsat.get_common_band_names_89
              (Scenes.oli_scene (Examples.day 2020 6 1) Scenes.qa_clear))
    as [common |] eqn:Hc; [| discriminate].
  destruct (indices_agree_after_renaming _ common Hc)
    as [ndvi [evi [nirv [savi [H89 [H457 _]]]]]].
  exists common, ndvi. split; [reflexivity |]. split; assumption.
Defined.

(** A Landsat 7 scene under the common names has no NDSVI. *)
Lemma ndsvi_fails_on_common_bands_tm :
  exists common,
    Landsat.get_common_band_names_457
      (Scenes.tm_scene (Examples.day 2020 6 9) Scenes.qa_clear) = Some common /\
    Landsat.get_ndsvi_457 common = None.
Proof.
  destruct (Landsat.get_common_band_names_457
              (Scenes.tm_scene (Examples.day 2020 6 9) Scenes.qa_clear))
    as [common |] eqn:Hc; [| discriminate].
  exists common. split; [reflexivity |].
  apply (ndsvi_fails_on_common_bands
           (Scenes.tm_scene (Examples.day 2020 6 9) Scenes.qa_clear) common).
  left. exact Hc.
Defined.

(** A Landsat 8 scene under the common names, without its coastal band,
    has the seven common names. *)
Lemma remove_coastal_band_aligns_sensors_oli :
  exists common,
    Landsat.get_common_band_names_89
      (Scenes.oli_scene (Examples.day 2020 6 1) Scenes.qa_clear) = Some common /\
    option_map Landsat.bandNames (Landsat.remove_coastal_band common)
    = Some common_names.
Proof.
  destruct (Landsat.get_common_band_names_89
              (Scenes.oli_scene (Examples.day 2020 6 1) Scenes.qa_clear))
    as [common |] eqn:Hc; [| discriminate].
  destruct (remove_coastal_band_aligns_sensors
              (Scenes.oli_scene (Examples.day 2020 6 1) Scenes.qa_clear) common)
    as [H89 _].
  destruct (H89 Hc) as [Hremoved Hnames].
  exists common. split; [reflexivity |].
  rewrite Hremoved. cbn [option_map]. unfold Landsat.bandNames.
  cbn [Landsat.bands]. rewrite Hnames. reflexivity.
Defined.

End CommonBandExamples.

(** ** The collections of collection_building.py *)

Section Collections.

Import String.
Local Open Scope string_scope.
Local Open Scope list_scope.
Local Open Scope Z_scope.

Lemma lookup_app (n : string) (l1 l2 : list (string * pixel)) :
  Landsat.lookup n (l1 ++ l2)
  = match Landsat.lookup n l1 with
    | Some p => Some p
    | None => Landsat.lookup n l2
    end.
Proof.
  induction l1 as [| [m p] l1 IH]; [reflexivity |].
  cbn [app Landsat.lookup]. destruct (String.eqb m n); [reflexivity | exact IH].
Qed.

Lemma lookup_map (f : pixel -> pixel) (n : string) (l : list (string * pixel)) :
  Landsat.lookup n (map (fun b => (fst b, f (snd b))) l)
  = option_map f (Landsat.lookup n l).
Proof.
  induction l as [| [m p] l IH]; [reflexivity |].
  cbn [map Landsat.lookup fst snd].
  destruct (String.eqb m n); [reflexivity | exact IH].
Qed.

Lemma lookup_starting (start n : string) (l : list (string * pixel)) :
  Landsat.lookup n (filter (fun b => prefix start (fst b)) l)
  = if prefix start n then Landsat.lookup n l else None.
Proof.
  induction l as [| [m p] l IH].
  - cbn. destruct (prefix start n); reflexivity.
  - cbn [filter fst Landsat.lookup].
    destruct (String.eqb m n) eqn:E.
    + apply String.eqb_eq in E. subst m.
      destruct (prefix start n) eqn:Hp.
      * cbn [Landsat.lookup]. now rewrite String.eqb_refl.
      * exact IH.
    + destruct (prefix start m).
      * cbn [Landsat.lookup]. rewrite E. exact IH.
      * exact IH.
Qed.

Lemma band_on_bands (f : pixel -> pixel) (n : string) (img : Landsat.image) :
  Landsat.band n (Landsat.on_bands f img) = option_map f (Landsat.band n img).
Proof. unfold Landsat.band, Landsat.on_bands. apply lookup_map. Qed.

(** The bands of a rescaled image, by name. *)
Lemma rescaled_band (image rescaled : Landsat.image) (n : string) :
  Landsat.landsat_rescale image = Some rescaled ->
  Landsat.system_time_start rescaled = Landsat.system_time_start image /\
  Landsat.band n rescaled
  = if prefix "SR_B" n then option_map rescaled_sr (Landsat.band n image)
    else if prefix "ST_B" n then option_map rescaled_st (Landsat.band n image)
    else if String.eqb "QA_PIXEL" n then Landsat.band n image
    else None.
Proof.
  unfold Landsat.landsat_rescale, Landsat.select_starting, Landsat.select.
  cbn [CloudFilter.map_opt]. intro H.
  destruct (filter (fun b => prefix "SR_B" (fst b)) (Landsat.bands image))
    as [| s sr] eqn:Hsr; [discriminate |].
  cbn [CloudFilter.bind] in H. rewrite <- Hsr in H. clear Hsr.
  destruct (filter (fun b => prefix "ST_B" (fst b)) (Landsat.bands image))
    as [| t st] eqn:Hst; [discriminate |].
  cbn [CloudFilter.bind] in H. rewrite <- Hst in H. clear Hst.
  destruct (Landsat.band "QA_PIXEL" image) as [qa |] eqn:Hqa; [| discriminate].
  cbn [CloudFilter.bind] in H. inversion H as [H']. clear H H'.
  split; [reflexivity |].
  unfold Landsat.band, Landsat.addBands, Landsat.on_bands.
  cbn [Landsat.bands Landsat.system_time_start].
  change (fun b : string * pixel =>
            (fst b, add (multiply (snd b) (constant (275 # 10000000)))
                        (constant (- (2 # 10)))))
    with (fun b : string * pixel => (fst b, rescaled_sr (snd b))).
  change (fun b : string * pixel =>
            (fst b, add (multiply (snd b) (constant (341802 # 100000000)))
                        (constant 149)))
    with (fun b : string * pixel => (fst b, rescaled_st (snd b))).
  rewrite !lookup_app, !lookup_map, !lookup_starting.
  destruct (prefix "SR_B" n) eqn:Psr.
  - destruct (Landsat.lookup n (Landsat.bands image)) eqn:E; cbn [option_map].
    + reflexivity.
    + destruct (prefix "ST_B" n) eqn:Pst.
      * cbn [option_map Landsat.lookup].
        destruct (String.eqb "QA_PIXEL" n) eqn:Q; [| reflexivity].
        apply String.eqb_eq in Q. subst n. discriminate.
      * cbn [option_map Landsat.lookup].
        destruct (String.eqb "QA_PIXEL" n) eqn:Q; [| reflexivity].
        apply String.eqb_eq in Q. subst n. discriminate.
  - cbn [option_map]. destruct (prefix "ST_B" n) eqn:Pst.
    + destruct (Landsat.lookup n (Landsat.bands image)) eqn:E; cbn [option_map].
      * reflexivity.
      * cbn [Landsat.lookup].
        destruct (String.eqb "QA_PIXEL" n) eqn:Q; [| reflexivity].
        apply String.eqb_eq in Q. subst n. discriminate.
    + cbn [option_map Landsat.lookup].
      destruct (String.eqb "QA_PIXEL" n) eqn:Q; [| reflexivity].
      apply String.eqb_eq in Q. subst n. unfold Landsat.band in Hqa.
      now rewrite Hqa.
Qed.

(** Three mapped functions in a row, read at one rank. *)
Lemma collection_map_chain (f g h : Landsat.image -> option Landsat.image)
    (c : list Landsat.image) (out : list Landsat.image) (i : nat)
    (z : Landsat.image) :
  CloudFilter.bind (Landsat.collection_map f c) (fun a =>
    CloudFilter.bind (Landsat.collection_map g a) (fun b =>
      Landsat.collection_map h b)) = Some out ->
  nth_error out i = Some z ->
  exists x y w,
    nth_error c i = Some x /\ f x = Some y /\ g y = Some w /\ h w = Some z.
Proof.
  unfold Landsat.collection_map. intros H Hz.
  destruct (CloudFilter.map_opt f c) as [a |] eqn:Ha; [| discriminate].
  cbn [CloudFilter.bind] in H.
  destruct (CloudFilter.map_opt g a) as [b |] eqn:Hb; [| discriminate].
  cbn [CloudFilter.bind] in H.
  destruct (map_opt_nth _ _ _ _ _ H Hz) as [w [Hw Hhw]].
  destruct (map_opt_nth _ _ _ _ _ Hb Hw) as [y [Hy Hgy]].
  destruct (map_opt_nth _ _ _ _ _ Ha Hy) as [x [Hx Hfx]].
  exists x, y, w. repeat split; assumption.
Qed.

Lemma filterDate_nth (start stop : Z) (c : list Landsat.image) (i : nat)
    (x : Landsat.image) :
  nth_error (Landsat.filterDate start stop c) i = Some x ->
  In x c /\ start <= Landsat.system_time_start x < stop.
Proof.
  intro H. apply nth_error_In in H. unfold Landsat.filterDate in H.
  apply filter_In in H. destruct H as [Hin Ht].
  apply andb_true_iff in Ht. split; [exact Hin | lia].
Qed.

Lemma prepared_pixel (scale : Q -> Q) (b m : pixel) (c1 c2 : Q) :
  (forall v, scale v = (v * c1 + c2)%Q) ->
  updateMask (add (multiply b (constant c1)) (constant c2)) m
  = prepared scale (nonzero m) b.
Proof.
  intro Hs. unfold prepared. pixel_unfold. rewrite Hs.
  now rewrite !andb_true_r.
Qed.

Variables date_start date_stop : Z.
Variable mask_clouds : pixel.
Hypothesis mask_on : nonzero mask_clouds = true.

(** Every image of the collection that [get_collection] and
    [get_collection_89] build from a Landsat 8 or 9 catalogue comes from a
    catalogue image acquired in [date_start, date_stop); it holds, under
    the common names, the reflectance bands 2 to 7, the temperature band
    10 and the coastal band 1 of that image, rescaled, and unmasked where
    the band and QA_PIXEL were unmasked and the four cloud bits are
    zero. *)
Theorem collection_89_prepares_images (catalogue out : list Landsat.image)
    (i : nat) (prepared_image : Landsat.image) :
  Landsat.collection_89 date_start date_stop mask_clouds catalogue = Some out ->
  nth_error out i = Some prepared_image ->
  exists image b1 b2 b3 b4 b5 b6 b7 b10 qa,
    nth_error (Landsat.filterDate date_start date_stop catalogue) i = Some image /\
    date_start <= Landsat.system_time_start image < date_stop /\
    Landsat.band "SR_B1" image = Some b1 /\
    Landsat.band "SR_B2" image = Some b2 /\
    Landsat.band "SR_B3" image = Some b3 /\
    Landsat.band "SR_B4" image = Some b4 /\
    Landsat.band "SR_B5" image = Some b5 /\
    Landsat.band "SR_B6" image = Some b6 /\
    Landsat.band "SR_B7" image = Some b7 /\
    Landsat.band "ST_B10" image = Some b10 /\
    Landsat.band "QA_PIXEL" image = Some qa /\
    let keep := valid qa && clear_89 (Qfloor (val qa)) in
    prepared_image
    = Landsat.Image (Landsat.system_time_start image)
        [("SR_B1", prepared reflectance keep b2);
         ("SR_B2", prepared reflectance keep b3);
         ("SR_B3", prepared reflectance keep b4);
         ("SR_B4", prepared reflectance keep b5);
         ("SR_B5", prepared reflectance keep b6);
         ("SR_B7", prepared reflectance keep b7);
         ("ST", prepared temperature keep b10);
         ("SR_coastal", prepared reflectance keep b1)].
Proof.
  intros Hout Hi. unfold Landsat.collection_89 in Hout.
  destruct (collection_map_chain _ _ _ _ _ _ _ Hout Hi)
    as [x [y [w [Hx [Hxy [Hyw Hwz]]]]]].
  exists x.
  apply common_89_bands in Hwz.
  destruct Hwz as [w1 [w2 [w3 [w4 [w5 [w6 [w7 [w10 Hw]]]]]]]].
  destruct Hw as [W1 [W2 [W3 [W4 [W5 [W6 [W7 [W10 ->]]]]]]]].
  unfold Landsat.landsat_cloud_mask_89 in Hyw.
  destruct (Landsat.band "QA_PIXEL" y) as [qa |] eqn:Hqa; [| discriminate].
  cbn [CloudFilter.bind] in Hyw. cbv zeta in Hyw.
  injection Hyw as Hw. subst w.
  rewrite band_on_bands in W1, W2, W3, W4, W5, W6, W7, W10.
  assert (Ht : Landsat.system_time_start y = Landsat.system_time_start x)
    by apply (rescaled_band x y "QA_PIXEL" Hxy).
  repeat match goal with
  | H : context [Landsat.band ?n y] |- _ =>
      rewrite (proj2 (rescaled_band x y n Hxy)) in H
  end.
  repeat match goal with
  | H : context [prefix ?a ?b] |- _ =>
      let v := eval vm_compute in (prefix a b) in
      change (prefix a b) with v in H
  | H : context [String.eqb ?a ?b] |- _ =>
      let v := eval vm_compute in (String.eqb a b) in
      change (String.eqb a b) with v in H
  end.
  cbv iota in Hqa, W1, W2, W3, W4, W5, W6, W7, W10.
  destruct (Landsat.band "SR_B1" x) as [b1 |]; [| discriminate].
  destruct (Landsat.band "SR_B2" x) as [b2 |]; [| discriminate].
  destruct (Landsat.band "SR_B3" x) as [b3 |]; [| discriminate].
  destruct (Landsat.band "SR_B4" x) as [b4 |]; [| discriminate].
  destruct (Landsat.band "SR_B5" x) as [b5 |]; [| discriminate].
  destruct (Landsat.band "SR_B6" x) as [b6 |]; [| discriminate].
  destruct (Landsat.band "SR_B7" x) as [b7 |]; [| discriminate].
  destruct (Landsat.band "ST_B10" x) as [b10 |]; [| discriminate].
  exists b1, b2, b3, b4, b5, b6, b7, b10, qa.
  destruct (filterDate_nth _ _ _ _ _ Hx) as [_ Hrange].
  split; [exact Hx |]. split; [exact Hrange |].
  repeat (split; [reflexivity || exact Hqa |]).
  cbv zeta. cbn [Landsat.on_bands Landsat.system_time_start]. rewrite Ht.
  cbn [option_map] in W1, W2, W3, W4, W5, W6, W7, W10.
  injection W1 as <-; injection W2 as <-; injection W3 as <-;
    injection W4 as <-; injection W5 as <-; injection W6 as <-;
    injection W7 as <-; injection W10 as <-.
  unfold rescaled_sr, rescaled_st.
  rewrite (prepared_pixel reflectance b1), (prepared_pixel reflectance b2),
    (prepared_pixel reflectance b3), (prepared_pixel reflectance b4),
    (prepared_pixel reflectance b5), (prepared_pixel reflectance b6),
    (prepared_pixel reflectance b7), (prepared_pixel temperature b10)
    by reflexivity.
  rewrite (mask_89_keeps _ _ mask_on). reflexivity.
Qed.

(** The same for a Landsat 4, 5 or 7 catalogue, as [get_collection] and
    [get_collection_457] treat it: the reflectance bands 1 to 5 and 7 and
    the temperature band 6 keep their numbers, and three cloud bits are
    read. *)
Theorem collection_457_prepares_images (catalogue out : list Landsat.image)
    (i : nat) (prepared_image : Landsat.image) :
  Landsat.collection_457 date_start date_stop mask_clouds catalogue = Some out ->
  nth_error out i = Some prepared_image ->
  exists image b1 b2 b3 b4 b5 b7 b6 qa,
    nth_error (Landsat.filterDate date_start date_stop catalogue) i = Some image /\
    date_start <= Landsat.system_time_start image < date_stop /\
    Landsat.band "SR_B1" image = Some b1 /\
    Landsat.band "SR_B2" image = Some b2 /\
    Landsat.band "SR_B3" image = Some b3 /\
    Landsat.band "SR_B4" image = Some b4 /\
    Landsat.band "SR_B5" image = Some b5 /\
    Landsat.band "SR_B7" image = Some b7 /\
    Landsat.band "ST_B6" image = Some b6 /\
    Landsat.band "QA_PIXEL" image = Some qa /\
    let keep := valid qa && clear_457 (Qfloor (val qa)) in
    prepared_image
    = Landsat.Image (Landsat.system_time_start image)
        [("SR_B1", prepared reflectance keep b1);
         ("SR_B2", prepared reflectance keep b2);
         ("SR_B3", prepared reflectance keep b3);
         ("SR_B4", prepared reflectance keep b4);
         ("SR_B5", prepared reflectance keep b5);
         ("SR_B7", prepared reflectance keep b7);
         ("ST", prepared temperature keep b6)].
Proof.
  intros Hout Hi. unfold Landsat.collection_457 in Hout.
  destruct (collection_map_chain _ _ _ _ _ _ _ Hout Hi)
    as [x [y [w [Hx [Hxy [Hyw Hwz]]]]]].
  exists x.
  apply common_457_bands in Hwz.
  destruct Hwz as [w1 [w2 [w3 [w4 [w5 [w7 [w6 Hw]]]]]]].
  destruct Hw as [W1 [W2 [W3 [W4 [W5 [W7 [W6 ->]]]]]]].
  unfold Landsat.landsat_cloud_mask_457 in Hyw.
  destruct (Landsat.band "QA_PIXEL" y) as [qa |] eqn:Hqa; [| discriminate].
  cbn [CloudFilter.bind] in Hyw. cbv zeta in Hyw.
  injection Hyw as Hw. subst w.
  rewrite band_on_bands in W1, W2, W3, W4, W5, W7, W6.
  assert (Ht : Landsat.system_time_start y = Landsat.system_time_start x)
    by apply (rescaled_band x y "QA_PIXEL" Hxy).
  repeat match goal with
  | H : context [Landsat.band ?n y] |- _ =>
      rewrite (proj2 (rescaled_band x y n Hxy)) in H
  end.
  repeat match goal with
  | H : context [prefix ?a ?b] |- _ =>
      let v := eval vm_compute in (prefix a b) in
      change (prefix a b) with v in H
  | H : context [String.eqb ?a ?b] |- _ =>
      let v := eval vm_compute in (String.eqb a b) in
      change (String.eqb a b) with v in H
  end.
  cbv iota in Hqa, W1, W2, W3, W4, W5, W7, W6.
  destruct (Landsat.band "SR_B1" x) as [b1 |]; [| discriminate].
  destruct (Landsat.band "SR_B2" x) as [b2 |]; [| discriminate].
  destruct (Landsat.band "SR_B3" x) as [b3 |]; [| discriminate].
  destruct (Landsat.band "SR_B4" x) as [b4 |]; [| discriminate].
  destruct (Landsat.band "SR_B5" x) as [b5 |]; [| discriminate].
  destruct (Landsat.band "SR_B7" x) as [b7 |]; [| discriminate].
  destruct (Landsat.band "ST_B6" x) as [b6 |]; [| discriminate].
  exists b1, b2, b3, b4, b5, b7, b6, qa.
  destruct (filterDate_nth _ _ _ _ _ Hx) as [_ Hrange].
  split; [exact Hx |]. split; [exact Hrange |].
  repeat (split; [reflexivity || exact Hqa |]).
  cbv zeta. cbn [Landsat.on_bands Landsat.system_time_start]. rewrite Ht.
  cbn [option_map] in W1, W2, W3, W4, W5, W7, W6.
  injection W1 as <-; injection W2 as <-; injection W3 as <-;
    injection W4 as <-; injection W5 as <-; injection W7 as <-;
    injection W6 as <-.
  unfold rescaled_sr, rescaled_st.
  rewrite (prepared_pixel reflectance b1), (prepared_pixel reflectance b2),
    (prepared_pixel reflectance b3), (prepared_pixel reflectance b4),
    (prepared_pixel reflectance b5), (prepared_pixel reflectance b7),
    (prepared_pixel temperature b6) by reflexivity.
  rewrite (mask_457_keeps _ _ mask_on). reflexivity.
Qed.

End Collections.

(** ** The merged collection of [get_collection] *)

Section MergedCollection.

Import String.
Local Open Scope string_scope.
Local Open Scope list_scope.
Local Open Scope Z_scope.

Variables date_start date_stop : Z.
Variable mask_clouds : pixel.

Lemma masked_time (image masked : Landsat.image) (m : pixel -> pixel -> pixel) :
  CloudFilter.bind (Landsat.band "QA_PIXEL" image)
    (fun qa => Some (Landsat.on_bands (m qa) image)) = Some masked ->
  Landsat.system_time_start masked = Landsat.system_time_start image.
Proof.
  destruct (Landsat.band "QA_PIXEL" image) as [qa |]; [| discriminate].
  cbn [CloudFilter.bind]. intro H. injection H as <-. reflexivity.
Qed.

Lemma collection_89_images (catalogue out : list Landsat.image) :
  Landsat.collection_89 date_start date_stop mask_clouds catalogue = Some out ->
  List.length out = List.length (Landsat.filterDate date_start date_stop catalogue) /\
  forall img, In img out ->
    date_start <= Landsat.system_time_start img < date_stop /\
    Landsat.bandNames img = common_names ++ ["SR_coastal"].
Proof.
  intro Hout. split.
  - unfold Landsat.collection_89, Landsat.collection_map in Hout.
    destruct (CloudFilter.map_opt Landsat.landsat_rescale _) as [a |] eqn:Ha;
      [| discriminate].
    cbn [CloudFilter.bind] in Hout.
    destruct (CloudFilter.map_opt _ a) as [b |] eqn:Hb; [| discriminate].
    cbn [CloudFilter.bind] in Hout.
    rewrite (map_opt_length _ _ _ Hout), (map_opt_length _ _ _ Hb).
    exact (map_opt_length _ _ _ Ha).
  - intros img Hin. apply In_nth_error in Hin. destruct Hin as [i Hi].
    unfold Landsat.collection_89 in Hout.
    destruct (collection_map_chain _ _ _ _ _ _ _ Hout Hi)
      as [x [y [w [Hx [Hxy [Hyw Hwz]]]]]].
    destruct (filterDate_nth _ _ _ _ _ Hx) as [_ Hrange].
    assert (Hy : Landsat.system_time_start y = Landsat.system_time_start x)
      by apply (rescaled_band x y "QA_PIXEL" Hxy).
    assert (Hw : Landsat.system_time_start w = Landsat.system_time_start y)
      by exact (masked_time y w _ Hyw).
    apply common_89_bands in Hwz.
    destruct Hwz as [b1 [b2 [b3 [b4 [b5 [b6 [b7 [b10 H]]]]]]]].
    destruct H as [_ [_ [_ [_ [_ [_ [_ [_ ->]]]]]]]].
    cbn [Landsat.system_time_start]. rewrite Hw, Hy.
    split; [exact Hrange | reflexivity].
Qed.

Lemma collection_457_images (catalogue out : list Landsat.image) :
  Landsat.collection_457 date_start date_stop mask_clouds catalogue = Some out ->
  List.length out = List.length (Landsat.filterDate date_start date_stop catalogue) /\
  forall img, In img out ->
    date_start <= Landsat.system_time_start img < date_stop /\
    Landsat.bandNames img = common_names.
Proof.
  intro Hout. split.
  - unfold Landsat.collection_457, Landsat.collection_map in Hout.
    destruct (CloudFilter.map_opt Landsat.landsat_rescale _) as [a |] eqn:Ha;
      [| discriminate].
    cbn [CloudFilter.bind] in Hout.
    destruct (CloudFilter.map_opt _ a) as [b |] eqn:Hb; [| discriminate].
    cbn [CloudFilter.bind] in Hout.
    rewrite (map_opt_length _ _ _ Hout), (map_opt_length _ _ _ Hb).
    exact (map_opt_length _ _ _ Ha).
  - intros img Hin. apply In_nth_error in Hin. destruct Hin as [i Hi].
    unfold Landsat.collection_457 in Hout.
    destruct (collection_map_chain _ _ _ _ _ _ _ Hout Hi)
      as [x [y [w [Hx [Hxy [Hyw Hwz]]]]]].
    destruct (filterDate_nth _ _ _ _ _ Hx) as [_ Hrange].
    assert (Hy : Landsat.system_time_start y = Landsat.system_time_start x)
      by apply (rescaled_band x y "QA_PIXEL" Hxy).
    assert (Hw : Landsat.system_time_start w = Landsat.system_time_start y)
      by exact (masked_time y w _ Hyw).
    apply common_457_bands in Hwz.
    destruct Hwz as [b1 [b2 [b3 [b4 [b5 [b7 [b6 H]]]]]]].
    destruct H as [_ [_ [_ [_ [_ [_ [_ ->]]]]]]].
    cbn [Landsat.system_time_start]. rewrite Hw, Hy.
    split; [exact Hrange | reflexivity].
Qed.

Variables landsat_lt04 landsat_lt05 landsat_le07 landsat_lc08 landsat_lc09
  : list Landsat.image.

(** When [get_collection] returns, the merged collection is the Landsat 9
    images, then those of Landsat 8, 7, 5 and 4, one for every catalogue
    image acquired in [date_start, date_stop).  Its images do not share one
    band list: those of Landsat 9 and 8 have the seven common bands and
    SR_coastal, those of Landsat 7, 5 and 4 the seven common bands only. *)
Theorem get_collection_mixes_band_lists (all_scenes : list Landsat.image) :
  Landsat.get_collection landsat_lt04 landsat_lt05 landsat_le07 landsat_lc08
    landsat_lc09 date_start date_stop mask_clouds = Some all_scenes ->
  exists l9 l8 l7 l5 l4,
    all_scenes = l9 ++ l8 ++ l7 ++ l5 ++ l4 /\
    List.length l9 = List.length (Landsat.filterDate date_start date_stop landsat_lc09) /\
    List.length l8 = List.length (Landsat.filterDate date_start date_stop landsat_lc08) /\
    List.length l7 = List.length (Landsat.filterDate date_start date_stop landsat_le07) /\
    List.length l5 = List.length (Landsat.filterDate date_start date_stop landsat_lt05) /\
    List.length l4 = List.length (Landsat.filterDate date_start date_stop landsat_lt04) /\
    (forall img, In img (l9 ++ l8) ->
       Landsat.bandNames img = common_names ++ ["SR_coastal"]) /\
    (forall img, In img (l7 ++ l5 ++ l4) ->
       Landsat.bandNames img = common_names) /\
    (forall img, In img all_scenes ->
       date_start <= Landsat.system_time_start img < date_stop).
Proof.
  unfold Landsat.get_collection. intro H.
  destruct (Landsat.collection_457 _ _ _ landsat_lt04) as [l4 |] eqn:H4;
    [| discriminate]. cbn [CloudFilter.bind] in H.
  destruct (Landsat.collection_457 _ _ _ landsat_lt05) as [l5 |] eqn:H5;
    [| discriminate]. cbn [CloudFilter.bind] in H.
  destruct (Landsat.collection_457 _ _ _ landsat_le07) as [l7 |] eqn:H7;
    [| discriminate]. cbn [CloudFilter.bind] in H.
  destruct (Landsat.collection_89 _ _ _ landsat_lc08) as [l8 |] eqn:H8;
    [| discriminate]. cbn [CloudFilter.bind] in H.
  destruct (Landsat.collection_89 _ _ _ landsat_lc09) as [l9 |] eqn:H9;
    [| discriminate]. cbn [CloudFilter.bind] in H.
  injection H as <-.
  destruct (collection_457_images _ _ H4) as [L4 I4].
  destruct (collection_457_images _ _ H5) as [L5 I5].
  destruct (collection_457_images _ _ H7) as [L7 I7].
  destruct (collection_89_images _ _ H8) as [L8 I8].
  destruct (collection_89_images _ _ H9) as [L9 I9].
  exists l9, l8, l7, l5, l4.
  split; [reflexivity |].
  repeat (split; [assumption |]).
  split; [| split].
  - intros img Hin. apply in_app_or in Hin.
    destruct Hin as [Hin | Hin]; [apply (I9 _ Hin) | apply (I8 _ Hin)].
  - intros img Hin. apply in_app_or in Hin. destruct Hin as [Hin | Hin].
    + apply (I7 _ Hin).
    + apply in_app_or in Hin.
      destruct Hin as [Hin | Hin]; [apply (I5 _ Hin) | apply (I4 _ Hin)].
  - intros img Hin.
    repeat (apply in_app_or in Hin; destruct Hin as [Hin | Hin]);
      first [apply (I9 _ Hin) | apply (I8 _ Hin) | apply (I7 _ Hin)
            | apply (I5 _ Hin) | apply (I4 _ Hin)].
Qed.

End MergedCollection.

Section CollectionExamples.

Import String.
Local Open Scope string_scope.
Local Open Scope list_scope.
Local Open Scope Z_scope.

(** The Landsat 8 catalogue [lc08] over 2020: the second image delivered
    is the cloudy scene of 17 June, its bands masked. *)
Lemma collection_89_prepares_images_2020 :
  exists out prepared_image,
    Landsat.collection_89 (Examples.day 2020 1 1) (Examples.day 2021 1 1)
      (constant 1) Scenes.lc08 = Some out /\
    nth_error out 1 = Some prepared_image /\
    Landsat.system_time_start prepared_image = Examples.day 2020 6 17 /\
    Landsat.band "SR_B4" prepared_image
    = Some (prepared reflectance false (Pixel 20000 true)).
Proof.
  destruct (Landsat.collection_89 (Examples.day 2020 1 1)
              (Examples.day 2021 1 1) (constant 1) Scenes.lc08)
    as [out |] eqn:Hout; [| vm_compute in Hout; discriminate].
  destruct (nth_error out 1) as [prepared_image |] eqn:Hi;
    [| vm_compute in Hout; injection Hout as <-; discriminate].
  destruct (collection_89_prepares_images (Examples.day 2020 1 1)
              (Examples.day 2021 1 1) (constant 1) Logic.eq_refl
              Scenes.lc08 out 1 prepared_image Hout Hi)
    as [image [b1 [b2 [b3 [b4 [b5 [b6 [b7 [b10 [qa H]]]]]]]]]].
  destruct H as [Hx [_ [_ [_ [_ [_ [H5 [_ [_ [_ [Hqa ->]]]]]]]]]]].
  change (nth_error [Scenes.oli_scene (Examples.day 2020 6 1) Scenes.qa_clear;
                     Scenes.oli_scene (Examples.day 2020 6 17) Scenes.qa_cloud] 1
          = Some image) in Hx.
  injection Hx as <-. injection H5 as <-. injection Hqa as <-.
  exists out. eexists. split; [reflexivity |]. split; [exact Hi |].
  split; reflexivity.
Defined.

(** The Landsat 7 catalogue [le07] over 2020: the first image delivered is
    the clear scene of 9 June. *)
Lemma collection_457_prepares_images_2020 :
  exists out prepared_image,
    Landsat.collection_457 (Examples.day 2020 1 1) (Examples.day 2021 1 1)
      (constant 1) Scenes.le07 = Some out /\
    nth_error out 0 = Some prepared_image /\
    Landsat.system_time_start prepared_image = Examples.day 2020 6 9 /\
    Landsat.band "SR_B4" prepared_image
    = Some (prepared reflectance true (Pixel 20000 true)).
Proof.
  destruct (Landsat.collection_457 (Examples.day 2020 1 1)
              (Examples.day 2021 1 1) (constant 1) Scenes.le07)
    as [out |] eqn:Hout; [| vm_compute in Hout; discriminate].
  destruct (nth_error out 0) as [prepared_image |] eqn:Hi;
    [| vm_compute in Hout; injection Hout as <-; discriminate].
  destruct (collection_457_prepares_images (Examples.day 2020 1 1)
              (Examples.day 2021 1 1) (constant 1) Logic.eq_refl
              Scenes.le07 out 0 prepared_image Hout Hi)
    as [image [b1 [b2 [b3 [b4 [b5 [b7 [b6 [qa H]]]]]]]]].
  destruct H as [Hx [_ [_ [_ [_ [H4 [_ [_ [_ [Hqa ->]]]]]]]]]].
  change (nth_error [Scenes.tm_scene (Examples.day 2020 6 9) Scenes.qa_clear;
                     Scenes.tm_scene (Examples.day 2020 6 25) Scenes.qa_cloud] 0
          = Some image) in Hx.
  injection Hx as <-. injection H4 as <-. injection Hqa as <-.
  exists out. eexists. split; [reflexivity |]. split; [exact Hi |].
  split; reflexivity.
Defined.

(** The five catalogues of [Scenes] over 2020: two Landsat 8 images and
    two Landsat 7 images are merged, four in all. *)
Lemma get_collection_mixes_band_lists_2020 :
  exists all_scenes,
    Landsat.get_collection Scenes.lt04 Scenes.lt05 Scenes.le07 Scenes.lc08
      Scenes.lc09 (Examples.day 2020 1 1) (Examples.day 2021 1 1) (constant 1)
    = Some all_scenes /\
    List.length all_scenes = 4%nat.
Proof.
  destruct (Landsat.get_collection Scenes.lt04 Scenes.lt05 Scenes.le07
              Scenes.lc08 Scenes.lc09 (Examples.day 2020 1 1)
              (Examples.day 2021 1 1) (constant 1))
    as [all_scenes |] eqn:Hall; [| vm_compute in Hall; discriminate].
  destruct (get_collection_mixes_band_lists (Examples.day 2020 1 1)
              (Examples.day 2021 1 1) (constant 1) Scenes.lt04 Scenes.lt05
              Scenes.le07 Scenes.lc08 Scenes.lc09 all_scenes Hall)
    as [l9 [l8 [l7 [l5 [l4 [-> [L9 [L8 [L7 [L5 [L4 _]]]]]]]]]]].
  exists (l9 ++ l8 ++ l7 ++ l5 ++ l4). split; [reflexivity |].
  rewrite !length_app, L9, L8, L7, L5, L4. reflexivity.
Defined.

End CollectionExamples.
